(** * The clan bot (bot.py): a shallow embedding and its verified properties

    The development follows the layout of [bot.py]:
    - Python values the bot computes with (exceptions, [int / int], the
      fixed-point float format, [str] helpers);
    - the upstream client ([fetch_runemetrics], [fetch_hiscores]);
    - the report code ([format_number], the stats, compare and leaderboard
      embeds);
    - the SQLite store and the slash commands over it.

    Python [str] values are [string]s holding UTF-8 bytes; Python [int]s are
    [Z]; a Python exception leaving a function is the [Raise] branch of
    [res].  A command ends with the reply it hands to the chat platform;
    what the platform does with it is outside the embedding. *)

From Stdlib Require Import ZArith Lia Bool List Ascii String.
From Stdlib Require Import Sorting.Permutation Sorting.Sorted Structures.OrdersEx.
From stdpp Require Import base option strings pretty list gmap fin_maps.

Local Open Scope string_scope.
Local Open Scope Z_scope.

(** ** Exceptions *)

Inductive exn : Set :=
| OverflowError
| ZeroDivisionError
| KeyError (key : string).

Inductive res (A : Type) : Type :=
| Ok (a : A)
| Raise (e : exn).
Arguments Ok {A} a.
Arguments Raise {A} e.

#[global] Instance res_ret : MRet res := fun _ a => Ok a.

#[global] Instance res_bind : MBind res := fun _ _ k r =>
  match r with
  | Ok a => k a
  | Raise e => Raise e
  end.

(** ** Python floats

    A finite binary64 value is [(-1)^neg * mant * 2^expo].  The bot only
    makes floats by dividing two ints and only reads them back through the
    [.kf] format, so the embedding keeps the exact dyadic value. *)

Module PyFloat.

Record float : Set := mk { neg : bool; mant : Z; expo : Z }.

(** Nearest integer to [a / b] for [b > 0], ties to the even one. *)
Definition round_half_even (a b : Z) : Z :=
  let q := a / b in
  match 2 * (a mod b) ?= b with
  | Lt => q
  | Gt => q + 1
  | Eq => if Z.even q then q else q + 1
  end.

(** The rational [a / b] scaled by [2^(-e)], as a fraction. *)
Definition scaled (a b e : Z) : Z * Z :=
  if e <? 0 then (a * 2 ^ (- e), b) else (a, b * 2 ^ e).

(** [floor (log2 (a / b))] for positive [a] and [b]. *)
Definition quot_log2 (a b : Z) : Z :=
  let d := Z.log2 a - Z.log2 b in
  let '(n, m) := scaled a b d in
  if m <=? n then d else d - 1.

(** The double nearest to [a / b] (round to nearest, ties to even, with
    gradual underflow) for [a >= 0] and [b > 0]; [None] when that double
    would be infinite. *)
Definition nearest_double (a b : Z) : option (Z * Z) :=
  if a =? 0 then Some (0, 0)
  else
    let e := Z.max (quot_log2 a b - 52) (-1074) in
    let '(n, m) := scaled a b e in
    let q := round_half_even n m in
    if (971 <? e) || ((e =? 971) && (q =? 2 ^ 53)) then None
    else Some (q, e).

(** [a / b] on two ints: the correctly rounded quotient. *)
Definition true_div (a b : Z) : res float :=
  if b =? 0 then Raise ZeroDivisionError
  else
    match nearest_double (Z.abs a) (Z.abs b) with
    | Some (m, e) => Ok (mk (xorb (a <? 0) (b <? 0)) m e)
    | None => Raise OverflowError
    end.

(** [x * 10^k] rounded to the nearest integer, ties to even: the digits
    that [format(x, ".kf")] prints. *)
Definition scaled_digits (k : nat) (x : float) : Z :=
  let p := 10 ^ Z.of_nat k in
  if expo x <? 0 then round_half_even (mant x * p) (2 ^ (- expo x))
  else mant x * 2 ^ expo x * p.

Fixpoint zero_pad (width : nat) (s : string) : string :=
  match width with
  | O => s
  | S w => if (String.length s <? S w)%nat then zero_pad w ("0" +:+ s) else s
  end.

(** [format(x, ".kf")]. *)
Definition format_fixed (k : nat) (x : float) : string :=
  let p := 10 ^ Z.of_nat k in
  let h := scaled_digits k x in
  let sign := if neg x then "-" else "" in
  let whole := pretty (h / p) in
  match k with
  | O => sign +:+ whole
  | S _ => sign +:+ whole +:+ "." +:+ zero_pad k (pretty (h mod p))
  end.

End PyFloat.

(** ** Number formatting (bot.py, [format_number]) *)

Definition format_number (num : Z) : res string :=
  if 1000000000 <=? num then
    x ← PyFloat.true_div num 1000000000;
    Ok (PyFloat.format_fixed 2 x +:+ "B")
  else if 1000000 <=? num then
    x ← PyFloat.true_div num 1000000;
    Ok (PyFloat.format_fixed 2 x +:+ "M")
  else if 1000 <=? num then
    x ← PyFloat.true_div num 1000;
    Ok (PyFloat.format_fixed 1 x +:+ "K")
  else Ok (pretty num).

(** ** Python [str] helpers *)

Module PyStr.

Definition nl : string := String (ascii_of_nat 10) "".

(** [s.split(sep)] for a one-character separator: never empty. *)
Fixpoint split_on (sep : ascii) (s : string) : list string :=
  match s with
  | EmptyString => [""]
  | String a s' =>
      if Ascii.eqb a sep then "" :: split_on sep s'
      else
        match split_on sep s' with
        | h :: t => String a h :: t
        | [] => [String a ""]
        end
  end.

(** [s.replace(" ", "%20")]. *)
Fixpoint escape_spaces (s : string) : string :=
  match s with
  | EmptyString => ""
  | String a s' =>
      if Ascii.eqb a " "%char then "%20" +:+ escape_spaces s'
      else String a (escape_spaces s')
  end.

(** [s.rstrip(chars)]: drops the trailing characters that are in [chars]. *)
Fixpoint rstrip_chars (chars : list ascii) (s : string) : string :=
  match s with
  | EmptyString => ""
  | String a s' =>
      match rstrip_chars chars s' with
      | EmptyString => if existsb (Ascii.eqb a) chars then "" else String a ""
      | r => String a r
      end
  end.

(** A UTF-8 continuation byte, [10xxxxxx]. *)
Definition is_continuation (a : ascii) : bool :=
  let n := N_of_ascii a in ((128 <=? n) && (n <? 192))%N.

(** [s[:n]]: the first [n] code points of a UTF-8 string. *)
Fixpoint slice_to (n : nat) (s : string) : string :=
  match s with
  | EmptyString => ""
  | String a s' =>
      if is_continuation a then String a (slice_to n s')
      else
        match n with
        | O => ""
        | S n' => String a (slice_to n' s')
        end
  end.

(** Truth value of an optional [str] argument: [None] and [""] are false. *)
Definition truthy (s : option string) : bool :=
  match s with
  | Some (String _ _) => true
  | _ => false
  end.

End PyStr.

(** ** Upstream data (bot.py, lines 16-27 and the two fetch functions) *)

Definition DATABASE : string := "clan_bot.db".

Definition SKILLS : list string :=
  [ "Overall"; "Attack"; "Defence"; "Strength"; "Constitution"; "Ranged";
    "Prayer"; "Magic"; "Cooking"; "Woodcutting"; "Fletching"; "Fishing";
    "Firemaking"; "Crafting"; "Smithing"; "Mining"; "Herblore"; "Agility";
    "Thieving"; "Slayer"; "Farming"; "Runecrafting"; "Hunter"; "Construction";
    "Summoning"; "Dungeoneering"; "Divination"; "Invention"; "Archaeology";
    "Necromancy" ].

Definition RUNEMETRICS_URL (user : string) : string :=
  "https://apps.runescape.com/runemetrics/profile/profile?user=" +:+ user
  +:+ "&activities=20".

Definition HISCORES_URL (player : string) : string :=
  "https://secure.runescape.com/m=hiscore/index_lite.ws?player=" +:+ player.

(** One entry of the profile's [activities] array. *)
Record activity : Set := { text : option string }.

(** The JSON object of the profile endpoint, with the fields the bot reads;
    a field that the object lacks is [None].  The object with no key at all
    is the one Python counts as false. *)
Record profile : Set := {
  name : option string;
  totalxp : option Z;
  totalskill : option Z;
  combatlevel : option Z;
  questscomplete : option Z;
  questsstarted : option Z;
  questsnotstarted : option Z;
  activities : option (list activity);
  error : option string
}.

Definition is_None {A : Type} (o : option A) : bool :=
  match o with
  | None => true
  | Some _ => false
  end.

(** [bool(data)] for a profile object: false only for [{}]. *)
Definition profile_truthy (p : profile) : bool :=
  negb (is_None (name p) && is_None (totalxp p) && is_None (totalskill p)
        && is_None (combatlevel p) && is_None (questscomplete p)
        && is_None (questsstarted p) && is_None (questsnotstarted p)
        && is_None (activities p) && is_None (error p)).

(** One row of the skill table. *)
Record skill_entry : Set := { rank : Z; level : Z; xp : Z }.

(** What [session.get] gives: a reply with a status and a body, or an
    exception (network failure, timeout), which both fetch functions catch. *)
Inductive response (B : Type) : Type :=
| Reply (status : Z) (body : B)
| Failed.
Arguments Reply {B} status body.
Arguments Failed {B}.

(** The two endpoints, by URL.  A JSON body that does not parse is [None]. *)
Record web : Type := {
  get_json : string -> response (option profile);
  get_text : string -> response string
}.

Definition fetch_runemetrics (w : web) (rsn : string) : option profile :=
  match get_json w (RUNEMETRICS_URL (PyStr.escape_spaces rsn)) with
  | Reply status (Some data) =>
      if (status =? 200) && is_None (error data) then Some data else None
  | _ => None
  end.

(** [bool(x)] for an optional dict. *)
Definition data_truthy (o : option profile) : bool :=
  match o with
  | Some p => profile_truthy p
  | None => false
  end.

Section Builtins.

(** Python built-ins that work on Unicode text and are not spelled out
    here: [str.strip()], [int(str)] ([None] when it raises [ValueError]) and
    [str.lower()]. *)
Variable py_strip : string -> string.
Variable py_int : string -> option Z.
Variable py_lower : string -> string.

(** One turn of the loop of [fetch_hiscores]: the entry a line gives,
    [Some None] for a line that is skipped, [None] for an exception
    ([int] raising [ValueError]). *)
Definition parse_line (line : string) : option (option skill_entry) :=
  let parts := PyStr.split_on ","%char line in
  if (3 <=? length parts)%nat then
    p0 ← parts !! 0%nat;
    p1 ← parts !! 1%nat;
    p2 ← parts !! 2%nat;
    r ← py_int p0;
    l ← py_int p1;
    x ← py_int p2;
    Some (Some {| rank := r; level := l; xp := x |})
  else Some None.

(** What a line adds to the table. *)
Definition line_entry (line : string) : option skill_entry :=
  match parse_line line with
  | Some (Some e) => Some e
  | _ => None
  end.

(** The loop itself: [i] is the index [enumerate] has reached, [skills]
    the dict built so far.  [None] is an exception, which the caller turns
    into absence. *)
Fixpoint parse_lines (i : nat) (lines : list string)
    (skills : gmap string skill_entry) : option (gmap string skill_entry) :=
  match lines with
  | [] => Some skills
  | line :: rest =>
      entry ← parse_line line;
      match entry with
      | Some e =>
          key ← SKILLS !! i;
          parse_lines (S i) rest (<[key := e]> skills)
      | None => parse_lines (S i) rest skills
      end
  end.

(** The body of the [if resp.status == 200] branch. *)
Definition parse_hiscores (body : string) : option (gmap string skill_entry) :=
  let lines := PyStr.split_on (ascii_of_nat 10) (py_strip body) in
  parse_lines 0 (take (length SKILLS) lines) ∅.

Definition fetch_hiscores (w : web) (rsn : string)
    : option (gmap string skill_entry) :=
  match get_text w (HISCORES_URL (PyStr.escape_spaces rsn)) with
  | Reply status body => if status =? 200 then parse_hiscores body else None
  | Failed => None
  end.

(** [bool(x)] for an optional skill table. *)
Definition table_truthy (o : option (gmap string skill_entry)) : bool :=
  match o with
  | Some t => negb (bool_decide (t = ∅))
  | None => false
  end.

End Builtins.

(** The built-ins on ASCII text, to run the bot on concrete inputs. *)
Module AsciiText.

Definition is_space (a : ascii) : bool :=
  let n := N_of_ascii a in
  (((9 <=? n) && (n <=? 13)) || ((28 <=? n) && (n <=? 32)))%N.

Fixpoint lstrip (s : string) : string :=
  match s with
  | String a s' => if is_space a then lstrip s' else s
  | EmptyString => ""
  end.

Definition strip (s : string) : string :=
  PyStr.rstrip_chars (map ascii_of_nat [9; 10; 11; 12; 13; 28; 29; 30; 31; 32]%nat)
    (lstrip s).

Definition digit (a : ascii) : option Z :=
  let n := N_of_ascii a in
  if ((48 <=? n) && (n <=? 57))%N then Some (Z.of_N n - 48) else None.

(** Digits with single underscores between them. *)
Fixpoint digits_value (acc : Z) (after_underscore : bool) (s : string) : option Z :=
  match s with
  | EmptyString => if after_underscore then None else Some acc
  | String a s' =>
      match digit a with
      | Some d => digits_value (10 * acc + d) false s'
      | None =>
          if Ascii.eqb a "_"%char && negb after_underscore
          then digits_value acc true s'
          else None
      end
  end.

Definition unsigned (s : string) : option Z :=
  match s with
  | String a s' => d ← digit a; digits_value d false s'
  | EmptyString => None
  end.

(** The blanks [int] skips around a number: tab to carriage return and the
    space; U+001C to U+001F, which [str.strip] removes, make it raise. *)
Definition is_int_space (a : ascii) : bool :=
  let n := N_of_ascii a in
  (((9 <=? n) && (n <=? 13)) || (n =? 32))%N.

Fixpoint int_lstrip (s : string) : string :=
  match s with
  | String a s' => if is_int_space a then int_lstrip s' else s
  | EmptyString => ""
  end.

Definition int_strip (s : string) : string :=
  PyStr.rstrip_chars (map ascii_of_nat [9; 10; 11; 12; 13; 32]%nat) (int_lstrip s).

Fixpoint count_digits (s : string) : nat :=
  match s with
  | EmptyString => O
  | String a s' =>
      match digit a with
      | Some _ => S (count_digits s')
      | None => count_digits s'
      end
  end.

(** [int(s)] on ASCII text; more than 4300 digits raise [ValueError] too
    (the limit CPython sets on the conversion). *)
Definition int (s : string) : option Z :=
  let s := int_strip s in
  if (4300 <? count_digits s)%nat then None
  else
    match s with
    | String "-" s' => Z.opp <$> unsigned s'
    | String "+" s' => unsigned s'
    | s' => unsigned s'
    end.

End AsciiText.

(** ** Stable descending sort

    [list.sort(key=..., reverse=True)] and the sorter behind [ORDER BY ... DESC]
    both give the one arrangement that is descending in the key and keeps
    rows with equal keys in their incoming order.  It is computed here by
    insertion from the right. *)

Module StableSort.
Section Sort.

Context {A K : Type} (ltb : K -> K -> bool) (key : A -> K).

(** Puts [x] before the first element whose key is not above its own. *)
Fixpoint insert_desc (x : A) (l : list A) : list A :=
  match l with
  | [] => [x]
  | y :: l' =>
      if ltb (key x) (key y) then y :: insert_desc x l'
      else x :: y :: l'
  end.

Definition sort_desc (l : list A) : list A := foldr insert_desc [] l.

(** [x] may stand before [y]: the key of [x] is not below that of [y]. *)
Definition above (x y : A) : Prop := ltb (key x) (key y) = false.

End Sort.
End StableSort.

(** ** The store (bot.py, [init_db])

    Two of the four tables are ever read or written: [linked_accounts] and
    [drop_log].  A table is the list of its rows in rowid order; the [id]
    column, which no query reads, is that position.  [CURRENT_TIMESTAMP] is
    the text SQLite stores, ["YYYY-MM-DD HH:MM:SS"], passed in as [now]. *)

Record link_row : Set := {
  la_discord_id : Z;
  la_rsn : string;
  la_linked_at : string
}.

Record drop_row : Set := {
  dl_discord_id : Z;
  dl_rsn : string;
  dl_item_name : string;
  dl_timestamp : string
}.

Record database : Set := {
  linked_accounts : list link_row;
  drop_log : list drop_row
}.

Definition empty_db : database := {| linked_accounts := []; drop_log := [] |}.

(** [CREATE TABLE IF NOT EXISTS]: [None] is the file without tables. *)
Definition init_db (file : option database) : database :=
  match file with
  | Some db => db
  | None => empty_db
  end.

Module Sqlite.

(** SQL [LOWER]: folds the 26 ASCII capitals and nothing else. *)
Definition lower_char (a : ascii) : ascii :=
  let n := N_of_ascii a in
  if ((65 <=? n) && (n <=? 90))%N then ascii_of_N (n + 32) else a.

Fixpoint lower (s : string) : string :=
  match s with
  | EmptyString => ""
  | String a s' => String (lower_char a) (lower s')
  end.

(** [ORDER BY key DESC] over a scan in rowid order, for a text column:
    keys compare as byte strings, rows with equal keys stay in scan order. *)
Definition order_by_desc {A : Type} (key : A -> string) (l : list A) : list A :=
  StableSort.sort_desc String.ltb key l.

(** The scan of an index on a text column: ascending, keys compared as byte
    strings (the BINARY collation), rows with equal keys in rowid order.
    Ascending is descending for the reversed comparison. *)
Definition index_scan {A : Type} (key : A -> string) (l : list A) : list A :=
  StableSort.sort_desc (fun a b => String.ltb b a) key l.

End Sqlite.

(** The index SQLite keeps for [UNIQUE(discord_id, rsn)]: the rows of
    [linked_accounts] by ascending [discord_id], the rows of one
    [discord_id] by ascending [rsn].  No query on [linked_accounts] names an
    order; SQLite answers each of them from this index, so its order is the
    order in which their rows come. *)
Definition unique_index (rows : list link_row) : list link_row :=
  StableSort.sort_desc (fun a b => b <? a) la_discord_id (Sqlite.index_scan la_rsn rows).

(** [WHERE discord_id = ?] on that index: the rows of one caller, by
    ascending [rsn]. *)
Definition index_search (db : database) (discord_id : Z) : list link_row :=
  Sqlite.index_scan la_rsn
    (List.filter (fun r => la_discord_id r =? discord_id) (linked_accounts db)).

(** [SELECT rsn FROM linked_accounts WHERE discord_id = ?]: the names of
    the caller in the order of the index, the smallest first, whichever was
    linked first. *)
Definition select_rsn (db : database) (discord_id : Z) : list string :=
  la_rsn <$> index_search db discord_id.

(** [INSERT INTO linked_accounts (discord_id, rsn) VALUES (?, ?)] under
    [UNIQUE(discord_id, rsn)]; [None] is [IntegrityError]. *)
Definition insert_link (db : database) (discord_id : Z) (rsn now : string)
    : option database :=
  if existsb (fun r => (la_discord_id r =? discord_id) && String.eqb (la_rsn r) rsn)
       (linked_accounts db)
  then None
  else Some {| linked_accounts :=
                 linked_accounts db ++
                 [{| la_discord_id := discord_id; la_rsn := rsn; la_linked_at := now |}];
               drop_log := drop_log db |}.

(** The [WHERE] clause of the [DELETE] in [unlink_account]. *)
Definition unlink_matches (discord_id : Z) (rsn : string) (r : link_row) : bool :=
  (la_discord_id r =? discord_id) && String.eqb (Sqlite.lower (la_rsn r)) (Sqlite.lower rsn).

(** [DELETE FROM linked_accounts WHERE discord_id = ? AND LOWER(rsn) = LOWER(?)]:
    the new store and [cursor.rowcount]. *)
Definition delete_link (db : database) (discord_id : Z) (rsn : string)
    : database * nat :=
  ({| linked_accounts :=
        List.filter (fun r => negb (unlink_matches discord_id rsn r)) (linked_accounts db);
      drop_log := drop_log db |},
   length (List.filter (unlink_matches discord_id rsn) (linked_accounts db))).

(** [INSERT INTO drop_log (discord_id, rsn, item_name) VALUES (?, ?, ?)] *)
Definition insert_drop (db : database) (discord_id : Z) (rsn item now : string)
    : database :=
  {| linked_accounts := linked_accounts db;
     drop_log :=
       drop_log db ++
       [{| dl_discord_id := discord_id; dl_rsn := rsn; dl_item_name := item;
           dl_timestamp := now |}] |}.

(** The rows that pass the [WHERE LOWER(rsn) = LOWER(?)] clause of
    [view_drops]; without the clause, all rows. *)
Definition drops_matching (db : database) (rsn : option string) : list drop_row :=
  match rsn with
  | Some n =>
      List.filter (fun r => String.eqb (Sqlite.lower (dl_rsn r)) (Sqlite.lower n))
        (drop_log db)
  | None => drop_log db
  end.

(** [SELECT rsn, item_name, timestamp FROM drop_log [WHERE LOWER(rsn) = LOWER(?)]
    ORDER BY timestamp DESC LIMIT 10] *)
Definition select_drops (db : database) (rsn : option string) : list drop_row :=
  take 10 (Sqlite.order_by_desc dl_timestamp (drops_matching db rsn)).

(** [SELECT DISTINCT rsn FROM linked_accounts]: a scan of the index, each
    name kept where it comes first. *)
Fixpoint distinct (seen l : list string) : list string :=
  match l with
  | [] => []
  | s :: l' =>
      if existsb (String.eqb s) seen then distinct seen l'
      else s :: distinct (s :: seen) l'
  end.

Definition select_distinct_rsn (db : database) : list string :=
  distinct [] (la_rsn <$> unique_index (linked_accounts db)).

(** ** What a command sends back

    An embed keeps its title, description, fields and footer; its colour and
    its clock stamp are left out. *)

Record field : Set := { f_name : string; f_value : string; f_inline : bool }.

Record embed : Set := {
  e_title : string;
  e_description : option string;
  e_fields : list field;
  e_footer : option string
}.

Inductive reply : Set :=
| Message (content : string) (ephemeral : bool)
| Embed (e : embed).

Definition add_field (e : embed) (f : field) : embed :=
  {| e_title := e_title e; e_description := e_description e;
     e_fields := e_fields e ++ [f]; e_footer := e_footer e |}.

Definition new_embed (title : string) : embed :=
  {| e_title := title; e_description := None; e_fields := []; e_footer := None |}.

(** ** Account linking (bot.py, [link_account], [unlink_account],
    [view_accounts]) *)

Definition link_account (w : web) (now : string) (db : database)
    (user_id : Z) (rsn : string) : database * reply :=
  let data := fetch_runemetrics w rsn in
  match data with
  | Some p =>
      if profile_truthy p then
        let actual_name := default rsn (name p) in
        match insert_link db user_id actual_name now with
        | Some db' =>
            (db', Message ("✅ Successfully linked **" +:+ actual_name
                           +:+ "** to your Discord account!") false)
        | None =>
            (db, Message ("⚠️ **" +:+ actual_name
                          +:+ "** is already linked to your account.") true)
        end
      else
        (db, Message ("❌ Could not find player **" +:+ rsn
                      +:+ "**. Make sure the name is correct and the profile is public.")
               true)
  | None =>
      (db, Message ("❌ Could not find player **" +:+ rsn
                    +:+ "**. Make sure the name is correct and the profile is public.")
             true)
  end.

Definition unlink_account (db : database) (user_id : Z) (rsn : string)
    : database * reply :=
  let '(db', rowcount) := delete_link db user_id rsn in
  if (0 <? rowcount)%nat then
    (db', Message ("✅ Unlinked **" +:+ rsn +:+ "** from your account.") false)
  else
    (db', Message ("❌ **" +:+ rsn +:+ "** is not linked to your account.") true).

Definition view_accounts (db : database) (user_id : Z) : reply :=
  let rows := index_search db user_id in
  match rows with
  | [] =>
      Message "You don't have any linked accounts. Use `/link <rsn>` to add one!" true
  | _ =>
      Embed (fold_left
               (fun e r =>
                  add_field e {| f_name := la_rsn r;
                                 f_value := "Linked: " +:+ PyStr.slice_to 10 (la_linked_at r);
                                 f_inline := true |})
               rows (new_embed "🔗 Your Linked Accounts"))
  end.

(** ** Stats lookup (bot.py, [stats_lookup]) *)

Definition combat_stats : list string :=
  ["Attack"; "Strength"; "Defence"; "Constitution"; "Ranged"; "Prayer"; "Magic";
   "Summoning"; "Necromancy"].

(** The [if runemetrics:] block. *)
Definition profile_fields (e : embed) (p : profile) : res embed :=
  total_xp ← format_number (default 0 (totalxp p));
  let e := add_field e {| f_name := "Total XP"; f_value := total_xp; f_inline := true |} in
  let e := add_field e {| f_name := "Total Level";
                          f_value := pretty (default 0 (totalskill p));
                          f_inline := true |} in
  let e := add_field e {| f_name := "Combat Level";
                          f_value := pretty (default 0 (combatlevel p));
                          f_inline := true |} in
  let e :=
    if negb (default 0 (questscomplete p) =? 0) then
      add_field e
        {| f_name := "Quests";
           f_value :=
             pretty (default 0 (questscomplete p)) +:+ "/" +:+
             pretty (default 0 (questsstarted p) + default 0 (questscomplete p)
                     + default 0 (questsnotstarted p));
           f_inline := true |}
    else e in
  let e :=
    match default [] (activities p) with
    | recent :: _ =>
        add_field e {| f_name := "Recent Activity";
                       f_value := PyStr.slice_to 100 (default "Unknown" (text recent));
                       f_inline := false |}
    | [] => e
    end in
  Ok e.

(** The loop over [combat_stats] that builds [combat_text]. *)
Definition combat_text (hiscores : gmap string skill_entry) : string :=
  fold_left
    (fun acc skill =>
       match hiscores !! skill with
       | Some entry => acc +:+ "**" +:+ skill +:+ ":** " +:+ pretty (level entry) +:+ " | "
       | None => acc
       end)
    combat_stats "".

(** The [if hiscores:] block. *)
Definition hiscores_fields (e : embed) (hiscores : gmap string skill_entry) : embed :=
  match combat_text hiscores with
  | EmptyString => e
  | text => add_field e {| f_name := "Combat Stats";
                           f_value := PyStr.rstrip_chars [" "; "|"; " "]%char text;
                           f_inline := false |}
  end.

(** The combat skills the table has, each with its level, as shown. *)
Definition combat_entries (hiscores : gmap string skill_entry) : list string :=
  omap (fun skill =>
          (fun entry => "**" +:+ skill +:+ ":** " +:+ pretty (level entry))
            <$> hiscores !! skill)
       combat_stats.

(** [s] holds neither a space nor a bar. *)
Definition solid (s : string) : Prop :=
  Forall (fun a => existsb (Ascii.eqb a) [" "; "|"; " "]%char = false)
         (list_ascii_of_string s).

(** [s] ends in a character that [rstrip(" | ")] keeps. *)
Definition ends_solid (s : string) : Prop :=
  PyStr.rstrip_chars [" "; "|"; " "]%char s = s /\ s <> "".

(** Lines 242-302: from the two fetch results to the reply. *)
Definition stats_report (rsn : string) (runemetrics : option profile)
    (hiscores : option (gmap string skill_entry)) : res reply :=
  if negb (data_truthy runemetrics) && negb (table_truthy hiscores) then
    Ok (Message ("❌ Could not find player **" +:+ rsn +:+ "**.") true)
  else
    let e :=
      new_embed ("📊 Stats for " +:+
                 match runemetrics with
                 | Some p => if profile_truthy p then default rsn (name p) else rsn
                 | None => rsn
                 end) in
    e ← match runemetrics with
        | Some p => if profile_truthy p then profile_fields e p else Ok e
        | None => Ok e
        end;
    let e :=
      match hiscores with
      | Some t => if bool_decide (t = ∅) then e else hiscores_fields e t
      | None => e
      end in
    Ok (Embed e).

Section Commands.

Variable py_strip : string -> string.
Variable py_int : string -> option Z.
Variable py_lower : string -> string.

Definition stats_lookup (w : web) (db : database) (user_id : Z)
    (rsn : option string) : res reply :=
  let resolved :=
    match rsn with
    | Some (String a s) => Some (String a s)
    | _ => head (select_rsn db user_id)
    end in
  match resolved with
  | None =>
      Ok (Message "Please provide an RSN or link an account with `/link`." true)
  | Some rsn =>
      let runemetrics := fetch_runemetrics w rsn in
      let hiscores := fetch_hiscores py_strip py_int w rsn in
      stats_report rsn runemetrics hiscores
  end.

End Commands.

(** ** Comparison (bot.py, [compare_stats]) *)

Definition comparisons : list (string * string) :=
  [("Total XP", "totalxp"); ("Total Level", "totalskill");
   ("Combat Level", "combatlevel"); ("Quests Complete", "questscomplete")].

(** [data.get(key)] for the integer fields. *)
Definition get_int (data : profile) (key : string) : option Z :=
  if String.eqb key "totalxp" then totalxp data
  else if String.eqb key "totalskill" then totalskill data
  else if String.eqb key "combatlevel" then combatlevel data
  else if String.eqb key "questscomplete" then questscomplete data
  else if String.eqb key "questsstarted" then questsstarted data
  else if String.eqb key "questsnotstarted" then questsnotstarted data
  else None.

Definition trophy : string := "🏆".

(** The parts of one comparison field, before they are joined. *)
Record comparison : Set := {
  c_label : string;
  c_display1 : string;
  c_marker1 : string;
  c_display2 : string;
  c_marker2 : string
}.

Definition comparison_field (c : comparison) : field :=
  {| f_name := c_label c;
     f_value := c_display1 c +:+ " " +:+ c_marker1 c +:+ " vs " +:+
                c_display2 c +:+ " " +:+ c_marker2 c;
     f_inline := true |}.

(** One turn of the loop over [comparisons]. *)
Definition compare_one (data1 data2 : profile) (label key : string) : res comparison :=
  let val1 := default 0 (get_int data1 key) in
  let val2 := default 0 (get_int data2 key) in
  display1 ← (if String.eqb key "totalxp" then format_number val1 else Ok (pretty val1));
  display2 ← (if String.eqb key "totalxp" then format_number val2 else Ok (pretty val2));
  Ok {| c_label := label;
        c_display1 := display1;
        c_marker1 := if val2 <? val1 then trophy else "";
        c_display2 := display2;
        c_marker2 := if val1 <? val2 then trophy else "" |}.

(** Lines 332-358: the loop, adding one field per statistic. *)
Fixpoint compare_fields (data1 data2 : profile) (todo : list (string * string))
    (e : embed) : res embed :=
  match todo with
  | [] => Ok e
  | (label, key) :: rest =>
      c ← compare_one data1 data2 label key;
      compare_fields data1 data2 rest (add_field e (comparison_field c))
  end.

Definition index_name (data : profile) : res string :=
  match name data with
  | Some n => Ok n
  | None => Raise (KeyError "name")
  end.

(** The reply of the [if not data1 or not data2:] branch. *)
Definition missing_players (rsn1 rsn2 : string) (data1 data2 : option profile) : reply :=
  Message ("❌ Could not find player(s): " +:+
           String.concat ", "
             ((if data_truthy data1 then [] else [rsn1]) ++
              (if data_truthy data2 then [] else [rsn2])))
    true.

Definition compare_stats (w : web) (rsn1 rsn2 : string) : res reply :=
  let data1 := fetch_runemetrics w rsn1 in
  let data2 := fetch_runemetrics w rsn2 in
  match data1, data2 with
  | Some d1, Some d2 =>
      if profile_truthy d1 && profile_truthy d2 then
        n1 ← index_name d1;
        n2 ← index_name d2;
        e ← compare_fields d1 d2 comparisons (new_embed ("⚔️ " +:+ n1 +:+ " vs " +:+ n2));
        Ok (Embed e)
      else Ok (missing_players rsn1 rsn2 data1 data2)
  | _, _ => Ok (missing_players rsn1 rsn2 data1 data2)
  end.

(** ** Drop logging (bot.py, [log_drop], [view_drops]) *)

Section DropLog.

Variable py_lower : string -> string.

Definition log_drop (now : string) (db : database) (user_id : Z)
    (display_name item : string) (rsn : option string) : database * reply :=
  let accounts := select_rsn db user_id in
  match accounts with
  | [] => (db, Message "You need to link an account first with `/link`." true)
  | first :: _ =>
      let announce selected_rsn :=
        (insert_drop db user_id selected_rsn item now,
         Embed {| e_title := "🎉 Rare Drop!";
                  e_description :=
                    Some ("**" +:+ selected_rsn +:+ "** received **" +:+ item +:+ "**!");
                  e_fields := [];
                  e_footer := Some ("Logged by " +:+ display_name) |}) in
      match rsn with
      | Some (String c s) =>
          let rsn := String c s in
          if negb (existsb (fun a => String.eqb (py_lower a) (py_lower rsn)) accounts)
          then (db, Message ("**" +:+ rsn +:+ "** is not linked to your account.") true)
          else announce rsn
      | _ => announce first
      end
  end.

End DropLog.

Definition view_drops (db : database) (rsn : option string) : reply :=
  let drops := select_drops db (if PyStr.truthy rsn then rsn else None) in
  match drops with
  | [] => Message "No drops logged yet!" true
  | _ =>
      Embed (fold_left
               (fun e d =>
                  add_field e {| f_name := dl_item_name d;
                                 f_value := "**" +:+ dl_rsn d +:+ "** - " +:+
                                            PyStr.slice_to 10 (dl_timestamp d);
                                 f_inline := true |})
               drops (new_embed "📜 Recent Drops"))
  end.

(** ** Clan leaderboard (bot.py, [leaderboard]) *)

Record player : Set := { p_name : string; p_xp : Z; p_level : Z }.

Definition medals : list string := ["🥇"; "🥈"; "🥉"].

Definition rank_label (i : nat) : string :=
  if (i <? 3)%nat then default "" (medals !! i)
  else "**" +:+ pretty (Z.of_nat i + 1) +:+ ".**".

(** One line of the leaderboard, given the formatted experience. *)
Definition leaderboard_entry (i : nat) (p : player) (xp_text : string) : string :=
  rank_label i +:+ " **" +:+ p_name p +:+ "** - " +:+ xp_text +:+
  " XP (Level " +:+ pretty (p_level p) +:+ ")" +:+ PyStr.nl.

Definition leaderboard_line (i : nat) (p : player) : res string :=
  xp_text ← format_number (p_xp p);
  Ok (leaderboard_entry i p xp_text).


(** The loop over [enumerate(player_data[:10])], from index [i] on. *)
Fixpoint leaderboard_lines (i : nat) (players : list player)
    (leaderboard_text : string) : res string :=
  match players with
  | [] => Ok leaderboard_text
  | p :: rest =>
      line ← leaderboard_line i p;
      leaderboard_lines (S i) rest (leaderboard_text +:+ line)
  end.

(** [player_data.sort(key=lambda x: x["xp"], reverse=True)] *)
Definition sort_by_xp (player_data : list player) : list player :=
  StableSort.sort_desc Z.ltb p_xp player_data.

(** Lines 476-492: from the fetched tuples to the embed. *)
Definition leaderboard_report (player_data : list player) : res embed :=
  let player_data := sort_by_xp player_data in
  leaderboard_text ← leaderboard_lines 0 (take 10 player_data) "";
  Ok {| e_title := "🏆 Clan Leaderboard";
        e_description :=
          Some (match leaderboard_text with
                | EmptyString => "No data available"
                | _ => leaderboard_text
                end);
        e_fields := [];
        e_footer := None |}.

(** Lines 466-474: one profile fetch per account, absences skipped. *)
Fixpoint fetch_players (w : web) (accounts : list string) : list player :=
  match accounts with
  | [] => []
  | rsn :: rest =>
      match fetch_runemetrics w rsn with
      | Some data =>
          if profile_truthy data then
            {| p_name := default rsn (name data);
               p_xp := default 0 (totalxp data);
               p_level := default 0 (totalskill data) |} :: fetch_players w rest
          else fetch_players w rest
      | None => fetch_players w rest
      end
  end.

Definition leaderboard (w : web) (db : database) : res reply :=
  match select_distinct_rsn db with
  | [] => Ok (Message "No accounts linked yet!" false)
  | accounts =>
      e ← leaderboard_report (fetch_players w accounts);
      Ok (Embed e)
  end.

(** ** The command surface

    One slash command runs against the store with the caller's identity,
    the clock and the network as they are at that moment. *)

Inductive command : Set :=
| Link (rsn : string)
| Unlink (rsn : string)
| Accounts
| Stats (rsn : option string)
| Compare (rsn1 rsn2 : string)
| Drop (item : string) (rsn : option string)
| Drops (rsn : option string)
| Leaderboard.

Record interaction : Type := {
  user_id : Z;
  display_name : string;
  net : web;
  now : string
}.

Section Bot.

Variable py_strip : string -> string.
Variable py_int : string -> option Z.
Variable py_lower : string -> string.

Definition run (i : interaction) (c : command) (db : database)
    : database * res reply :=
  match c with
  | Link rsn =>
      let '(db', r) := link_account (net i) (now i) db (user_id i) rsn in (db', Ok r)
  | Unlink rsn =>
      let '(db', r) := unlink_account db (user_id i) rsn in (db', Ok r)
  | Accounts => (db, Ok (view_accounts db (user_id i)))
  | Stats rsn => (db, stats_lookup py_strip py_int (net i) db (user_id i) rsn)
  | Compare rsn1 rsn2 => (db, compare_stats (net i) rsn1 rsn2)
  | Drop item rsn =>
      let '(db', r) :=
        log_drop py_lower (now i) db (user_id i) (display_name i) item rsn in
      (db', Ok r)
  | Drops rsn => (db, Ok (view_drops db rsn))
  | Leaderboard => (db, leaderboard (net i) db)
  end.

(** The stores the bot can be in: the fresh one, and any store a command
    leaves behind. *)
Inductive reachable : database -> Prop :=
| reachable_init : reachable (init_db None)
| reachable_run i c db : reachable db -> reachable (fst (run i c db)).

(** A run of commands, one after the other. *)
Fixpoint run_all (cmds : list (interaction * command)) (db : database) : database :=
  match cmds with
  | [] => db
  | (i, c) :: rest => run_all rest (fst (run i c db))
  end.

(** A drop command that was accepted: it answered with the announcement. *)
Definition recorded (i : interaction) (c : command) (db : database) : bool :=
  match c, snd (run i c db) with
  | Drop _ _, Ok (Embed _) => true
  | _, _ => false
  end.

(** How many drops a run of commands recorded. *)
Fixpoint count_recorded (cmds : list (interaction * command)) (db : database) : nat :=
  match cmds with
  | [] => O
  | (i, c) :: rest =>
      ((if recorded i c db then 1 else 0) + count_recorded rest (fst (run i c db)))%nat
  end.

End Bot.

(** What [UNIQUE(discord_id, rsn)] compares. *)
Definition link_key (r : link_row) : Z * string := (la_discord_id r, la_rsn r).

(** Each (caller, account name) pair is stored at most once. *)
Definition unique_links (db : database) : Prop :=
  NoDup (link_key <$> linked_accounts db).

(** The number of stored links of one name for one caller. *)
Definition count_links (db : database) (discord_id : Z) (rsn : string) : nat :=
  length (List.filter
            (fun r => (la_discord_id r =? discord_id) && String.eqb (la_rsn r) rsn)
            (linked_accounts db)).

(** ** Measures used by the further properties *)

(** [len(s)]: the number of code points of a UTF-8 string. *)
Fixpoint code_points (s : string) : nat :=
  match s with
  | EmptyString => O
  | String a s' => if PyStr.is_continuation a then code_points s' else S (code_points s')
  end.

(** [s.count(sep)] for a one-character [sep]. *)
Fixpoint count_char (sep : ascii) (s : string) : nat :=
  match s with
  | EmptyString => O
  | String a s' => if Ascii.eqb a sep then S (count_char sep s') else count_char sep s'
  end.

(** A comparison with its two sides exchanged. *)
Definition swap_sides (c : comparison) : comparison :=
  {| c_label := c_label c;
     c_display1 := c_display2 c; c_marker1 := c_marker2 c;
     c_display2 := c_display1 c; c_marker2 := c_marker1 c |}.

(** A request that gives nothing to read: an exception, or a status
    other than 200. *)
Definition unavailable {B : Type} (r : response B) : Prop :=
  match r with
  | Reply status _ => status <> 200
  | Failed => True
  end.

(** The rows of one caller in [linked_accounts]. *)
Definition rows_of (db : database) (discord_id : Z) : list link_row :=
  List.filter (fun r => la_discord_id r =? discord_id) (linked_accounts db).

(** * Properties

    ** Float arithmetic *)

Module PyFloatFacts.
Import PyFloat.

Lemma round_half_even_near a b :
  0 < b -> 2 * Z.abs (round_half_even a b * b - a) <= b.
Proof.
  intros Hb. unfold round_half_even.
  pose proof (Z.div_mod a b ltac:(lia)) as Hdm.
  pose proof (Z.mod_pos_bound a b Hb) as Hm.
  destruct (Z.compare_spec (2 * (a mod b)) b) as [H|H|H].
  - destruct (Z.even (a / b)); nia.
  - nia.
  - nia.
Qed.

Lemma scaled_pos a b e n m :
  0 < a -> 0 < b -> scaled a b e = (n, m) -> 0 < n /\ 0 < m.
Proof.
  unfold scaled. intros Ha Hb H.
  destruct (e <? 0) eqn:He; injection H as <- <-.
  - apply Z.ltb_lt in He. pose proof (Z.pow_pos_nonneg 2 (- e) ltac:(lia) ltac:(lia)). nia.
  - apply Z.ltb_ge in He. pose proof (Z.pow_pos_nonneg 2 e ltac:(lia) ltac:(lia)). nia.
Qed.

(** Moving the scale by one doubles the fraction's other side. *)
Lemma scaled_succ a b e n m :
  scaled a b e = (n, m) ->
  exists n' m', scaled a b (e + 1) = (n', m') /\ n' * m * 2 = n * m'.
Proof.
  unfold scaled. intros H.
  destruct (e <? 0) eqn:He; injection H as <- <-.
  - apply Z.ltb_lt in He.
    destruct (e + 1 <? 0) eqn:He1.
    + apply Z.ltb_lt in He1. eexists _, _. split; [reflexivity|].
      replace (- e) with (- (e + 1) + 1) by lia.
      rewrite Z.pow_add_r by lia. lia.
    + apply Z.ltb_ge in He1. assert (e = -1) by lia. subst e.
      eexists _, _. split; [reflexivity|]. simpl. lia.
  - apply Z.ltb_ge in He.
    destruct (e + 1 <? 0) eqn:He1; [apply Z.ltb_lt in He1; lia|].
    eexists _, _. split; [reflexivity|].
    rewrite Z.pow_add_r by lia. lia.
Qed.

Lemma scaled_log2 a b :
  0 < a -> 0 < b ->
  let d := Z.log2 a - Z.log2 b in
  forall n m, scaled a b d = (n, m) -> n < 2 * m /\ m < 2 * n.
Proof.
  intros Ha Hb d n m H.
  pose proof (Z.log2_spec a Ha) as [La Ua].
  pose proof (Z.log2_spec b Hb) as [Lb Ub].
  pose proof (Z.log2_nonneg a). pose proof (Z.log2_nonneg b).
  unfold scaled in H. destruct (d <? 0) eqn:Hd; injection H as <- <-.
  - apply Z.ltb_lt in Hd.
    replace (Z.succ (Z.log2 b)) with (Z.log2 b + 1) in * by lia.
    replace (Z.succ (Z.log2 a)) with (Z.log2 a + 1) in * by lia.
    assert (E : 2 ^ Z.log2 b = 2 ^ Z.log2 a * 2 ^ (- d)).
    { rewrite <- Z.pow_add_r by lia. f_equal. lia. }
    rewrite Z.pow_add_r in Ua, Ub by lia.
    pose proof (Z.pow_pos_nonneg 2 (- d) ltac:(lia) ltac:(lia)).
    pose proof (Z.pow_pos_nonneg 2 (Z.log2 a) ltac:(lia) ltac:(lia)).
    split; nia.
  - apply Z.ltb_ge in Hd.
    replace (Z.succ (Z.log2 b)) with (Z.log2 b + 1) in * by lia.
    replace (Z.succ (Z.log2 a)) with (Z.log2 a + 1) in * by lia.
    assert (E : 2 ^ Z.log2 a = 2 ^ Z.log2 b * 2 ^ d).
    { rewrite <- Z.pow_add_r by lia. f_equal. lia. }
    rewrite Z.pow_add_r in Ua, Ub by lia.
    pose proof (Z.pow_pos_nonneg 2 d ltac:(lia) ltac:(lia)).
    pose proof (Z.pow_pos_nonneg 2 (Z.log2 b) ltac:(lia) ltac:(lia)).
    split; nia.
Qed.

Lemma quot_log2_spec a b n m :
  0 < a -> 0 < b -> scaled a b (quot_log2 a b) = (n, m) -> m <= n < 2 * m.
Proof.
  intros Ha Hb. unfold quot_log2.
  destruct (scaled a b (Z.log2 a - Z.log2 b)) as [n0 m0] eqn:E0.
  pose proof (scaled_log2 a b Ha Hb _ _ E0) as [U L].
  pose proof (scaled_pos _ _ _ _ _ Ha Hb E0) as [Hn0 Hm0].
  destruct (m0 <=? n0) eqn:C.
  - apply Z.leb_le in C. intros H. rewrite E0 in H. injection H as <- <-. lia.
  - apply Z.leb_gt in C. intros H.
    destruct (scaled_succ _ _ _ _ _ H) as (n' & m' & E' & Heq).
    replace (Z.log2 a - Z.log2 b - 1 + 1) with (Z.log2 a - Z.log2 b) in E' by lia.
    rewrite E0 in E'. injection E' as <- <-.
    pose proof (scaled_pos _ _ _ _ _ Ha Hb H) as [Hn Hm].
    nia.
Qed.

(** The largest quotient that still rounds to a finite double is just
    below [2^1024 - 2^970]. *)
Lemma nearest_double_finite a b :
  0 <= a -> 0 < b -> a < b * (2 ^ 1024 - 2 ^ 970) ->
  exists m e, nearest_double a b = Some (m, e).
Proof.
  intros Ha Hb Hlim. unfold nearest_double.
  destruct (a =? 0) eqn:Ez; [eauto|]. apply Z.eqb_neq in Ez.
  assert (Ha' : 0 < a) by lia.
  set (f := quot_log2 a b).
  destruct (scaled a b f) as [nf mf] eqn:Ef.
  pose proof (quot_log2_spec a b _ _ Ha' Hb Ef) as [Lf Uf].
  assert (Hf : f <= 1023).
  { destruct (Z.le_gt_cases f 1023) as [|Hbig]; [assumption|exfalso].
    unfold scaled in Ef. destruct (f <? 0) eqn:Hf0; [apply Z.ltb_lt in Hf0; lia|].
    injection Ef as <- <-.
    assert (2 ^ 1024 <= 2 ^ f) by (apply Z.pow_le_mono_r; lia).
    assert (0 < 2 ^ 970) by (apply Z.pow_pos_nonneg; lia).
    nia. }
  set (e := Z.max (f - 52) (-1074)).
  destruct (scaled a b e) as [n m] eqn:Es.
  pose proof (scaled_pos _ _ _ _ _ Ha' Hb Es) as [Hn Hm].
  pose proof (round_half_even_near n m Hm) as Hq.
  destruct (971 <? e) eqn:H1; [apply Z.ltb_lt in H1; lia|]. simpl.
  destruct (e =? 971) eqn:H2; simpl; [|eauto].
  apply Z.eqb_eq in H2.
  destruct (round_half_even n m =? 2 ^ 53) eqn:H3; [exfalso|eauto].
  apply Z.eqb_eq in H3. rewrite H3 in Hq.
  unfold scaled in Es. rewrite H2 in Es. simpl (971 <? 0) in Es. cbv iota in Es.
  injection Es as <- <-.
  assert (E1 : 2 ^ 1024 = 2 ^ 53 * 2 ^ 971) by (rewrite <- Z.pow_add_r by lia; reflexivity).
  assert (E2 : 2 ^ 971 = 2 * 2 ^ 970) by (rewrite <- (Z.pow_succ_r 2 970) by lia; reflexivity).
  rewrite E1, E2 in Hlim. rewrite E2 in Hq.
  generalize dependent (2 ^ 970). generalize dependent (2 ^ 53).
  intros. nia.
Qed.

Lemma true_div_finite a b :
  0 <= a -> 0 < b -> a < b * (2 ^ 1024 - 2 ^ 970) ->
  exists x, true_div a b = Ok x.
Proof.
  intros Ha Hb Hlim. unfold true_div.
  destruct (b =? 0) eqn:E; [apply Z.eqb_eq in E; lia|].
  rewrite (Z.abs_eq a), (Z.abs_eq b) by lia.
  destruct (nearest_double_finite a b Ha Hb Hlim) as (m & e & ->). eauto.
Qed.




End PyFloatFacts.

(** ** Number formatting *)

(** The four tiers, for an integer whose quotient is a finite double. *)
Lemma format_number_in_range (n : Z) :
  n < 1000000000 * (2 ^ 1024 - 2 ^ 970) ->
  (1000000000 <= n ->
     exists x, PyFloat.true_div n 1000000000 = Ok x /\
               format_number n = Ok (PyFloat.format_fixed 2 x +:+ "B")) /\
  (1000000 <= n < 1000000000 ->
     exists x, PyFloat.true_div n 1000000 = Ok x /\
               format_number n = Ok (PyFloat.format_fixed 2 x +:+ "M")) /\
  (1000 <= n < 1000000 ->
     exists x, PyFloat.true_div n 1000 = Ok x /\
               format_number n = Ok (PyFloat.format_fixed 1 x +:+ "K")) /\
  (n < 1000 -> format_number n = Ok (pretty n)).
Proof.
  assert (Hbig : 1000000 <= 2 ^ 1024 - 2 ^ 970) by (vm_compute; discriminate).
  pose proof PyFloatFacts.true_div_finite as Hfin.
  revert Hbig Hfin. generalize (2 ^ 1024 - 2 ^ 970). intros L Hbig Hfin Hlim.
  split; [|split; [|split]].
  - intros Hn.
    destruct (Hfin n 1000000000) as [x Hx]; [lia..|].
    exists x. split; [assumption|]. unfold format_number.
    destruct (1000000000 <=? n) eqn:E; [|apply Z.leb_gt in E; lia].
    rewrite Hx. reflexivity.
  - intros [Hn Hn'].
    destruct (Hfin n 1000000) as [x Hx]; [lia..|].
    exists x. split; [assumption|]. unfold format_number.
    destruct (1000000000 <=? n) eqn:E; [apply Z.leb_le in E; lia|].
    destruct (1000000 <=? n) eqn:E'; [|apply Z.leb_gt in E'; lia].
    rewrite Hx. reflexivity.
  - intros [Hn Hn'].
    destruct (Hfin n 1000) as [x Hx]; [lia..|].
    exists x. split; [assumption|]. unfold format_number.
    destruct (1000000000 <=? n) eqn:E; [apply Z.leb_le in E; lia|].
    destruct (1000000 <=? n) eqn:E'; [apply Z.leb_le in E'; lia|].
    destruct (1000 <=? n) eqn:E''; [|apply Z.leb_gt in E''; lia].
    rewrite Hx. reflexivity.
  - intros Hn. unfold format_number.
    destruct (1000000000 <=? n) eqn:E; [apply Z.leb_le in E; lia|].
    destruct (1000000 <=? n) eqn:E'; [apply Z.leb_le in E'; lia|].
    destruct (1000 <=? n) eqn:E''; [apply Z.leb_le in E''; lia|].
    reflexivity.
Qed.

(** Below the overflow bound [format_number] always returns a string. *)
Lemma format_number_ok (n : Z) :
  n < 1000000000 * (2 ^ 1024 - 2 ^ 970) -> exists s, format_number n = Ok s.
Proof.
  intros H. destruct (format_number_in_range n H) as (HB & HM & HK & HP).
  destruct (Z_lt_le_dec n 1000) as [C|C]; [eauto|].
  destruct (Z_lt_le_dec n 1000000) as [C1|C1];
    [destruct HK as (x & _ & ->); [lia|eauto]|].
  destruct (Z_lt_le_dec n 1000000000) as [C2|C2];
    [destruct HM as (x & _ & ->); [lia|eauto]|].
  destruct HB as (x & _ & ->); [lia|eauto].
Qed.







(** A few values next to what the interpreter prints for them: ties
    ([1.015], [1.05], [1.15]) go the way the double lies, and a 30-digit
    integer keeps only the digits of its double. *)
Example format_number_samples :
  format_number <$>
    [-5; 0; 999; 1049; 1050; 1150; 1250; 123456; 999999; 1005000; 999999999;
     1015000000; 1500000000; 123456789012345678901234567890]
  = Ok <$>
    ["-5"; "0"; "999"; "1.0K"; "1.1K"; "1.1K"; "1.2K"; "123.5K"; "1000.0K"; "1.00M";
     "1000.00M"; "1.01B"; "1.50B"; "123456789012345683968.00B"].
Proof. vm_compute. reflexivity. Qed.




(** ** Strings *)

Lemma string_app_assoc (a b c : string) : (a +:+ b) +:+ c = a +:+ b +:+ c.
Proof.
  induction a as [|x a IH]; [reflexivity|].
  change (String x ((a +:+ b) +:+ c) = String x (a +:+ b +:+ c)).
  rewrite IH. reflexivity.
Qed.

Lemma string_app_empty_r (a : string) : a +:+ "" = a.
Proof.
  induction a as [|x a IH]; [reflexivity|].
  change (String x (a +:+ "") = String x a).
  rewrite IH. reflexivity.
Qed.

Lemma rstrip_solid s : solid s -> PyStr.rstrip_chars [" "; "|"; " "]%char s = s.
Proof.
  unfold solid. induction s as [|a s IH]; simpl; intros H; [reflexivity|].
  inversion H as [|? ? Ha Hs]; subst. rewrite (IH Hs).
  destruct s; [rewrite Ha|]; reflexivity.
Qed.

Lemma rstrip_app_keep s1 s2 :
  PyStr.rstrip_chars [" "; "|"; " "]%char s2 <> "" ->
  PyStr.rstrip_chars [" "; "|"; " "]%char (s1 +:+ s2)
  = s1 +:+ PyStr.rstrip_chars [" "; "|"; " "]%char s2.
Proof.
  intros H. induction s1 as [|a s1 IH]; [reflexivity|].
  change (String a s1 +:+ s2) with (String a (s1 +:+ s2)).
  cbn [PyStr.rstrip_chars]. rewrite IH.
  destruct (s1 +:+ PyStr.rstrip_chars [" "; "|"; " "]%char s2) eqn:E.
  - destruct s1; [simpl in E; contradiction | discriminate].
  - change (String a s1 +:+ PyStr.rstrip_chars [" "; "|"; " "]%char s2)
      with (String a (s1 +:+ PyStr.rstrip_chars [" "; "|"; " "]%char s2)).
    rewrite E. reflexivity.
Qed.

Lemma rstrip_separator s :
  PyStr.rstrip_chars [" "; "|"; " "]%char (s +:+ " | ")
  = PyStr.rstrip_chars [" "; "|"; " "]%char s.
Proof.
  induction s as [|a s IH]; [reflexivity|].
  change (String a s +:+ " | ") with (String a (s +:+ " | ")).
  cbn [PyStr.rstrip_chars]. rewrite IH. reflexivity.
Qed.

Lemma solid_pretty_N_go x s : solid s -> solid (pretty_N_go x s).
Proof.
  revert s. induction (N.lt_wf_0 x) as [x _ IH]; intros s Hs.
  destruct (decide (x = 0)%N) as [->|Hx]; [rewrite pretty_N_go_0; exact Hs|].
  rewrite pretty_N_go_step by lia. apply IH.
  - apply N.div_lt; lia.
  - constructor; [|exact Hs].
    unfold pretty_N_char. repeat case_match; reflexivity.
Qed.

Lemma pretty_N_go_length x s : (String.length s <= String.length (pretty_N_go x s))%nat.
Proof.
  revert s. induction (N.lt_wf_0 x) as [x _ IH]; intros s.
  destruct (decide (x = 0)%N) as [->|Hx]; [rewrite pretty_N_go_0; lia|].
  rewrite pretty_N_go_step by lia.
  etransitivity; [|apply IH; apply N.div_lt; lia]. simpl. lia.
Qed.

(** A decimal string has a character and holds neither a space nor a bar. *)
Lemma solid_pretty (z : Z) : solid (pretty z) /\ pretty z <> "".
Proof.
  assert (HN : forall p, solid (pretty (Npos p)) /\ pretty (Npos p) <> "").
  { intros p. unfold pretty, pretty_N. destruct (decide (N.pos p = 0)%N); [lia|].
    rewrite pretty_N_go_step by lia. split.
    - apply solid_pretty_N_go. repeat constructor.
      unfold pretty_N_char. repeat case_match; reflexivity.
    - intros E.
      pose proof (pretty_N_go_length (N.pos p `div` 10)
                    (String (pretty_N_char (N.pos p `mod` 10)) "")) as Hlen.
      rewrite E in Hlen. simpl in Hlen. lia. }
  destruct z as [|p|p].
  - split; [repeat constructor | discriminate].
  - apply HN.
  - destruct (HN p) as [Hs Hne]. split; [|discriminate].
    change (pretty (Z.neg p)) with ("-" +:+ pretty (N.pos p)).
    constructor; [reflexivity | exact Hs].
Qed.

Lemma ends_solid_app s1 s2 : ends_solid s2 -> ends_solid (s1 +:+ s2).
Proof.
  intros [H1 H2]. split.
  - rewrite rstrip_app_keep, H1; [reflexivity | rewrite H1; exact H2].
  - destruct s1; [exact H2 | discriminate].
Qed.

Lemma ends_solid_pretty (z : Z) : ends_solid (pretty z).
Proof. destruct (solid_pretty z) as [H1 H2]. split; [apply rstrip_solid, H1 | exact H2]. Qed.

Lemma concat_empty_cons (x : string) (xs : list string) :
  String.concat "" (x :: xs) = x +:+ String.concat "" xs.
Proof. destruct xs; simpl; [rewrite string_app_empty_r|]; reflexivity. Qed.

Lemma combat_text_entries (t : gmap string skill_entry) (skills : list string) acc :
  fold_left
    (fun acc skill =>
       match t !! skill with
       | Some entry => acc +:+ "**" +:+ skill +:+ ":** " +:+ pretty (level entry) +:+ " | "
       | None => acc
       end)
    skills acc
  = acc +:+
    String.concat ""
      ((fun e => e +:+ " | ") <$>
       omap (fun skill =>
               (fun entry => "**" +:+ skill +:+ ":** " +:+ pretty (level entry))
                 <$> t !! skill) skills).
Proof.
  revert acc. induction skills as [|skill skills IH]; intros acc.
  - simpl. rewrite string_app_empty_r. reflexivity.
  - cbn [fold_left omap list_omap]. rewrite IH.
    destruct (t !! skill) as [entry|]; [|reflexivity].
    cbn [fmap option_fmap option_map list_fmap].
    rewrite concat_empty_cons, !string_app_assoc. reflexivity.
Qed.

Lemma rstrip_joined (es : list string) :
  es <> [] -> Forall ends_solid es ->
  ends_solid (String.concat " | " es) /\
  PyStr.rstrip_chars [" "; "|"; " "]%char
    (String.concat "" ((fun e => e +:+ " | ") <$> es))
  = String.concat " | " es.
Proof.
  induction es as [|e es IH]; [contradiction|]. intros _ Hall.
  inversion Hall as [|? ? He Hes]; subst.
  destruct es as [|e' es].
  - simpl. split; [exact He|]. rewrite rstrip_separator. apply He.
  - destruct (IH ltac:(discriminate) Hes) as [Hj Hr].
    change (String.concat " | " (e :: e' :: es))
      with (e +:+ " | " +:+ String.concat " | " (e' :: es)).
    split; [apply ends_solid_app, ends_solid_app, Hj|].
    change ((fun e => e +:+ " | ") <$> e :: e' :: es)
      with ((e +:+ " | ") :: ((fun e => e +:+ " | ") <$> e' :: es)).
    rewrite concat_empty_cons, rstrip_app_keep, Hr.
    + rewrite string_app_assoc. reflexivity.
    + rewrite Hr. apply Hj.
Qed.

Lemma combat_entries_solid t : Forall ends_solid (combat_entries t).
Proof.
  unfold combat_entries. induction combat_stats as [|skill skills IH]; [constructor|].
  cbn [omap list_omap]. destruct (t !! skill) as [entry|]; [|exact IH].
  constructor; [|exact IH].
  apply ends_solid_app, ends_solid_app, ends_solid_app, ends_solid_pretty.
Qed.

(** The combat field: nothing when the table has none of the combat
    skills, else their levels joined by [" | "]. *)
Lemma combat_text_joined t :
  match combat_entries t with
  | [] => combat_text t = ""
  | es => combat_text t <> "" /\
          PyStr.rstrip_chars [" "; "|"; " "]%char (combat_text t) = String.concat " | " es
  end.
Proof.
  unfold combat_text. rewrite combat_text_entries. fold (combat_entries t).
  pose proof (combat_entries_solid t) as Hs.
  destruct (combat_entries t) as [|e es] eqn:E; [reflexivity|].
  split.
  - cbn [fmap list_fmap]. rewrite concat_empty_cons.
    inversion Hs as [|? ? [_ He] _]; subst. destruct e; [contradiction | discriminate].
  - apply rstrip_joined; [discriminate | exact Hs].
Qed.

(** ** Stats report *)

Lemma profile_fields_names e0 p e :
  profile_fields e0 p = Ok e ->
  exists xp_text,
    format_number (default 0 (totalxp p)) = Ok xp_text /\
    e_title e = e_title e0 /\
    e_fields e =
      (e_fields e0 ++
       [{| f_name := "Total XP"; f_value := xp_text; f_inline := true |};
        {| f_name := "Total Level"; f_value := pretty (default 0 (totalskill p));
           f_inline := true |};
        {| f_name := "Combat Level"; f_value := pretty (default 0 (combatlevel p));
           f_inline := true |}] ++
       (if default 0 (questscomplete p) =? 0 then []
        else [{| f_name := "Quests";
                 f_value := pretty (default 0 (questscomplete p)) +:+ "/" +:+
                            pretty (default 0 (questsstarted p)
                                    + default 0 (questscomplete p)
                                    + default 0 (questsnotstarted p));
                 f_inline := true |}]) ++
       match default [] (activities p) with
       | recent :: _ =>
           [{| f_name := "Recent Activity";
               f_value := PyStr.slice_to 100 (default "Unknown" (text recent));
               f_inline := false |}]
       | [] => []
       end)%list.
Proof.
  unfold profile_fields. intros H.
  destruct (format_number (default 0 (totalxp p))) as [xp_text|err] eqn:Hxp; [|discriminate].
  exists xp_text. split; [reflexivity|].
  simpl in H. injection H as <-.
  destruct (default 0 (questscomplete p) =? 0); destruct (default [] (activities p));
    simpl; rewrite <- ?app_assoc; auto.
Qed.


Lemma hiscores_fields_shape e t :
  e_title (hiscores_fields e t) = e_title e /\
  e_fields (hiscores_fields e t) =
    (e_fields e ++
     match combat_text t with
     | EmptyString => []
     | text => [{| f_name := "Combat Stats";
                   f_value := PyStr.rstrip_chars [" "; "|"; " "]%char text;
                   f_inline := false |}]
     end)%list.
Proof.
  unfold hiscores_fields. destruct (combat_text t); simpl.
  - split; [reflexivity|]. symmetry. apply app_nil_r.
  - split; reflexivity.
Qed.

Lemma hiscores_fields_joined e t :
  e_title (hiscores_fields e t) = e_title e /\
  e_fields (hiscores_fields e t) =
    (e_fields e ++
     match combat_entries t with
     | [] => []
     | entries => [{| f_name := "Combat Stats";
                      f_value := String.concat " | " entries;
                      f_inline := false |}]
     end)%list.
Proof.
  destruct (hiscores_fields_shape e t) as [Ht Hf]. split; [exact Ht|].
  rewrite Hf. pose proof (combat_text_joined t) as H.
  destruct (combat_entries t) as [|en es].
  - rewrite H. reflexivity.
  - destruct H as [Hne Hr]. destruct (combat_text t); [contradiction|].
    rewrite Hr. reflexivity.
Qed.





(** C3, as stated, fails when the complete count is 0 or absent: the
    report then has no "Quests" field at all, although quests were started
    or are left to start. *)
Lemma stats_no_ratio_without_completed_quests :
  (exists e,
     stats_report "bob"
       (Some {| name := Some "Bob"; totalxp := Some 1000; totalskill := Some 5;
                combatlevel := Some 3; questscomplete := Some 0;
                questsstarted := Some 3; questsnotstarted := Some 7;
                activities := None; error := None |})
       None = Ok (Embed e) /\
     forall f, In f (e_fields e) -> f_name f <> "Quests") /\
  (exists e,
     stats_report "bob"
       (Some {| name := Some "Bob"; totalxp := Some 1000; totalskill := Some 5;
                combatlevel := Some 3; questscomplete := None;
                questsstarted := Some 3; questsnotstarted := Some 7;
                activities := None; error := None |})
       None = Ok (Embed e) /\
     forall f, In f (e_fields e) -> f_name f <> "Quests").
Proof.
  split; eexists; (split; [vm_compute; reflexivity|]);
    intros f Hf; simpl in Hf; intuition (subst; simpl; discriminate).
Qed.

(** C3 (amended): in a single-player report built from a profile
    fragment, the quest ratio is rendered as
    complete / (complete + started + not-started), with the started and
    not-started counts defaulting to 0 when absent, exactly when the
    complete count is present and not 0; when the complete count is 0 or
    absent the report has no quest field. *)
Theorem stats_quest_ratio (rsn : string) (p : profile)
    (hiscores : option (gmap string skill_entry)) (e : embed) :
  profile_truthy p = true ->
  stats_report rsn (Some p) hiscores = Ok (Embed e) ->
  (forall c, questscomplete p = Some c -> c <> 0 ->
     In {| f_name := "Quests";
           f_value := pretty c +:+ "/" +:+
                      pretty (c + default 0 (questsstarted p)
                              + default 0 (questsnotstarted p));
           f_inline := true |} (e_fields e)) /\
  (questscomplete p = Some 0 \/ questscomplete p = None ->
     forall f, In f (e_fields e) -> f_name f <> "Quests").
Proof.
  intros Hp H. unfold stats_report in H. simpl in H. rewrite Hp in H. simpl in H.
  destruct (profile_fields (new_embed ("📊 Stats for " +:+ default rsn (name p))) p)
    as [e1|] eqn:E1; [|discriminate].
  simpl in H. injection H as <-.
  destruct (profile_fields_names _ _ _ E1) as (xp_text & _ & _ & Hf1).
  set (tail := match hiscores with
               | Some t => if bool_decide (t = ∅) then []
                           else match combat_text t with
                                | EmptyString => []
                                | text => [{| f_name := "Combat Stats";
                                              f_value := PyStr.rstrip_chars
                                                           [" "; "|"; " "]%char text;
                                              f_inline := false |}]
                                end
               | None => []
               end).
  assert (Hall : e_fields (match hiscores with
                           | Some t => if bool_decide (t = ∅) then e1
                                       else hiscores_fields e1 t
                           | None => e1
                           end) = (e_fields e1 ++ tail)%list).
  { unfold tail. destruct hiscores as [t|]; [|symmetry; apply app_nil_r].
    destruct (bool_decide (t = ∅)); [symmetry; apply app_nil_r|].
    apply hiscores_fields_shape. }
  assert (Htail : forall f, In f tail -> f_name f = "Combat Stats").
  { unfold tail. intros f Hf. destruct hiscores as [t|]; [|destruct Hf].
    destruct (bool_decide (t = ∅)); [destruct Hf|].
    destruct (combat_text t); [destruct Hf|].
    destruct Hf as [<- | []]. reflexivity. }
  rewrite Hall, Hf1. simpl. split.
  - intros c Hc Hne. rewrite Hc. simpl.
    destruct (c =? 0) eqn:Ec; [apply Z.eqb_eq in Ec; contradiction|].
    replace (default 0 (questsstarted p) + c + default 0 (questsnotstarted p))
      with (c + default 0 (questsstarted p) + default 0 (questsnotstarted p)) by lia.
    do 3 right. left. reflexivity.
  - intros Hc f Hf.
    assert (Hz : (default 0 (questscomplete p) =? 0) = true)
      by (destruct Hc as [-> | ->]; reflexivity).
    rewrite Hz in Hf. simpl in Hf.
    destruct Hf as [<- | [<- | [<- | Hf]]]; [discriminate..|].
    apply in_app_or in Hf as [Hf | Hf].
    + destruct (default [] (activities p)); [destruct Hf|].
      destruct Hf as [<- | []]. discriminate.
    + rewrite (Htail f Hf). discriminate.
Qed.

Lemma stats_quest_ratio_witness :
  let p := {| name := Some "Bob"; totalxp := Some 1000; totalskill := Some 5;
              combatlevel := Some 3; questscomplete := Some 12;
              questsstarted := Some 8; questsnotstarted := Some 20;
              activities := None; error := None |} in
  exists e,
    stats_report "bob" (Some p) None = Ok (Embed e) /\
    In {| f_name := "Quests"; f_value := "12/40"; f_inline := true |} (e_fields e).
Proof.
  intros p.
  destruct (stats_report "bob" (Some p) None) as [[m b | e]|err] eqn:E;
    try (vm_compute in E; discriminate).
  exists e. split; [reflexivity|].
  exact (proj1 (stats_quest_ratio "bob" p None e ltac:(reflexivity) E)
           12 ltac:(reflexivity) ltac:(discriminate)).
Defined.

(** ** Skill-table parser *)

Lemma SKILLS_length : length SKILLS = 30%nat.
Proof. reflexivity. Qed.

Lemma SKILLS_NoDup : NoDup SKILLS.
Proof. apply (bool_decide_unpack _). vm_compute. reflexivity. Qed.

Section Parser.

Variable py_strip : string -> string.
Variable py_int : string -> option Z.


Lemma parse_lines_some i lines skills :
  (i + length lines <= 30)%nat ->
  Forall (fun line => is_Some (parse_line py_int line)) lines ->
  is_Some (parse_lines py_int i lines skills).
Proof.
  revert i skills. induction lines as [|line rest IH]; intros i skills Hlen Hall.
  - simpl. eauto.
  - inversion Hall as [|? ? [entry He] Hrest]; subst. simpl in Hlen |- *.
    rewrite He. simpl. destruct entry as [e|].
    + destruct (lookup_lt_is_Some_2 SKILLS i) as [key Hk]; [rewrite SKILLS_length; lia|].
      rewrite Hk. simpl. apply IH; [lia | assumption].
    + apply IH; [lia | assumption].
Qed.

Lemma parse_lines_some_inv i lines skills :
  is_Some (parse_lines py_int i lines skills) ->
  Forall (fun line => is_Some (parse_line py_int line)) lines.
Proof.
  revert i skills. induction lines as [|line rest IH]; intros i skills H.
  - constructor.
  - simpl in H. destruct (parse_line py_int line) as [entry|] eqn:He;
      [|destruct H; discriminate].
    constructor; [eauto|]. simpl in H. destruct entry as [e|].
    + destruct (SKILLS !! i) as [key|]; [|destruct H; discriminate].
      simpl in H. eapply IH, H.
    + eapply IH, H.
Qed.

Lemma parse_lines_lookup i lines skills table :
  (i + length lines <= 30)%nat ->
  parse_lines py_int i lines skills = Some table ->
  forall j skill, SKILLS !! j = Some skill ->
    table !! skill =
      if (j <? i)%nat then skills !! skill
      else match lines !! (j - i)%nat ≫= line_entry py_int with
           | Some e => Some e
           | None => skills !! skill
           end.
Proof.
  revert i skills. induction lines as [|line rest IH]; intros i skills Hlen H j skill Hj.
  - simpl in H. injection H as <-. destruct (j <? i)%nat; reflexivity.
  - simpl in H, Hlen. destruct (parse_line py_int line) as [entry|] eqn:He; [|discriminate].
    simpl in H.
    assert (Hlen' : (S i + length rest <= 30)%nat) by lia.
    assert (Hle : line_entry py_int line = entry) by (unfold line_entry; rewrite He; destruct entry; reflexivity).
    destruct (Nat.ltb_spec j i) as [Hji|Hji].
    + destruct entry as [e|].
      * destruct (SKILLS !! i) as [key|] eqn:Hk; [|discriminate]. simpl in H.
        rewrite (IH _ _ Hlen' H j skill Hj).
        destruct (Nat.ltb_spec j (S i)); [|lia].
        apply lookup_insert_ne. intros ->.
        pose proof (NoDup_lookup _ _ _ _ SKILLS_NoDup Hk Hj). lia.
      * rewrite (IH _ _ Hlen' H j skill Hj).
        destruct (Nat.ltb_spec j (S i)); [reflexivity|lia].
    + destruct (decide (j = i)) as [->|Hne].
      * replace (i - i)%nat with 0%nat by lia. simpl. rewrite Hle.
        destruct entry as [e|].
        -- rewrite Hj in H. simpl in H.
           rewrite (IH _ _ Hlen' H i skill Hj).
           destruct (Nat.ltb_spec i (S i)); [|lia]. apply lookup_insert_eq.
        -- rewrite (IH _ _ Hlen' H i skill Hj).
           destruct (Nat.ltb_spec i (S i)); [reflexivity|lia].
      * replace (j - i)%nat with (S (j - S i)) by lia. simpl.
        destruct entry as [e|].
        -- destruct (SKILLS !! i) as [key|] eqn:Hk; [|discriminate]. simpl in H.
           rewrite (IH _ _ Hlen' H j skill Hj).
           destruct (Nat.ltb_spec j (S i)); [lia|].
           destruct (rest !! (j - S i)%nat ≫= line_entry py_int); [reflexivity|].
           apply lookup_insert_ne. intros ->.
           pose proof (NoDup_lookup _ _ _ _ SKILLS_NoDup Hk Hj). lia.
        -- rewrite (IH _ _ Hlen' H j skill Hj).
           destruct (Nat.ltb_spec j (S i)); [lia|]. reflexivity.
Qed.

Lemma parse_lines_other i lines skills table key :
  parse_lines py_int i lines skills = Some table ->
  key ∉ SKILLS -> table !! key = skills !! key.
Proof.
  revert i skills. induction lines as [|line rest IH]; intros i skills H Hk.
  - simpl in H. injection H as <-. reflexivity.
  - simpl in H. destruct (parse_line py_int line) as [[e|]|]; simpl in H; [| |discriminate].
    + destruct (SKILLS !! i) as [k|] eqn:Hi; [|discriminate]. simpl in H.
      rewrite (IH _ _ H Hk). apply lookup_insert_ne. intros ->.
      apply Hk. eapply list_elem_of_lookup_2, Hi.
    + apply (IH _ _ H Hk).
Qed.

Lemma parse_line_fields line :
  match PyStr.split_on ","%char line with
  | f0 :: f1 :: f2 :: _ =>
      parse_line py_int line =
        (r ← py_int f0; l ← py_int f1; x ← py_int f2;
         Some (Some {| rank := r; level := l; xp := x |}))
  | _ => parse_line py_int line = Some None
  end.
Proof.
  unfold parse_line.
  destruct (PyStr.split_on ","%char line) as [|f0 [|f1 [|f2 more]]]; reflexivity.
Qed.

Lemma parse_line_is_Some line :
  is_Some (parse_line py_int line) <->
  forall f0 f1 f2 more, PyStr.split_on ","%char line = f0 :: f1 :: f2 :: more ->
    is_Some (py_int f0) /\ is_Some (py_int f1) /\ is_Some (py_int f2).
Proof.
  pose proof (parse_line_fields line) as H.
  destruct (PyStr.split_on ","%char line) as [|f0 [|f1 [|f2 more]]]; rewrite H.
  - split; [intros _ ? ? ? ? [=] | eauto].
  - split; [intros _ ? ? ? ? [=] | eauto].
  - split; [intros _ ? ? ? ? [=] | eauto].
  - split.
    + intros [e He] ? ? ? ? [= <- <- <- <-].
      destruct (py_int f0); [|discriminate]. destruct (py_int f1); [|discriminate].
      destruct (py_int f2); [|discriminate]. eauto.
    + intros Hall. destruct (Hall _ _ _ _ eq_refl) as ([r ->] & [l ->] & [x ->]).
      simpl. eauto.
Qed.

Lemma line_entry_fields line :
  is_Some (parse_line py_int line) ->
  match PyStr.split_on ","%char line with
  | f0 :: f1 :: f2 :: _ =>
      exists r l x, py_int f0 = Some r /\ py_int f1 = Some l /\ py_int f2 = Some x /\
                    line_entry py_int line = Some {| rank := r; level := l; xp := x |}
  | _ => line_entry py_int line = None
  end.
Proof.
  intros [e He]. unfold line_entry. pose proof (parse_line_fields line) as H.
  destruct (PyStr.split_on ","%char line) as [|f0 [|f1 [|f2 more]]];
    try (rewrite H; reflexivity).
  rewrite H in He |- *.
  destruct (py_int f0) as [r|]; [|discriminate]. destruct (py_int f1) as [l|]; [|discriminate].
  destruct (py_int f2) as [x|]; [|discriminate]. simpl. eauto 10.
Qed.

(** C4: for every response body, with [lines] the lines of the body
    once stripped: only the first 30 lines count (two bodies that agree on
    them parse alike); the parser returns a table exactly when, on each of
    those lines that has three or more comma-separated fields, the first
    three fields are integers; and in that table the skill at position [i]
    of the fixed 30-entry order holds the rank, level and experience read
    from the first three fields of line [i], while a line with fewer than
    three fields, or a missing line, leaves its skill without an entry, and
    no other key is ever present. *)
Theorem parse_hiscores_lines (body : string) :
  let lines := PyStr.split_on (ascii_of_nat 10) (py_strip body) in
  (forall body',
     take 30 (PyStr.split_on (ascii_of_nat 10) (py_strip body')) = take 30 lines ->
     parse_hiscores py_strip py_int body' = parse_hiscores py_strip py_int body) /\
  (is_Some (parse_hiscores py_strip py_int body) <->
   forall i line, (i < 30)%nat -> lines !! i = Some line ->
     forall f0 f1 f2 more, PyStr.split_on ","%char line = f0 :: f1 :: f2 :: more ->
       is_Some (py_int f0) /\ is_Some (py_int f1) /\ is_Some (py_int f2)) /\
  (forall table, parse_hiscores py_strip py_int body = Some table ->
     (forall i skill, SKILLS !! i = Some skill ->
        match lines !! i with
        | Some line =>
            match PyStr.split_on ","%char line with
            | f0 :: f1 :: f2 :: _ =>
                exists r l x,
                  py_int f0 = Some r /\ py_int f1 = Some l /\ py_int f2 = Some x /\
                  table !! skill = Some {| rank := r; level := l; xp := x |}
            | _ => table !! skill = None
            end
        | None => table !! skill = None
        end) /\
     (forall key, key ∉ SKILLS -> table !! key = None)).
Proof.
  intros lines. unfold parse_hiscores. fold lines. rewrite SKILLS_length.
  assert (Hlen : (0 + length (take 30 lines) <= 30)%nat) by (rewrite length_take; lia).
  split; [|split].
  - intros body' ->. reflexivity.
  - split.
    + intros H i line Hi Hl.
      apply parse_lines_some_inv in H. rewrite Forall_lookup in H.
      apply parse_line_is_Some, (H i). rewrite lookup_take_lt by assumption. exact Hl.
    + intros H. apply parse_lines_some; [exact Hlen|].
      apply Forall_lookup. intros i line Hl.
      apply lookup_take_Some in Hl as [Hl Hi].
      apply parse_line_is_Some. eauto.
  - intros table Ht. split.
    + intros i skill Hs.
      assert (Hi : (i < 30)%nat).
      { rewrite <- SKILLS_length. eapply lookup_lt_Some, Hs. }
      rewrite (parse_lines_lookup 0 _ _ _ Hlen Ht i skill Hs).
      simpl. rewrite Nat.sub_0_r, lookup_take_lt by assumption.
      destruct (lines !! i) as [line|] eqn:Hl; simpl; [|apply lookup_empty].
      assert (Hsome : is_Some (parse_line py_int line)).
      { pose proof (parse_lines_some_inv _ _ _ (mk_is_Some _ _ Ht)) as HF.
        rewrite Forall_lookup in HF. apply (HF i).
        rewrite lookup_take_lt by assumption. exact Hl. }
      pose proof (line_entry_fields line Hsome) as Hle.
      destruct (PyStr.split_on ","%char line) as [|f0 [|f1 [|f2 more]]];
        try (rewrite Hle; apply lookup_empty).
      destruct Hle as (r & l & x & H0 & H1 & H2 & ->). eauto 10.
    + intros key Hk. rewrite (parse_lines_other _ _ _ _ _ Ht Hk). apply lookup_empty.
Qed.

End Parser.

Lemma parse_hiscores_lines_witness :
  exists table,
    parse_hiscores AsciiText.strip AsciiText.int
      ("1,99,200" +:+ PyStr.nl +:+ "5,6" +:+ PyStr.nl +:+ " 7 , 8,+9_0,zz" +:+ PyStr.nl)
      = Some table /\
    table !! "Overall" = Some {| rank := 1; level := 99; xp := 200 |} /\
    table !! "Attack" = None /\
    table !! "Defence" = Some {| rank := 7; level := 8; xp := 90 |} /\
    table !! "Strength" = None.
Proof.
  destruct (parse_hiscores AsciiText.strip AsciiText.int
              ("1,99,200" +:+ PyStr.nl +:+ "5,6" +:+ PyStr.nl +:+ " 7 , 8,+9_0,zz" +:+ PyStr.nl))
    as [table|] eqn:E; [|vm_compute in E; discriminate].
  exists table. split; [reflexivity|].
  pose proof (parse_hiscores_lines AsciiText.strip AsciiText.int
    ("1,99,200" +:+ PyStr.nl +:+ "5,6" +:+ PyStr.nl +:+ " 7 , 8,+9_0,zz" +:+ PyStr.nl))
    as HT.
  cbv zeta in HT. destruct HT as (_ & _ & H).
  destruct (H table E) as [Hl _].
  pose proof (Hl 0%nat "Overall" eq_refl) as H0.
  pose proof (Hl 1%nat "Attack" eq_refl) as H1.
  pose proof (Hl 2%nat "Defence" eq_refl) as H2.
  pose proof (Hl 3%nat "Strength" eq_refl) as H3.
  cbn in H0, H1, H2, H3.
  destruct H0 as (r0 & l0 & x0 & Hr0 & Hl0 & Hx0 & ->).
  destruct H2 as (r2 & l2 & x2 & Hr2 & Hl2 & Hx2 & ->).
  vm_compute in Hr0, Hl0, Hx0, Hr2, Hl2, Hx2.
  injection Hr0 as <-. injection Hl0 as <-. injection Hx0 as <-.
  injection Hr2 as <-. injection Hl2 as <-. injection Hx2 as <-.
  repeat split; assumption.
Defined.

(** ** Stable descending sort *)

Module StableSortFacts.
Import StableSort.
Section Facts.

Context {A K : Type} `{EqDecision K} (ltb : K -> K -> bool) (key : A -> K).
Hypothesis ltb_irrefl : forall k, ltb k k = false.
Hypothesis ltb_asym : forall a b, ltb a b = true -> ltb b a = false.
Hypothesis geb_trans : forall a b c, ltb a b = false -> ltb b c = false -> ltb a c = false.

Lemma insert_desc_perm x l : Permutation (insert_desc ltb key x l) (x :: l).
Proof.
  induction l as [|y l IH]; simpl; [reflexivity|].
  destruct (ltb (key x) (key y)); [|reflexivity].
  rewrite IH. apply perm_swap.
Qed.

Lemma sort_desc_perm l : Permutation (sort_desc ltb key l) l.
Proof.
  induction l as [|x l IH]; simpl; [reflexivity|].
  rewrite insert_desc_perm. constructor. exact IH.
Qed.

Lemma insert_desc_sorted x l :
  StronglySorted (above ltb key) l -> StronglySorted (above ltb key) (insert_desc ltb key x l).
Proof.
  induction 1 as [|y l Hs IH Hall]; simpl.
  - repeat constructor.
  - destruct (ltb (key x) (key y)) eqn:E.
    + constructor; [exact IH|].
      rewrite Forall_forall in Hall |- *. intros z Hz.
      rewrite insert_desc_perm in Hz. apply elem_of_cons in Hz as [-> | Hz].
      * apply ltb_asym, E.
      * apply Hall, Hz.
    + constructor; [constructor; assumption|].
      constructor; [exact E|].
      rewrite Forall_forall in Hall |- *. intros z Hz.
      eapply geb_trans; [exact E | apply Hall, Hz].
Qed.

Lemma sort_desc_sorted l : StronglySorted (above ltb key) (sort_desc ltb key l).
Proof.
  induction l as [|x l IH]; simpl; [constructor|].
  apply insert_desc_sorted, IH.
Qed.

Lemma insert_desc_stable k x l :
  filter (fun a => key a = k) (insert_desc ltb key x l)
  = filter (fun a => key a = k) (x :: l).
Proof.
  induction l as [|y l IH]; simpl; [reflexivity|].
  destruct (ltb (key x) (key y)) eqn:E; [|reflexivity].
  rewrite (filter_cons _ y), IH, !filter_cons.
  assert (Hne : key x <> key y).
  { intros Heq. rewrite Heq, ltb_irrefl in E. discriminate. }
  destruct (decide (key y = k)), (decide (key x = k)); try congruence; reflexivity.
Qed.

(** Elements with the same key come out in the order they went in. *)
Lemma sort_desc_stable k l :
  filter (fun a => key a = k) (sort_desc ltb key l) = filter (fun a => key a = k) l.
Proof.
  induction l as [|x l IH]; simpl; [reflexivity|].
  rewrite insert_desc_stable, !filter_cons, IH. reflexivity.
Qed.
End Facts.
End StableSortFacts.

Lemma string_compare_eq a b : String.compare a b = OrdersEx.String_as_OT.compare a b.
Proof.
  reflexivity.
Qed.

Lemma string_ltb_lt a b : String.ltb a b = true <-> String_as_OT.lt a b.
Proof.
  unfold String.ltb, String_as_OT.lt. rewrite string_compare_eq.
  destruct (String_as_OT.compare a b); split; congruence.
Qed.

Lemma string_ltb_irrefl s : String.ltb s s = false.
Proof.
  apply not_true_is_false. rewrite string_ltb_lt.
  apply (StrictOrder_Irreflexive s).
Qed.

Lemma string_ltb_asym a b : String.ltb a b = true -> String.ltb b a = false.
Proof.
  intros H. apply not_true_is_false. rewrite string_ltb_lt in H |- *.
  intros H'. apply (StrictOrder_Irreflexive a). etransitivity; eassumption.
Qed.

Lemma string_geb_trans a b c :
  String.ltb a b = false -> String.ltb b c = false -> String.ltb a c = false.
Proof.
  intros H1 H2. apply not_true_is_false. intros H3.
  apply not_true_iff_false in H1, H2. rewrite string_ltb_lt in H1, H2, H3.
  destruct (String_as_OT.compare_spec a b) as [->|H|H]; [contradiction..|].
  apply H2. etransitivity; eassumption.
Qed.

(** ** Comparison *)

Lemma compare_one_result d1 d2 label key :
  default 0 (totalxp d1) < 1000000000 * (2 ^ 1024 - 2 ^ 970) ->
  default 0 (totalxp d2) < 1000000000 * (2 ^ 1024 - 2 ^ 970) ->
  exists display1 display2,
    compare_one d1 d2 label key =
      Ok {| c_label := label;
            c_display1 := display1;
            c_marker1 := if default 0 (get_int d2 key) <? default 0 (get_int d1 key)
                         then trophy else "";
            c_display2 := display2;
            c_marker2 := if default 0 (get_int d1 key) <? default 0 (get_int d2 key)
                         then trophy else "" |}.
Proof.
  intros H1 H2. unfold compare_one.
  destruct (String.eqb key "totalxp") eqn:E.
  - apply String.eqb_eq in E. subst key. cbn [get_int String.eqb Ascii.eqb Bool.eqb].
    destruct (format_number_ok _ H1) as [s1 ->], (format_number_ok _ H2) as [s2 ->].
    simpl. eauto.
  - simpl. eauto.
Qed.

Lemma compare_fields_ok d1 d2 todo e :
  default 0 (totalxp d1) < 1000000000 * (2 ^ 1024 - 2 ^ 970) ->
  default 0 (totalxp d2) < 1000000000 * (2 ^ 1024 - 2 ^ 970) ->
  exists cs,
    Forall2 (fun lk c => compare_one d1 d2 (fst lk) (snd lk) = Ok c) todo cs /\
    compare_fields d1 d2 todo e =
      Ok {| e_title := e_title e; e_description := e_description e;
            e_fields := (e_fields e ++ (comparison_field <$> cs))%list;
            e_footer := e_footer e |}.
Proof.
  intros H1 H2. revert e. induction todo as [|[label key] rest IH]; intros e.
  - exists []. split; [constructor|]. simpl. rewrite app_nil_r. destruct e; reflexivity.
  - destruct (compare_one_result d1 d2 label key H1 H2) as (s1 & s2 & Hc).
    destruct (IH (add_field e (comparison_field
                {| c_label := label; c_display1 := s1;
                   c_marker1 := if default 0 (get_int d2 key) <? default 0 (get_int d1 key)
                                then trophy else "";
                   c_display2 := s2;
                   c_marker2 := if default 0 (get_int d1 key) <? default 0 (get_int d2 key)
                                then trophy else "" |}))) as (cs & Hcs & Hf).
    eexists (_ :: cs). split; [constructor; [exact Hc | exact Hcs]|].
    simpl. rewrite Hc. simpl. rewrite Hf. simpl. rewrite <- app_assoc. reflexivity.
Qed.





(** ** Leaderboard *)


(** A player whose experience cannot be formatted makes the loop raise. *)
Lemma leaderboard_lines_raise players i acc :
  Exists (fun p => format_number (p_xp p) = Raise OverflowError) players ->
  (forall p, In p players ->
     format_number (p_xp p) = Raise OverflowError \/ exists t, format_number (p_xp p) = Ok t) ->
  leaderboard_lines i players acc = Raise OverflowError.
Proof.
  intros H. revert i acc. induction H as [p players Hp | p players _ IH]; intros i acc Hall.
  - simpl. unfold leaderboard_line. rewrite Hp. reflexivity.
  - simpl. unfold leaderboard_line.
    destruct (Hall p (or_introl eq_refl)) as [-> | [t ->]]; [reflexivity|].
    simpl. apply IH. intros q Hq. apply Hall. right. exact Hq.
Qed.

Lemma sort_by_xp_perm l : Permutation (sort_by_xp l) l.
Proof. apply StableSortFacts.sort_desc_perm. Qed.

Lemma StronglySorted_weaken {A : Type} (R S : A -> A -> Prop) (l : list A) :
  (forall x y, R x y -> S x y) -> StronglySorted R l -> StronglySorted S l.
Proof.
  intros HRS. induction 1 as [|x l _ IH Hall]; constructor; [exact IH|].
  eapply Forall_impl; [exact Hall | apply HRS].
Qed.

Lemma sort_by_xp_sorted l :
  StronglySorted (fun p q => p_xp q <= p_xp p) (sort_by_xp l).
Proof.
  apply (StronglySorted_weaken (StableSort.above Z.ltb p_xp)).
  - intros p q H. unfold StableSort.above in H. apply Z.ltb_ge in H. exact H.
  - apply StableSortFacts.sort_desc_sorted.
    + intros a b H. apply Z.ltb_lt in H. apply Z.ltb_ge. lia.
    + intros a b c H1 H2. apply Z.ltb_ge in H1, H2. apply Z.ltb_ge. lia.
Qed.





(** ** The store: linking *)

Lemma filter_all {A : Type} (f : A -> bool) (l : list A) :
  (forall x, In x l -> f x = true) -> List.filter f l = l.
Proof.
  induction l as [|x l IH]; intros H; simpl; [reflexivity|].
  rewrite (H x (or_introl eq_refl)), IH; [reflexivity|].
  intros y Hy. apply H. right. exact Hy.
Qed.

Lemma filter_none {A : Type} (f : A -> bool) (l : list A) :
  (forall x, In x l -> f x = false) -> List.filter f l = [].
Proof.
  induction l as [|x l IH]; intros H; simpl; [reflexivity|].
  rewrite (H x (or_introl eq_refl)), IH; [reflexivity|].
  intros y Hy. apply H. right. exact Hy.
Qed.

Lemma filter_nil_inv {A : Type} (f : A -> bool) (l : list A) :
  List.filter f l = [] -> forall x, In x l -> f x = false.
Proof.
  induction l as [|y l IH]; intros H x Hx; [destruct Hx|].
  simpl in H. destruct (f y) eqn:E; [discriminate|].
  destruct Hx as [<- | Hx]; [exact E | apply IH; assumption].
Qed.

Lemma existsb_filter {A : Type} (f : A -> bool) (l : list A) :
  existsb f l = negb (length (List.filter f l) =? 0)%nat.
Proof.
  induction l as [|x l IH]; simpl; [reflexivity|].
  destruct (f x); simpl; [reflexivity | exact IH].
Qed.

(** A caller without linked accounts has no row in the table. *)
(** ** The index of the links *)

Lemma index_scan_perm {A : Type} (key : A -> string) l :
  Permutation (Sqlite.index_scan key l) l.
Proof. apply StableSortFacts.sort_desc_perm. Qed.

(** In a scan of the index no row comes before a row with a smaller key. *)
Lemma index_scan_sorted {A : Type} (key : A -> string) l :
  StronglySorted (fun r s => String.ltb (key s) (key r) = false) (Sqlite.index_scan key l).
Proof.
  apply (StableSortFacts.sort_desc_sorted (fun a b => String.ltb b a) key).
  - intros a b H. apply string_ltb_asym, H.
  - intros a b c H1 H2. exact (string_geb_trans c b a H2 H1).
Qed.

Lemma index_scan_nil {A : Type} (key : A -> string) l :
  Sqlite.index_scan key l = [] <-> l = [].
Proof.
  split.
  - intros H. apply Permutation_nil. rewrite <- H. apply index_scan_perm.
  - intros ->. reflexivity.
Qed.

Lemma unique_index_perm rows : Permutation (unique_index rows) rows.
Proof.
  unfold unique_index.
  etransitivity; [apply StableSortFacts.sort_desc_perm | apply index_scan_perm].
Qed.

Lemma unique_index_In rows r : In r (unique_index rows) <-> In r rows.
Proof.
  split; apply Permutation_in; [|symmetry]; apply unique_index_perm.
Qed.

Lemma index_search_rows db u : index_search db u = Sqlite.index_scan la_rsn (rows_of db u).
Proof. reflexivity. Qed.

Lemma index_search_perm db u : Permutation (index_search db u) (rows_of db u).
Proof. apply index_scan_perm. Qed.

Lemma index_search_In db u r :
  In r (index_search db u) <-> In r (linked_accounts db) /\ la_discord_id r = u.
Proof.
  transitivity (In r (rows_of db u)).
  - split; apply Permutation_in; [|symmetry]; apply index_search_perm.
  - unfold rows_of. rewrite filter_In, Z.eqb_eq. reflexivity.
Qed.

Lemma select_rsn_perm db u : Permutation (select_rsn db u) (la_rsn <$> rows_of db u).
Proof. unfold select_rsn. apply fmap_Permutation, index_search_perm. Qed.

Lemma select_rsn_In db u n :
  In n (select_rsn db u) <->
  exists r, In r (linked_accounts db) /\ la_discord_id r = u /\ la_rsn r = n.
Proof.
  unfold select_rsn.
  change (la_rsn <$> index_search db u) with (List.map la_rsn (index_search db u)).
  rewrite in_map_iff. split.
  - intros (r & Hn & Hr). apply index_search_In in Hr as [Hr Hu]. exists r. auto.
  - intros (r & Hr & Hu & Hn). exists r. split; [exact Hn|].
    apply index_search_In. auto.
Qed.

Lemma select_rsn_length db u : length (select_rsn db u) = length (rows_of db u).
Proof.
  rewrite (Permutation_length (select_rsn_perm db u)). apply length_fmap.
Qed.

Lemma select_rsn_nil_rows db u : select_rsn db u = [] <-> rows_of db u = [].
Proof.
  rewrite <- (index_scan_nil la_rsn (rows_of db u)).
  unfold select_rsn. rewrite index_search_rows. split.
  - apply fmap_nil_inv.
  - intros ->. reflexivity.
Qed.

(** The first name the store returns for a caller is the smallest of the
    caller's names, compared as byte strings. *)
Lemma select_rsn_head db u first rest :
  select_rsn db u = first :: rest ->
  forall n, In n (select_rsn db u) -> String.ltb n first = false.
Proof.
  intros H n Hn.
  pose proof (index_scan_sorted la_rsn (rows_of db u)) as Hs.
  rewrite <- index_search_rows in Hs.
  unfold select_rsn in H, Hn.
  destruct (index_search db u) as [|r rows]; [discriminate|].
  rewrite fmap_cons in H, Hn. injection H as <- <-.
  destruct Hn as [<- | Hn]; [apply string_ltb_irrefl|].
  apply StronglySorted_inv in Hs as [_ Hs].
  change (In n (List.map la_rsn rows)) in Hn.
  apply in_map_iff in Hn as (x & <- & Hx).
  rewrite Forall_forall in Hs. apply Hs, list_elem_of_In, Hx.
Qed.

Lemma select_rsn_nil db u :
  select_rsn db u = [] ->
  forall r, In r (linked_accounts db) -> (la_discord_id r =? u) = false.
Proof.
  intros H. apply select_rsn_nil_rows in H. apply filter_nil_inv. exact H.
Qed.

Lemma insert_link_result db u n now :
  insert_link db u n now =
    if (count_links db u n =? 0)%nat
    then Some {| linked_accounts :=
                   linked_accounts db ++
                   [{| la_discord_id := u; la_rsn := n; la_linked_at := now |}];
                 drop_log := drop_log db |}
    else None.
Proof.
  unfold insert_link, count_links. rewrite existsb_filter.
  destruct (length _ =? 0)%nat; reflexivity.
Qed.

Lemma count_links_app db rows u n :
  count_links {| linked_accounts := linked_accounts db ++ rows; drop_log := drop_log db |} u n
  = Nat.add (count_links db u n)
      (length (List.filter
                 (fun r => (la_discord_id r =? u) && String.eqb (la_rsn r) n) rows)).
Proof. unfold count_links. simpl. rewrite List.filter_app, length_app. reflexivity. Qed.

Lemma link_account_found w now db u rsn p :
  fetch_runemetrics w rsn = Some p -> profile_truthy p = true ->
  link_account w now db u rsn =
    match insert_link db u (default rsn (name p)) now with
    | Some db' =>
        (db', Message ("✅ Successfully linked **" +:+ default rsn (name p)
                       +:+ "** to your Discord account!") false)
    | None =>
        (db, Message ("⚠️ **" +:+ default rsn (name p)
                      +:+ "** is already linked to your account.") true)
    end.
Proof. intros H1 H2. unfold link_account. rewrite H1, H2. reflexivity. Qed.

Lemma unlink_account_none db u n :
  (forall r, In r (linked_accounts db) -> unlink_matches u n r = false) ->
  unlink_account db u n =
    (db, Message ("❌ **" +:+ n +:+ "** is not linked to your account.") true).
Proof.
  intros H. unfold unlink_account, delete_link.
  rewrite (filter_none _ _ H), filter_all.
  - destruct db; reflexivity.
  - intros r Hr. rewrite (H r Hr). reflexivity.
Qed.

(** C7, as stated, fails when the profile service resolves the typed
    name to a canonical name that differs by more than letter case: the
    canonical name is what is stored, so unlinking with the typed name
    removes nothing and the caller keeps one linked account. *)
Lemma link_unlink_typed_name_stays :
  let w := {| get_json := fun _ =>
                Reply 200 (Some {| name := Some "Foo Bar"; totalxp := Some 5;
                                   totalskill := None; combatlevel := None;
                                   questscomplete := None; questsstarted := None;
                                   questsnotstarted := None; activities := None;
                                   error := None |});
              get_text := fun _ => Failed |} in
  let linked := link_account w "2024-01-01 10:00:00" empty_db 7 "foo_bar" in
  snd linked = Message "✅ Successfully linked **Foo Bar** to your Discord account!" false /\
  unlink_account (fst linked) 7 "FOO_BAR" =
    (fst linked, Message "❌ **FOO_BAR** is not linked to your account." true) /\
  select_rsn (fst (unlink_account (fst linked) 7 "FOO_BAR")) 7 = ["Foo Bar"].
Proof. repeat split; vm_compute; reflexivity. Qed.

(** C7 (amended): for every caller without linked accounts and every
    account name, a successful link() stores the canonical name the profile
    fetch resolved; unlink() by the same caller with that stored name in any
    ASCII letter case then removes the row, reports it, and leaves the store
    as it was before the link, with zero linked accounts for the caller.
    unlink() matches by the caller and the lower-cased name, and when no row
    matches it changes nothing and answers "not linked" instead of failing. *)
Theorem link_then_unlink (w : web) (now : string) (db : database) (u : Z)
    (rsn typed : string) (p : profile) :
  fetch_runemetrics w rsn = Some p ->
  profile_truthy p = true ->
  select_rsn db u = [] ->
  Sqlite.lower typed = Sqlite.lower (default rsn (name p)) ->
  exists db1,
    link_account w now db u rsn =
      (db1, Message ("✅ Successfully linked **" +:+ default rsn (name p)
                     +:+ "** to your Discord account!") false) /\
    select_rsn db1 u = [default rsn (name p)] /\
    unlink_account db1 u typed =
      (db, Message ("✅ Unlinked **" +:+ typed +:+ "** from your account.") false) /\
    select_rsn (fst (unlink_account db1 u typed)) u = [] /\
    (forall db0 u0 n,
       (forall r, In r (linked_accounts db0) -> unlink_matches u0 n r = false) ->
       unlink_account db0 u0 n =
         (db0, Message ("❌ **" +:+ n +:+ "** is not linked to your account.") true)).
Proof.
  intros Hf Hp Hnone Hcase.
  pose proof (select_rsn_nil db u Hnone) as Hrows.
  set (stored := default rsn (name p)) in *.
  assert (Hcount : count_links db u stored = 0%nat).
  { unfold count_links. rewrite filter_none; [reflexivity|].
    intros r Hr. rewrite (Hrows r Hr). reflexivity. }
  eexists. split.
  { rewrite (link_account_found _ _ _ _ _ _ Hf Hp), insert_link_result. fold stored.
    rewrite Hcount. reflexivity. }
  assert (Hkeep : List.filter (fun r => negb (unlink_matches u typed r)) (linked_accounts db)
                  = linked_accounts db).
  { apply filter_all. intros r Hr. unfold unlink_matches. rewrite (Hrows r Hr). reflexivity. }
  assert (Hdrop : List.filter (unlink_matches u typed) (linked_accounts db) = []).
  { apply filter_none. intros r Hr. unfold unlink_matches. rewrite (Hrows r Hr). reflexivity. }
  assert (Hrow : unlink_matches u typed
                   {| la_discord_id := u; la_rsn := stored; la_linked_at := now |} = true).
  { unfold unlink_matches. simpl. rewrite Z.eqb_refl, Hcase, String.eqb_refl. reflexivity. }
  assert (Hun : unlink_account
                  {| linked_accounts :=
                       linked_accounts db ++
                       [{| la_discord_id := u; la_rsn := stored; la_linked_at := now |}];
                     drop_log := drop_log db |} u typed
                = (db, Message ("✅ Unlinked **" +:+ typed +:+ "** from your account.") false)).
  { unfold unlink_account, delete_link. simpl.
    rewrite !List.filter_app, Hkeep, Hdrop. simpl. rewrite Hrow. simpl.
    rewrite app_nil_r. destruct db; reflexivity. }
  split.
  { unfold select_rsn, index_search. cbn [linked_accounts]. rewrite List.filter_app.
    rewrite (filter_none _ (linked_accounts db) Hrows). simpl.
    rewrite Z.eqb_refl. reflexivity. }
  split; [exact Hun|].
  split; [rewrite Hun; exact Hnone|].
  intros db0 u0 n. apply unlink_account_none.
Qed.

Lemma link_then_unlink_witness :
  let w := {| get_json := fun _ =>
                Reply 200 (Some {| name := Some "Zezima"; totalxp := Some 5;
                                   totalskill := None; combatlevel := None;
                                   questscomplete := None; questsstarted := None;
                                   questsnotstarted := None; activities := None;
                                   error := None |});
              get_text := fun _ => Failed |} in
  exists db1,
    link_account w "2024-01-01 10:00:00" empty_db 7 "zezima" =
      (db1, Message "✅ Successfully linked **Zezima** to your Discord account!" false) /\
    unlink_account db1 7 "ZEZIMA" =
      (empty_db, Message "✅ Unlinked **ZEZIMA** from your account." false).
Proof.
  intros w.
  destruct (link_then_unlink w "2024-01-01 10:00:00" empty_db 7 "zezima" "ZEZIMA"
              {| name := Some "Zezima"; totalxp := Some 5;
                 totalskill := None; combatlevel := None;
                 questscomplete := None; questsstarted := None;
                 questsnotstarted := None; activities := None;
                 error := None |}
              ltac:(vm_compute; reflexivity) ltac:(reflexivity)
              ltac:(reflexivity) ltac:(vm_compute; reflexivity))
    as (db1 & H1 & _ & H2 & _).
  exists db1. split; [exact H1 | exact H2].
Defined.

(** ** The store: uniqueness of links *)

Lemma link_key_eqb r u n :
  (la_discord_id r =? u) && String.eqb (la_rsn r) n = true <-> link_key r = (u, n).
Proof.
  unfold link_key. rewrite andb_true_iff, Z.eqb_eq, String.eqb_eq.
  split; [intros [-> ->]; reflexivity | intros [= -> ->]; split; reflexivity].
Qed.

Lemma count_links_zero db u n :
  count_links db u n = 0%nat <-> (u, n) ∉ (link_key <$> linked_accounts db).
Proof.
  unfold count_links. induction (linked_accounts db) as [|r l IH]; simpl.
  - split; [intros _; apply not_elem_of_nil | reflexivity].
  - rewrite not_elem_of_cons.
    destruct ((la_discord_id r =? u) && String.eqb (la_rsn r) n) eqn:E.
    + apply link_key_eqb in E. simpl. split; [discriminate | intros [H _]; congruence].
    + rewrite IH. split; [|intros [_ H]; exact H].
      intros H. split; [|exact H]. intros Heq. symmetry in Heq.
      apply link_key_eqb in Heq. congruence.
Qed.

Lemma count_links_unique db u n :
  unique_links db -> (count_links db u n <= 1)%nat.
Proof.
  unfold unique_links, count_links.
  induction (linked_accounts db) as [|r l IH]; simpl; [lia|].
  rewrite NoDup_cons. intros [Hr Hl].
  destruct ((la_discord_id r =? u) && String.eqb (la_rsn r) n) eqn:E; [|auto].
  apply link_key_eqb in E. rewrite E in Hr.
  pose proof (proj2 (count_links_zero {| linked_accounts := l; drop_log := [] |} u n) Hr) as Hz.
  unfold count_links in Hz. simpl in Hz |- *. rewrite Hz. lia.
Qed.

Lemma unique_links_insert db u n now db' :
  unique_links db -> insert_link db u n now = Some db' -> unique_links db'.
Proof.
  intros Hu. rewrite insert_link_result.
  destruct (Nat.eqb_spec (count_links db u n) 0) as [Hz|]; [|discriminate].
  intros [= <-]. unfold unique_links in *. simpl.
  rewrite fmap_app. apply NoDup_app. split; [exact Hu|]. split.
  - intros k Hk Hin. simpl in Hin. apply list_elem_of_singleton in Hin. subst k.
    apply count_links_zero in Hz. contradiction.
  - simpl. apply NoDup_singleton.
Qed.

Lemma unique_links_filter (f : link_row -> bool) l :
  NoDup (link_key <$> l) -> NoDup (link_key <$> List.filter f l).
Proof.
  induction l as [|r l IH]; simpl; [auto|].
  rewrite NoDup_cons. intros [Hr Hl]. destruct (f r); [|auto].
  simpl. rewrite NoDup_cons. split; [|auto].
  intros Hin. apply Hr. apply list_elem_of_fmap in Hin as (r' & -> & Hin).
  apply list_elem_of_fmap. exists r'. split; [reflexivity|].
  apply list_elem_of_In. apply list_elem_of_In in Hin. apply List.filter_In in Hin. tauto.
Qed.

Lemma unique_links_link w now db u rsn :
  unique_links db -> unique_links (fst (link_account w now db u rsn)).
Proof.
  intros Hu. unfold link_account.
  destruct (fetch_runemetrics w rsn) as [p|]; [|exact Hu].
  destruct (profile_truthy p); [|exact Hu].
  destruct (insert_link db u (default rsn (name p)) now) as [db'|] eqn:E; [|exact Hu].
  simpl. eapply unique_links_insert; eassumption.
Qed.

Lemma unique_links_unlink db u rsn :
  unique_links db -> unique_links (fst (unlink_account db u rsn)).
Proof.
  intros Hu. unfold unlink_account, delete_link.
  match goal with |- context [if ?c then _ else _] => destruct c end; simpl;
    apply unique_links_filter, Hu.
Qed.

Section BotFacts.

Variable py_strip : string -> string.
Variable py_int : string -> option Z.
Variable py_lower : string -> string.

Lemma log_drop_links now db u display item rsn :
  linked_accounts (fst (log_drop py_lower now db u display item rsn)) = linked_accounts db.
Proof.
  unfold log_drop. destruct (select_rsn db u) as [|first rest]; [reflexivity|].
  destruct rsn as [[|c s]|]; try reflexivity.
  destruct (negb _); reflexivity.
Qed.

Lemma unique_links_run i c db :
  unique_links db -> unique_links (fst (run py_strip py_int py_lower i c db)).
Proof.
  intros Hu. destruct c; simpl; try exact Hu.
  - pose proof (unique_links_link (net i) (now i) db (user_id i) rsn Hu) as H.
    destruct (link_account (net i) (now i) db (user_id i) rsn). exact H.
  - pose proof (unique_links_unlink db (user_id i) rsn Hu) as H.
    destruct (unlink_account db (user_id i) rsn). exact H.
  - pose proof (log_drop_links (now i) db (user_id i) (display_name i) item rsn) as H.
    destruct (log_drop py_lower (now i) db (user_id i) (display_name i) item rsn) as [db' r].
    simpl in *. unfold unique_links. rewrite H. exact Hu.
Qed.

Lemma reachable_unique_links db :
  reachable py_strip py_int py_lower db -> unique_links db.
Proof.
  induction 1 as [|i c db _ IH]; [apply NoDup_nil_2 | apply unique_links_run, IH].
Qed.

End BotFacts.

Lemma count_links_insert db u n now db' u' n' :
  insert_link db u n now = Some db' ->
  count_links db' u' n' =
    Nat.add (count_links db u' n') (if (u =? u') && String.eqb n n' then 1%nat else 0%nat).
Proof.
  rewrite insert_link_result. destruct (count_links db u n =? 0)%nat; [|discriminate].
  intros [= <-]. rewrite count_links_app. simpl.
  destruct ((u =? u') && String.eqb n n'); reflexivity.
Qed.

Lemma link_twice_same (w1 w2 : web) (now1 now2 : string) (db : database) (u : Z)
    (rsn1 rsn2 : string) (p1 p2 : profile) :
  unique_links db ->
  fetch_runemetrics w1 rsn1 = Some p1 -> profile_truthy p1 = true ->
  fetch_runemetrics w2 rsn2 = Some p2 -> profile_truthy p2 = true ->
  default rsn1 (name p1) = default rsn2 (name p2) ->
  let first := link_account w1 now1 db u rsn1 in
  let second := link_account w2 now2 (fst first) u rsn2 in
  snd second = Message ("⚠️ **" +:+ default rsn2 (name p2)
                        +:+ "** is already linked to your account.") true /\
  fst second = fst first /\
  count_links (fst second) u (default rsn2 (name p2)) = 1%nat.
Proof.
  intros Hu Hf1 Hp1 Hf2 Hp2 Hn first second.
  assert (Hone : count_links (fst first) u (default rsn2 (name p2)) = 1%nat).
  { unfold first. rewrite (link_account_found _ _ _ _ _ _ Hf1 Hp1), Hn.
    destruct (insert_link db u (default rsn2 (name p2)) now1) as [db1|] eqn:E; simpl.
    - rewrite (count_links_insert _ _ _ _ _ _ _ E), Z.eqb_refl, String.eqb_refl. simpl.
      rewrite insert_link_result in E.
      destruct (Nat.eqb_spec (count_links db u (default rsn2 (name p2))) 0);
        [lia | discriminate].
    - rewrite insert_link_result in E.
      destruct (Nat.eqb_spec (count_links db u (default rsn2 (name p2))) 0);
        [discriminate|].
      pose proof (count_links_unique db u (default rsn2 (name p2)) Hu). lia. }
  unfold second. rewrite (link_account_found _ _ _ _ _ _ Hf2 Hp2), insert_link_result, Hone.
  simpl. auto.
Qed.

Lemma link_two_callers (w1 w2 : web) (now1 now2 : string) (db : database) (u1 u2 : Z)
    (rsn1 rsn2 : string) (p1 p2 : profile) :
  u1 <> u2 ->
  fetch_runemetrics w1 rsn1 = Some p1 -> profile_truthy p1 = true ->
  fetch_runemetrics w2 rsn2 = Some p2 -> profile_truthy p2 = true ->
  default rsn1 (name p1) = default rsn2 (name p2) ->
  count_links db u1 (default rsn1 (name p1)) = 0%nat ->
  count_links db u2 (default rsn2 (name p2)) = 0%nat ->
  let first := link_account w1 now1 db u1 rsn1 in
  let second := link_account w2 now2 (fst first) u2 rsn2 in
  snd first = Message ("✅ Successfully linked **" +:+ default rsn1 (name p1)
                       +:+ "** to your Discord account!") false /\
  snd second = Message ("✅ Successfully linked **" +:+ default rsn2 (name p2)
                        +:+ "** to your Discord account!") false /\
  count_links (fst second) u1 (default rsn1 (name p1)) = 1%nat /\
  count_links (fst second) u2 (default rsn2 (name p2)) = 1%nat.
Proof.
  intros Hne Hf1 Hp1 Hf2 Hp2 Hn Hc1 Hc2 first second.
  unfold second, first.
  rewrite (link_account_found _ _ _ _ _ _ Hf1 Hp1).
  destruct (insert_link db u1 (default rsn1 (name p1)) now1) as [db1|] eqn:E1;
    [|rewrite insert_link_result, Hc1 in E1; discriminate].
  simpl fst. simpl snd.
  rewrite (link_account_found _ _ _ _ _ _ Hf2 Hp2).
  pose proof (count_links_insert _ _ _ _ _ u2 (default rsn2 (name p2)) E1) as H12.
  pose proof (count_links_insert _ _ _ _ _ u1 (default rsn1 (name p1)) E1) as H11.
  rewrite Z.eqb_refl, String.eqb_refl, Hc1 in H11. simpl in H11.
  assert (Eu : (u1 =? u2) = false) by (apply Z.eqb_neq; exact Hne).
  rewrite Eu, Hc2 in H12. simpl in H12.
  destruct (insert_link db1 u2 (default rsn2 (name p2)) now2) as [db2|] eqn:E2;
    [|rewrite insert_link_result, H12 in E2; discriminate].
  simpl.
  pose proof (count_links_insert _ _ _ _ _ u2 (default rsn2 (name p2)) E2) as H22.
  pose proof (count_links_insert _ _ _ _ _ u1 (default rsn1 (name p1)) E2) as H21.
  rewrite Z.eqb_refl, String.eqb_refl, H12 in H22. simpl in H22.
  assert (Eu' : (u2 =? u1) = false) by (apply Z.eqb_neq; congruence).
  rewrite Eu', H11 in H21. simpl in H21.
  auto.
Qed.

(** C8: every store the bot can reach holds each (caller, account
    name) pair at most once in the linked-accounts table.  In such a store,
    two link() calls by the same caller that resolve to the same canonical
    name leave exactly one row of that pair, the second call changing
    nothing and answering "already linked" (the DuplicateLink outcome); and
    two different callers who link the same account name, neither having it
    yet, both succeed, each ending with one row of their own. *)
Theorem links_stay_unique (py_strip : string -> string)
    (py_int : string -> option Z) (py_lower : string -> string) :
  (forall db, reachable py_strip py_int py_lower db -> unique_links db) /\
  (forall (w1 w2 : web) (now1 now2 : string) (db : database) (u : Z)
          (rsn1 rsn2 : string) (p1 p2 : profile),
     unique_links db ->
     fetch_runemetrics w1 rsn1 = Some p1 -> profile_truthy p1 = true ->
     fetch_runemetrics w2 rsn2 = Some p2 -> profile_truthy p2 = true ->
     default rsn1 (name p1) = default rsn2 (name p2) ->
     let first := link_account w1 now1 db u rsn1 in
     let second := link_account w2 now2 (fst first) u rsn2 in
     snd second = Message ("⚠️ **" +:+ default rsn2 (name p2)
                           +:+ "** is already linked to your account.") true /\
     fst second = fst first /\
     count_links (fst second) u (default rsn2 (name p2)) = 1%nat) /\
  (forall (w1 w2 : web) (now1 now2 : string) (db : database) (u1 u2 : Z)
          (rsn1 rsn2 : string) (p1 p2 : profile),
     u1 <> u2 ->
     fetch_runemetrics w1 rsn1 = Some p1 -> profile_truthy p1 = true ->
     fetch_runemetrics w2 rsn2 = Some p2 -> profile_truthy p2 = true ->
     default rsn1 (name p1) = default rsn2 (name p2) ->
     count_links db u1 (default rsn1 (name p1)) = 0%nat ->
     count_links db u2 (default rsn2 (name p2)) = 0%nat ->
     let first := link_account w1 now1 db u1 rsn1 in
     let second := link_account w2 now2 (fst first) u2 rsn2 in
     snd first = Message ("✅ Successfully linked **" +:+ default rsn1 (name p1)
                          +:+ "** to your Discord account!") false /\
     snd second = Message ("✅ Successfully linked **" +:+ default rsn2 (name p2)
                           +:+ "** to your Discord account!") false /\
     count_links (fst second) u1 (default rsn1 (name p1)) = 1%nat /\
     count_links (fst second) u2 (default rsn2 (name p2)) = 1%nat).
Proof.
  split; [apply reachable_unique_links|].
  split; [apply link_twice_same | apply link_two_callers].
Qed.

Lemma links_stay_unique_witness :
  let zezima := {| name := Some "Zezima"; totalxp := Some 5;
                   totalskill := None; combatlevel := None;
                   questscomplete := None; questsstarted := None;
                   questsnotstarted := None; activities := None;
                   error := None |} in
  let w := {| get_json := fun _ => Reply 200 (Some zezima);
              get_text := fun _ => Failed |} in
  let first := link_account w "2024-01-01 10:00:00" empty_db 7 "zezima" in
  let second := link_account w "2024-01-01 10:00:05" (fst first) 7 "ZEZIMA" in
  snd second = Message "⚠️ **Zezima** is already linked to your account." true /\
  count_links (fst second) 7 "Zezima" = 1%nat.
Proof.
  intros zezima w first second.
  destruct (links_stay_unique AsciiText.strip AsciiText.int Sqlite.lower) as (_ & H & _).
  destruct (H w w "2024-01-01 10:00:00" "2024-01-01 10:00:05" empty_db 7
              "zezima" "ZEZIMA" zezima zezima
              ltac:(apply NoDup_nil_2) ltac:(vm_compute; reflexivity) ltac:(reflexivity)
              ltac:(vm_compute; reflexivity) ltac:(reflexivity) ltac:(reflexivity))
    as (H1 & _ & H3).
  split; [exact H1 | exact H3].
Defined.

(** ** The store: drops *)

Lemma string_leb_ltb a b : (a <=? b)%string = true <-> String.ltb b a = false.
Proof.
  unfold String.leb, String.ltb. rewrite (String.compare_antisym a b).
  destruct (String.compare b a); simpl; split; congruence.
Qed.

Lemma order_by_desc_perm {A : Type} (key : A -> string) l :
  Permutation (Sqlite.order_by_desc key l) l.
Proof. apply StableSortFacts.sort_desc_perm. Qed.

Lemma order_by_desc_sorted {A : Type} (key : A -> string) l :
  StronglySorted (fun r s => (key s <=? key r)%string = true) (Sqlite.order_by_desc key l).
Proof.
  apply (StronglySorted_weaken (StableSort.above String.ltb key)).
  - intros r s H. apply string_leb_ltb. exact H.
  - apply StableSortFacts.sort_desc_sorted; [apply string_ltb_asym | apply string_geb_trans].
Qed.

Lemma StronglySorted_app_inv {A : Type} (R : A -> A -> Prop) (l1 l2 : list A) :
  StronglySorted R (l1 ++ l2) ->
  StronglySorted R l1 /\ forall x y, In x l1 -> In y l2 -> R x y.
Proof.
  induction l1 as [|a l1 IH]; simpl; intros H.
  - split; [constructor | intros x y []].
  - apply StronglySorted_inv in H as [Hs Hall]. destruct (IH Hs) as [H1 H2].
    split.
    + constructor; [exact H1|]. rewrite Forall_forall in Hall |- *.
      intros z Hz. apply Hall. apply list_elem_of_In. apply in_or_app. left.
      apply list_elem_of_In. exact Hz.
    + intros x y [<- | Hx] Hy; [|eauto].
      rewrite Forall_forall in Hall. apply Hall. apply list_elem_of_In.
      apply in_or_app. right. exact Hy.
Qed.

Lemma fold_add_field {A : Type} (f : A -> field) (rows : list A) (e : embed) :
  fold_left (fun e r => add_field e (f r)) rows e =
    {| e_title := e_title e; e_description := e_description e;
       e_fields := (e_fields e ++ (f <$> rows))%list; e_footer := e_footer e |}.
Proof.
  revert e. induction rows as [|r rows IH]; intros e; simpl.
  - rewrite app_nil_r. destruct e; reflexivity.
  - rewrite IH. simpl. rewrite <- app_assoc. reflexivity.
Qed.

Lemma select_drops_facts db filter :
  let matching := drops_matching db filter in
  let rows := select_drops db filter in
  length rows = Nat.min 10 (length matching) /\
  StronglySorted (fun r s => (dl_timestamp s <=? dl_timestamp r)%string = true) rows /\
  (exists rest,
     Permutation (rows ++ rest) matching /\
     forall r s, In r rows -> In s rest ->
       (dl_timestamp s <=? dl_timestamp r)%string = true).
Proof.
  intros matching rows. unfold rows, select_drops. fold matching.
  pose proof (order_by_desc_perm dl_timestamp matching) as Hperm.
  pose proof (order_by_desc_sorted dl_timestamp matching) as Hsorted.
  rewrite <- (take_drop 10 (Sqlite.order_by_desc dl_timestamp matching)) in Hsorted.
  apply StronglySorted_app_inv in Hsorted as [Hs Habove].
  split; [rewrite length_take, (Permutation_length Hperm); reflexivity|].
  split; [exact Hs|].
  exists (drop 10 (Sqlite.order_by_desc dl_timestamp matching)).
  split; [rewrite take_drop; exact Hperm | exact Habove].
Qed.

Lemma view_drops_reply db rsn :
  view_drops db rsn =
    match select_drops db (if PyStr.truthy rsn then rsn else None) with
    | [] => Message "No drops logged yet!" true
    | rows =>
        Embed {| e_title := "📜 Recent Drops"; e_description := None;
                 e_fields :=
                   (fun d => {| f_name := dl_item_name d;
                                f_value := "**" +:+ dl_rsn d +:+ "** - " +:+
                                           PyStr.slice_to 10 (dl_timestamp d);
                                f_inline := true |}) <$> rows;
                 e_footer := None |}
    end.
Proof.
  unfold view_drops.
  destruct (select_drops db (if PyStr.truthy rsn then rsn else None)) as [|d rows];
    [reflexivity|].
  rewrite fold_add_field. reflexivity.
Qed.

Section DropFacts.

Variable py_strip : string -> string.
Variable py_int : string -> option Z.
Variable py_lower : string -> string.

(** What [log_drop] does to the store: nothing, with a message, or one
    more row at the end of [drop_log], with the announcement. *)
Lemma log_drop_appends now db u display item rsn :
  (exists m, log_drop py_lower now db u display item rsn = (db, Message m true)) \/
  (exists selected e,
     log_drop py_lower now db u display item rsn =
       ({| linked_accounts := linked_accounts db;
           drop_log := drop_log db ++
                       [{| dl_discord_id := u; dl_rsn := selected;
                           dl_item_name := item; dl_timestamp := now |}] |},
        Embed e)).
Proof.
  unfold log_drop. destruct (select_rsn db u) as [|first rest]; [eauto|].
  destruct rsn as [[|c s]|]; try (right; eexists _, _; reflexivity).
  destruct (negb _); [eauto | right; eexists _, _; reflexivity].
Qed.

Lemma run_drop_log i c db :
  drop_log (fst (run py_strip py_int py_lower i c db)) = drop_log db \/
  exists item rsn selected,
    c = Drop item rsn /\
    drop_log (fst (run py_strip py_int py_lower i c db)) =
      (drop_log db ++ [{| dl_discord_id := user_id i; dl_rsn := selected;
                          dl_item_name := item; dl_timestamp := now i |}])%list.
Proof.
  destruct c; simpl; try (left; reflexivity).
  - left. unfold link_account.
    destruct (fetch_runemetrics (net i) rsn) as [p|]; [|reflexivity].
    destruct (profile_truthy p); [|reflexivity].
    rewrite insert_link_result. destruct (count_links db _ _ =? 0)%nat; reflexivity.
  - left. unfold unlink_account, delete_link.
    match goal with |- context [if ?c then _ else _] => destruct c end; reflexivity.
  - destruct (log_drop_appends (now i) db (user_id i) (display_name i) item rsn)
      as [[m ->] | (selected & e & ->)]; [left; reflexivity|].
    right. exists item, rsn, selected. split; reflexivity.
Qed.

Lemma run_recorded i c db :
  drop_log (fst (run py_strip py_int py_lower i c db)) =
    if recorded py_strip py_int py_lower i c db
    then (drop_log db ++
          match c with
          | Drop item rsn =>
              [{| dl_discord_id := user_id i;
                  dl_rsn := match rsn with
                            | Some (String a s) => String a s
                            | _ => default "" (head (select_rsn db (user_id i)))
                            end;
                  dl_item_name := item; dl_timestamp := now i |}]
          | _ => []
          end)%list
    else drop_log db.
Proof.
  unfold recorded.
  destruct c as [rsn|rsn| |rsn|rsn1 rsn2|item rsn|rsn|]; simpl; try reflexivity.
  - unfold link_account.
    destruct (fetch_runemetrics (net i) rsn) as [p|]; [|reflexivity].
    destruct (profile_truthy p); [|reflexivity].
    rewrite insert_link_result. destruct (count_links db _ _ =? 0)%nat; reflexivity.
  - unfold unlink_account, delete_link.
    match goal with |- context [if ?c then _ else _] => destruct c end; reflexivity.
  - unfold log_drop. destruct (select_rsn db (user_id i)) as [|first rest]; [reflexivity|].
    destruct rsn as [[|a s]|]; try reflexivity.
    destruct (negb _); reflexivity.
Qed.

Lemma run_all_recorded cmds db :
  length (drop_log (run_all py_strip py_int py_lower cmds db)) =
    (length (drop_log db) + count_recorded py_strip py_int py_lower cmds db)%nat /\
  exists new, drop_log (run_all py_strip py_int py_lower cmds db) = (drop_log db ++ new)%list.
Proof.
  revert db. induction cmds as [|[i c] rest IH]; intros db; simpl.
  - split; [lia | exists []; rewrite app_nil_r; reflexivity].
  - destruct (IH (fst (run py_strip py_int py_lower i c db))) as [Hlen [new Hnew]].
    rewrite Hlen, Hnew, run_recorded.
    destruct (recorded py_strip py_int py_lower i c db) eqn:E.
    + split; [|rewrite <- app_assoc; eauto].
      rewrite length_app. unfold recorded in E.
      destruct c; try discriminate E. simpl. lia.
    + split; [lia | eauto].
Qed.

End DropFacts.

(** Rows with the same timestamp keep the order in which they were
    recorded. *)
Lemma order_by_desc_stable {A : Type} (key : A -> string) (t : string) (l : list A) :
  filter (fun r => key r = t) (Sqlite.order_by_desc key l) = filter (fun r => key r = t) l.
Proof. apply StableSortFacts.sort_desc_stable. apply string_ltb_irrefl. Qed.

Lemma drops_matching_sublist db filter : sublist (drops_matching db filter) (drop_log db).
Proof.
  destruct filter as [n|]; simpl; [|reflexivity].
  induction (drop_log db) as [|r l IH]; simpl; [constructor|].
  destruct (String.eqb _ _); [apply sublist_skip | apply sublist_cons]; exact IH.
Qed.

(** C9, as stated, fails for drops recorded within the same second:
    they carry the same timestamp, the listing shows them in the order they
    were recorded, the oldest first, and of eleven such drops the one left
    out is the newest. *)
Lemma drops_same_second_oldest_first :
  let zezima := {| name := Some "Zezima"; totalxp := Some 5;
                   totalskill := None; combatlevel := None;
                   questscomplete := None; questsstarted := None;
                   questsnotstarted := None; activities := None;
                   error := None |} in
  let caller := {| user_id := 7; display_name := "bob";
                   net := {| get_json := fun _ => Reply 200 (Some zezima);
                             get_text := fun _ => Failed |};
                   now := "2024-01-02 09:30:00" |} in
  let items := ["d01"; "d02"; "d03"; "d04"; "d05"; "d06"; "d07"; "d08"; "d09"; "d10"; "d11"] in
  let cmds := (caller, Link "zezima") :: ((fun item => (caller, Drop item None)) <$> items) in
  let db := run_all AsciiText.strip AsciiText.int Sqlite.lower cmds empty_db in
  count_recorded AsciiText.strip AsciiText.int Sqlite.lower cmds empty_db = 11%nat /\
  dl_item_name <$> drop_log db = items /\
  dl_item_name <$> select_drops db None =
    ["d01"; "d02"; "d03"; "d04"; "d05"; "d06"; "d07"; "d08"; "d09"; "d10"] /\
  exists e,
    view_drops db None = Embed e /\
    f_name <$> e_fields e =
      ["d01"; "d02"; "d03"; "d04"; "d05"; "d06"; "d07"; "d08"; "d09"; "d10"].
Proof.
  intros zezima caller items cmds db.
  split; [vm_compute; reflexivity|]. split; [vm_compute; reflexivity|].
  split; [vm_compute; reflexivity|].
  eexists. split; vm_compute; reflexivity.
Qed.

(** C9 (amended): whatever the store holds, listing drops takes the
    recorded drops that pass the filter: all of them when no name or an
    empty name is given, and with a non-empty name those whose account name
    equals it once both are lower-cased, in the order they were recorded.
    It returns min(number of these, 10) rows: the first ten of these drops
    put in descending timestamp order, drops with the same timestamp staying
    in the order they were recorded, the oldest first; so no listed row has
    a smaller timestamp than a row left out, and among drops of the same
    second the ones left out are the newest.  The reply shows the rows in
    that order.  Every command leaves the rows of the drop log in place:
    only an accepted drop command changes the log, by appending one row.
    So after a run of commands from the empty store that recorded N drops,
    the unfiltered listing returns min(N, 10) rows. *)
Theorem drops_listing (py_strip : string -> string)
    (py_int : string -> option Z) (py_lower : string -> string) :
  (forall (db : database),
     drops_matching db None = drop_log db /\
     (forall n r,
        In r (drops_matching db (Some n)) <->
        In r (drop_log db) /\ Sqlite.lower (dl_rsn r) = Sqlite.lower n) /\
     (forall name, sublist (drops_matching db name) (drop_log db))) /\
  (forall (db : database) (name : option string),
     let matching := drops_matching db name in
     let sorted := Sqlite.order_by_desc dl_timestamp matching in
     let rows := select_drops db name in
     rows = take 10 sorted /\
     length rows = Nat.min 10 (length matching) /\
     Permutation sorted matching /\
     StronglySorted (fun r s => (dl_timestamp s <=? dl_timestamp r)%string = true) sorted /\
     (forall t, filter (fun r => dl_timestamp r = t) sorted
                = filter (fun r => dl_timestamp r = t) matching) /\
     (forall r s, In r rows -> In s (drop 10 sorted) ->
        (dl_timestamp s <=? dl_timestamp r)%string = true)) /\
  (forall (db : database) (rsn : option string),
     view_drops db rsn =
       match select_drops db (match rsn with
                              | Some (String a s) => Some (String a s)
                              | _ => None
                              end) with
       | [] => Message "No drops logged yet!" true
       | rows =>
           Embed {| e_title := "📜 Recent Drops"; e_description := None;
                    e_fields :=
                      (fun d => {| f_name := dl_item_name d;
                                   f_value := "**" +:+ dl_rsn d +:+ "** - " +:+
                                              PyStr.slice_to 10 (dl_timestamp d);
                                   f_inline := true |}) <$> rows;
                    e_footer := None |}
       end) /\
  (forall (i : interaction) (c : command) (db : database),
     drop_log (fst (run py_strip py_int py_lower i c db)) = drop_log db \/
     exists item rsn selected,
       c = Drop item rsn /\
       drop_log (fst (run py_strip py_int py_lower i c db)) =
         (drop_log db ++ [{| dl_discord_id := user_id i; dl_rsn := selected;
                             dl_item_name := item; dl_timestamp := now i |}])%list) /\
  (forall (cmds : list (interaction * command)),
     let db := run_all py_strip py_int py_lower cmds empty_db in
     let N := count_recorded py_strip py_int py_lower cmds empty_db in
     length (drop_log db) = N /\
     length (select_drops db None) = Nat.min N 10).
Proof.
  split; [|split; [|split; [|split]]].
  - intros db. split; [reflexivity|]. split; [|apply drops_matching_sublist].
    intros n r. simpl. rewrite List.filter_In, String.eqb_eq. reflexivity.
  - intros db flt matching sorted rows.
    destruct (select_drops_facts db flt) as (Hlen & _ & _).
    split; [reflexivity|]. split; [exact Hlen|].
    split; [apply order_by_desc_perm|].
    split; [apply order_by_desc_sorted|].
    split; [intros t; apply order_by_desc_stable|].
    pose proof (order_by_desc_sorted dl_timestamp matching) as Hsorted.
    fold sorted in Hsorted. rewrite <- (take_drop 10 sorted) in Hsorted.
    apply StronglySorted_app_inv in Hsorted as [_ Hcut]. exact Hcut.
  - intros db rsn. rewrite view_drops_reply.
    destruct rsn as [[|a s]|]; reflexivity.
  - apply run_drop_log.
  - intros cmds db N.
    destruct (run_all_recorded py_strip py_int py_lower cmds empty_db) as [Hlen _].
    simpl in Hlen. fold db N in Hlen.
    split; [exact Hlen|].
    destruct (select_drops_facts db None) as (Hl & _).
    change (drops_matching db None) with (drop_log db) in Hl.
    rewrite Hl, Hlen. apply Nat.min_comm.
Qed.

Lemma drops_listing_witness :
  let profile_of n := {| name := Some n; totalxp := Some 5;
                         totalskill := None; combatlevel := None;
                         questscomplete := None; questsstarted := None;
                         questsnotstarted := None; activities := None;
                         error := None |} in
  let w := {| get_json := fun url =>
                if String.eqb url (RUNEMETRICS_URL "alice")
                then Reply 200 (Some (profile_of "Alice"))
                else Reply 200 (Some (profile_of "Zezima"));
              get_text := fun _ => Failed |} in
  let caller := {| user_id := 7; display_name := "bob"; net := w;
                   now := "2024-01-01 10:00:00" |} in
  let later := {| user_id := 7; display_name := "bob"; net := w;
                  now := "2024-01-02 09:30:00" |} in
  let cmds := [(caller, Link "zezima"); (caller, Link "alice");
               (caller, Drop "Abyssal whip" None);
               (later, Drop "Dragon pickaxe" (Some "ZEZIMA")); (later, Drop "Coal" (Some "x"));
               (later, Drop "Rune bar" (Some "alice"))] in
  let db := run_all AsciiText.strip AsciiText.int Sqlite.lower cmds empty_db in
  length (select_drops db None) = 3%nat /\
  dl_item_name <$> select_drops db None = ["Dragon pickaxe"; "Rune bar"; "Abyssal whip"] /\
  dl_item_name <$> select_drops db (Some "ZeZiMa") = ["Dragon pickaxe"] /\
  exists e,
    view_drops db (Some "ALICE") = Embed e /\
    f_name <$> e_fields e = ["Rune bar"; "Abyssal whip"] /\
    f_value <$> e_fields e = ["**alice** - 2024-01-02"; "**Alice** - 2024-01-01"].
Proof.
  intros profile_of w caller later cmds db.
  destruct (drops_listing AsciiText.strip AsciiText.int Sqlite.lower)
    as (_ & Hrows & Hview & _ & Hcount).
  destruct (Hcount cmds) as [_ Hlen].
  destruct (Hrows db (Some "ZeZiMa")) as (Htake & _).
  split; [etransitivity; [exact Hlen | vm_compute; reflexivity]|].
  split; [vm_compute; reflexivity|].
  split; [etransitivity; [exact (f_equal (fmap dl_item_name) Htake) | vm_compute; reflexivity]|].
  eexists. split; [etransitivity; [exact (Hview db (Some "ALICE")) | vm_compute; reflexivity]|].
  split; vm_compute; reflexivity.
Defined.

(** ** Drop logging *)

Lemma existsb_lower_match (py_lower : string -> string) (typed : string)
    (accounts : list string) :
  existsb (fun a => String.eqb (py_lower a) (py_lower typed)) accounts = true <->
  exists a, In a accounts /\ py_lower a = py_lower typed.
Proof.
  rewrite existsb_exists. split; intros (a & Ha & E); exists a; split; trivial;
    apply String.eqb_eq; exact E.
Qed.

(** The announcement of a recorded drop. *)
Lemma log_drop_cases_aux (py_lower : string -> string) (now : string) (db : database)
    (u : Z) (display item : string) (rsn : option string) (first : string)
    (rest : list string) :
  select_rsn db u = first :: rest ->
  log_drop py_lower now db u display item rsn =
    match rsn with
    | Some (String c s) =>
        if existsb (fun a => String.eqb (py_lower a) (py_lower (String c s))) (first :: rest)
        then (insert_drop db u (String c s) item now,
              Embed {| e_title := "🎉 Rare Drop!";
                       e_description :=
                         Some ("**" +:+ String c s +:+ "** received **" +:+ item +:+ "**!");
                       e_fields := [];
                       e_footer := Some ("Logged by " +:+ display) |})
        else (db, Message ("**" +:+ String c s +:+ "** is not linked to your account.") true)
    | _ =>
        (insert_drop db u first item now,
         Embed {| e_title := "🎉 Rare Drop!";
                  e_description :=
                    Some ("**" +:+ first +:+ "** received **" +:+ item +:+ "**!");
                  e_fields := [];
                  e_footer := Some ("Logged by " +:+ display) |})
    end.
Proof.
  intros H. unfold log_drop. rewrite H.
  destruct rsn as [[|c s]|]; try reflexivity.
  destruct (existsb _ _); reflexivity.
Qed.

(** C10, as stated, fails when the account linked first is not the
    one with the smallest name: the caller links Zezima and then Alice, and
    a drop logged without an RSN argument is recorded against Alice.  The
    rows of a caller come from the index of [UNIQUE(discord_id, rsn)], by
    ascending name, and [accounts[0]] is the first of them. *)
Lemma log_drop_not_first_linked :
  let profile_of n := {| name := Some n; totalxp := Some 5;
                         totalskill := None; combatlevel := None;
                         questscomplete := None; questsstarted := None;
                         questsnotstarted := None; activities := None;
                         error := None |} in
  let w := {| get_json := fun url =>
                if String.eqb url (RUNEMETRICS_URL "Zezima")
                then Reply 200 (Some (profile_of "Zezima"))
                else Reply 200 (Some (profile_of "Alice"));
              get_text := fun _ => Failed |} in
  let db1 := fst (link_account w "2024-01-01 10:00:00" empty_db 7 "Zezima") in
  let db2 := fst (link_account w "2024-01-01 10:05:00" db1 7 "Alice") in
  la_rsn <$> linked_accounts db1 = ["Zezima"] /\
  la_rsn <$> linked_accounts db2 = ["Zezima"; "Alice"] /\
  drop_log (fst (log_drop Sqlite.lower "2024-01-02 09:30:00" db2 7 "bob" "Abyssal whip" None))
  = [{| dl_discord_id := 7; dl_rsn := "Alice"; dl_item_name := "Abyssal whip";
        dl_timestamp := "2024-01-02 09:30:00" |}].
Proof. repeat split; vm_compute; reflexivity. Qed.

(** It also fails for an RSN argument that is given but empty: the
    argument is not matched against the caller's linked accounts and the
    request is not rejected; the drop is recorded as if no argument had
    been given. *)
Lemma log_drop_empty_rsn_recorded :
  let db := {| linked_accounts :=
                 [{| la_discord_id := 7; la_rsn := "Bob";
                     la_linked_at := "2024-01-01 10:00:00" |}];
               drop_log := [] |} in
  select_rsn db 7 = ["Bob"] /\
  existsb (fun a => String.eqb (Sqlite.lower a) (Sqlite.lower "")) (select_rsn db 7) = false /\
  drop_log (fst (log_drop Sqlite.lower "2024-01-02 09:30:00" db 7 "bob" "Abyssal whip" (Some "")))
  = [{| dl_discord_id := 7; dl_rsn := "Bob"; dl_item_name := "Abyssal whip";
        dl_timestamp := "2024-01-02 09:30:00" |}].
Proof. repeat split; vm_compute; reflexivity. Qed.

Lemma select_rsn_In_rows db u n :
  In n (select_rsn db u) <-> exists r, In r (rows_of db u) /\ la_rsn r = n.
Proof.
  rewrite select_rsn_In. unfold rows_of. split.
  - intros (r & Hr & Hu & Hn). exists r. split; [|exact Hn].
    apply filter_In. split; [exact Hr | apply Z.eqb_eq, Hu].
  - intros (r & Hr & Hn). apply filter_In in Hr as [Hr Hu]. apply Z.eqb_eq in Hu.
    exists r. auto.
Qed.

(** C10 (amended): for every log-drop invocation, with the rows of
    the caller those of [linked_accounts] that carry the caller's id: if
    there is none the request is rejected and no drop row is inserted; if a
    non-empty RSN argument is given it must match the name of one of these
    rows once both are lower-cased, or the request is rejected with no row
    inserted, and on a match the drop is recorded under the name as typed;
    if no RSN argument, or an empty one, is given the drop is recorded
    against the smallest of the caller's linked names, compared as byte
    strings, which need not be the account linked first. *)
Theorem log_drop_cases (py_lower : string -> string) (now : string) (db : database)
    (u : Z) (display item : string) (rsn : option string) :
  (rows_of db u = [] ->
   log_drop py_lower now db u display item rsn =
     (db, Message "You need to link an account first with `/link`." true)) /\
  (forall typed, rsn = Some typed -> typed <> "" -> rows_of db u <> [] ->
     ((forall r, In r (rows_of db u) -> py_lower (la_rsn r) <> py_lower typed) ->
      log_drop py_lower now db u display item rsn =
        (db, Message ("**" +:+ typed +:+ "** is not linked to your account.") true)) /\
     ((exists r, In r (rows_of db u) /\ py_lower (la_rsn r) = py_lower typed) ->
      log_drop py_lower now db u display item rsn =
        ({| linked_accounts := linked_accounts db;
            drop_log := drop_log db ++
                        [{| dl_discord_id := u; dl_rsn := typed;
                            dl_item_name := item; dl_timestamp := now |}] |},
         Embed {| e_title := "🎉 Rare Drop!";
                  e_description :=
                    Some ("**" +:+ typed +:+ "** received **" +:+ item +:+ "**!");
                  e_fields := [];
                  e_footer := Some ("Logged by " +:+ display) |}))) /\
  (rsn = None \/ rsn = Some "" -> rows_of db u <> [] ->
   exists first,
     (exists r, In r (rows_of db u) /\ la_rsn r = first) /\
     (forall r, In r (rows_of db u) -> String.ltb (la_rsn r) first = false) /\
     log_drop py_lower now db u display item rsn =
       ({| linked_accounts := linked_accounts db;
           drop_log := drop_log db ++
                       [{| dl_discord_id := u; dl_rsn := first;
                           dl_item_name := item; dl_timestamp := now |}] |},
        Embed {| e_title := "🎉 Rare Drop!";
                 e_description :=
                   Some ("**" +:+ first +:+ "** received **" +:+ item +:+ "**!");
                 e_fields := [];
                 e_footer := Some ("Logged by " +:+ display) |})).
Proof.
  split; [|split].
  - intros H. apply select_rsn_nil_rows in H. unfold log_drop. rewrite H. reflexivity.
  - intros typed -> Hne Hrows.
    destruct (select_rsn db u) as [|first rest] eqn:Hsel;
      [apply select_rsn_nil_rows in Hsel; contradiction|].
    pose proof (log_drop_cases_aux py_lower now db u display item (Some typed)
                  first rest Hsel) as E.
    destruct typed as [|c s]; [contradiction|].
    pose proof (existsb_lower_match py_lower (String c s) (first :: rest)) as Hex.
    destruct (existsb _ (first :: rest)); rewrite E; split.
    + intros Hall. destruct (proj1 Hex eq_refl) as (a & Ha & Heq).
      rewrite <- Hsel in Ha.
      apply (proj1 (select_rsn_In_rows db u a)) in Ha as (r & Hr & <-).
      destruct (Hall r Hr Heq).
    + intros _. reflexivity.
    + intros _. reflexivity.
    + intros (r & Hr & Heq).
      assert (Hsome : exists a, In a (first :: rest) /\ py_lower a = py_lower (String c s)).
      { exists (la_rsn r). split; [|exact Heq].
        rewrite <- Hsel. apply select_rsn_In_rows. eauto. }
      apply Hex in Hsome. discriminate.
  - intros Hrsn Hrows.
    destruct (select_rsn db u) as [|first rest] eqn:Hsel;
      [apply select_rsn_nil_rows in Hsel; contradiction|].
    exists first. split; [|split].
    + apply select_rsn_In_rows. rewrite Hsel. left. reflexivity.
    + intros r Hr. apply (select_rsn_head db u first rest Hsel).
      apply select_rsn_In_rows. eauto.
    + rewrite (log_drop_cases_aux py_lower now db u display item rsn first rest Hsel).
      destruct Hrsn as [-> | ->]; reflexivity.
Qed.

Lemma log_drop_cases_witness :
  let db := {| linked_accounts :=
                 [{| la_discord_id := 7; la_rsn := "Zezima";
                     la_linked_at := "2024-01-01 10:00:00" |};
                  {| la_discord_id := 7; la_rsn := "Alice";
                     la_linked_at := "2024-01-01 10:05:00" |}];
               drop_log := [] |} in
  log_drop Sqlite.lower "2024-01-02 09:30:00" db 7 "bob" "Abyssal whip" (Some "durial")
  = (db, Message "**durial** is not linked to your account." true) /\
  exists first,
    (forall r, In r (rows_of db 7) -> String.ltb (la_rsn r) first = false) /\
    drop_log (fst (log_drop Sqlite.lower "2024-01-02 09:30:00" db 7 "bob" "Abyssal whip" None))
    = [{| dl_discord_id := 7; dl_rsn := first; dl_item_name := "Abyssal whip";
          dl_timestamp := "2024-01-02 09:30:00" |}].
Proof.
  intros db. split.
  - destruct (log_drop_cases Sqlite.lower "2024-01-02 09:30:00" db 7 "bob" "Abyssal whip"
                (Some "durial")) as (_ & Hgiven & _).
    destruct (Hgiven "durial" ltac:(reflexivity) ltac:(discriminate)
                ltac:(vm_compute; discriminate)) as [Hreject _].
    apply Hreject. intros r [<- | [<- | []]]; vm_compute; discriminate.
  - destruct (log_drop_cases Sqlite.lower "2024-01-02 09:30:00" db 7 "bob" "Abyssal whip"
                None) as (_ & _ & Hnone).
    destruct (Hnone ltac:(left; reflexivity) ltac:(vm_compute; discriminate))
      as (first & _ & Hmin & Hlog).
    exists first. split; [exact Hmin|]. rewrite Hlog. reflexivity.
Defined.

(** * Further properties

    ** Text helpers *)

Lemma escape_spaces_no_space s :
  count_char " " (PyStr.escape_spaces s) = 0%nat.
Proof.
  induction s as [|a s IH]; [reflexivity|]. simpl.
  destruct (Ascii.eqb a " ") eqn:E; simpl; [exact IH|]. rewrite E. exact IH.
Qed.

Lemma escape_spaces_clean s :
  count_char " " s = 0%nat -> PyStr.escape_spaces s = s.
Proof.
  induction s as [|a s IH]; [reflexivity|]. simpl.
  destruct (Ascii.eqb a " "); [discriminate|]. intros H. rewrite (IH H). reflexivity.
Qed.

(** X1: the name put into a request URL holds no space; a name without
    a space goes in unchanged; escaping twice is escaping once; and both
    fetch functions give the same answer for a name and for the same name
    with its spaces already written as "%20". *)
Theorem escape_spaces_facts (w : web) (py_strip : string -> string)
    (py_int : string -> option Z) (rsn : string) :
  count_char " " (PyStr.escape_spaces rsn) = 0%nat /\
  (count_char " " rsn = 0%nat -> PyStr.escape_spaces rsn = rsn) /\
  PyStr.escape_spaces (PyStr.escape_spaces rsn) = PyStr.escape_spaces rsn /\
  fetch_runemetrics w (PyStr.escape_spaces rsn) = fetch_runemetrics w rsn /\
  fetch_hiscores py_strip py_int w (PyStr.escape_spaces rsn)
    = fetch_hiscores py_strip py_int w rsn.
Proof.
  pose proof (escape_spaces_clean _ (escape_spaces_no_space rsn)) as Hidem.
  split; [apply escape_spaces_no_space|].
  split; [apply escape_spaces_clean|].
  split; [exact Hidem|].
  unfold fetch_runemetrics, fetch_hiscores. rewrite Hidem. split; reflexivity.
Qed.

Lemma split_on_cons sep s : exists p ps, PyStr.split_on sep s = p :: ps.
Proof.
  induction s as [|a s (p & ps & IH)]; simpl; [eauto|].
  destruct (Ascii.eqb a sep); [eauto|]. rewrite IH. eauto.
Qed.

Lemma concat_cons sep (p : string) (ps : list string) :
  ps <> [] -> String.concat sep (p :: ps) = p +:+ sep +:+ String.concat sep ps.
Proof. destruct ps; [contradiction | reflexivity]. Qed.

Lemma split_on_join sep s :
  String.concat (String sep "") (PyStr.split_on sep s) = s.
Proof.
  induction s as [|a s IH]; [reflexivity|]. cbn [PyStr.split_on].
  destruct (split_on_cons sep s) as (p & ps & E). rewrite E in IH |- *.
  destruct (Ascii.eqb_spec a sep) as [->|Hne].
  - rewrite concat_cons by discriminate. rewrite IH. reflexivity.
  - destruct ps as [|q qs].
    + simpl in IH |- *. rewrite IH. reflexivity.
    + rewrite concat_cons in IH |- * by discriminate.
      change (String a p +:+ String sep "" +:+ String.concat (String sep "") (q :: qs))
        with (String a (p +:+ String sep "" +:+ String.concat (String sep "") (q :: qs))).
      rewrite IH. reflexivity.
Qed.

Lemma split_on_length sep s :
  length (PyStr.split_on sep s) = S (count_char sep s).
Proof.
  induction s as [|a s IH]; [reflexivity|]. simpl.
  destruct (split_on_cons sep s) as (p & ps & E). rewrite E in IH |- *.
  destruct (Ascii.eqb a sep); simpl in *; lia.
Qed.

Lemma split_on_parts sep s :
  Forall (fun p => count_char sep p = 0%nat) (PyStr.split_on sep s).
Proof.
  induction s as [|a s IH]; [repeat constructor|]. simpl.
  destruct (split_on_cons sep s) as (p & ps & E). rewrite E in IH |- *.
  destruct (Ascii.eqb a sep) eqn:Ea; [constructor; [reflexivity | exact IH]|].
  inversion IH as [|? ? Hp Hps]; subst. constructor; [|exact Hps].
  simpl. rewrite Ea. exact Hp.
Qed.

(** X2: splitting a text on a one-character separator loses nothing:
    joining the parts with the separator gives the text back, there is one
    part more than the text has separators, and no part holds the
    separator.  This is what [text.strip().split("\n")] and
    [line.split(",")] in [fetch_hiscores] rely on. *)
Theorem split_on_round_trip (sep : ascii) (s : string) :
  String.concat (String sep "") (PyStr.split_on sep s) = s /\
  length (PyStr.split_on sep s) = S (count_char sep s) /\
  Forall (fun p => count_char sep p = 0%nat) (PyStr.split_on sep s).
Proof.
  split; [apply split_on_join|]. split; [apply split_on_length | apply split_on_parts].
Qed.

Lemma slice_to_bound n s : (code_points (PyStr.slice_to n s) <= n)%nat.
Proof.
  revert n. induction s as [|a s IH]; intros n; simpl; [lia|].
  destruct (PyStr.is_continuation a) eqn:E; simpl; [rewrite E; apply IH|].
  destruct n as [|n]; simpl; [lia|]. rewrite E. specialize (IH n). lia.
Qed.

Lemma slice_to_prefix n s : exists rest, s = PyStr.slice_to n s +:+ rest.
Proof.
  revert n. induction s as [|a s IH]; intros n; [exists ""; reflexivity|].
  cbn [PyStr.slice_to]. destruct (PyStr.is_continuation a).
  - destruct (IH n) as [rest Hr]. exists rest.
    change (String a s = String a (PyStr.slice_to n s +:+ rest)). f_equal. exact Hr.
  - destruct n as [|n]; [exists (String a s); reflexivity|].
    destruct (IH n) as [rest Hr]. exists rest.
    change (String a s = String a (PyStr.slice_to n s +:+ rest)). f_equal. exact Hr.
Qed.

Lemma slice_to_short n s : (code_points s <= n)%nat -> PyStr.slice_to n s = s.
Proof.
  revert n. induction s as [|a s IH]; intros n; simpl; [reflexivity|].
  destruct (PyStr.is_continuation a); intros H.
  - rewrite (IH n H). reflexivity.
  - destruct n as [|n]; [lia|]. rewrite (IH n) by lia. reflexivity.
Qed.

(** ** Stats: layout of the report *)

(** The fields of a report built from a profile, in order. *)
Lemma stats_report_layout rsn p hiscores e :
  profile_truthy p = true ->
  stats_report rsn (Some p) hiscores = Ok (Embed e) ->
  exists xp_text,
    format_number (default 0 (totalxp p)) = Ok xp_text /\
    e_title e = "📊 Stats for " +:+ default rsn (name p) /\
    e_fields e =
      ([{| f_name := "Total XP"; f_value := xp_text; f_inline := true |};
        {| f_name := "Total Level"; f_value := pretty (default 0 (totalskill p));
           f_inline := true |};
        {| f_name := "Combat Level"; f_value := pretty (default 0 (combatlevel p));
           f_inline := true |}] ++
       (if default 0 (questscomplete p) =? 0 then []
        else [{| f_name := "Quests";
                 f_value := pretty (default 0 (questscomplete p)) +:+ "/" +:+
                            pretty (default 0 (questsstarted p)
                                    + default 0 (questscomplete p)
                                    + default 0 (questsnotstarted p));
                 f_inline := true |}]) ++
       match default [] (activities p) with
       | recent :: _ =>
           [{| f_name := "Recent Activity";
               f_value := PyStr.slice_to 100 (default "Unknown" (text recent));
               f_inline := false |}]
       | [] => []
       end ++
       match hiscores with
       | Some t =>
           match combat_entries t with
           | [] => []
           | entries => [{| f_name := "Combat Stats";
                            f_value := String.concat " | " entries;
                            f_inline := false |}]
           end
       | None => []
       end)%list.
Proof.
  intros Hp H. unfold stats_report in H. simpl in H. rewrite Hp in H. simpl in H.
  destruct (profile_fields (new_embed ("📊 Stats for " +:+ default rsn (name p))) p)
    as [e1|] eqn:E1; [|discriminate].
  simpl in H. injection H as <-.
  destruct (profile_fields_names _ _ _ E1) as (xp_text & Hxp & Ht & Hf).
  exists xp_text. split; [exact Hxp|].
  destruct hiscores as [t|].
  - destruct (bool_decide (t = ∅)) eqn:Et.
    + apply bool_decide_eq_true in Et. subst t.
      split; [exact Ht|]. rewrite Hf. simpl. rewrite !app_nil_r. reflexivity.
    + destruct (hiscores_fields_joined e1 t) as [Ht' Hf'].
      split; [rewrite Ht'; exact Ht|]. rewrite Hf', Hf. simpl.
      rewrite <- !app_assoc. reflexivity.
  - split; [exact Ht|]. rewrite Hf. simpl. rewrite !app_nil_r. reflexivity.
Qed.

(** X3: in the report for a found profile, the field named
    "Recent Activity" holds at most 100 characters (code points); it is a
    beginning of the text of the first activity of the profile ("Unknown"
    when that activity has no text), and the whole of it when that text has
    no more than 100 characters. *)
Theorem recent_activity_truncated (rsn : string) (p : profile)
    (hiscores : option (gmap string skill_entry)) (e : embed) (f : field) :
  profile_truthy p = true ->
  stats_report rsn (Some p) hiscores = Ok (Embed e) ->
  In f (e_fields e) ->
  f_name f = "Recent Activity" ->
  (code_points (f_value f) <= 100)%nat /\
  exists recent others rest,
    activities p = Some (recent :: others) /\
    default "Unknown" (text recent) = f_value f +:+ rest /\
    ((code_points (default "Unknown" (text recent)) <= 100)%nat -> rest = "").
Proof.
  intros Hp H Hin Hname.
  destruct (stats_report_layout rsn p hiscores e Hp H) as (xp_text & _ & _ & Hf).
  rewrite Hf in Hin. clear Hf.
  apply in_app_or in Hin as [Hin | Hin].
  { simpl in Hin. destruct Hin as [<- | [<- | [<- | []]]]; discriminate. }
  apply in_app_or in Hin as [Hin | Hin].
  { destruct (default 0 (questscomplete p) =? 0); [destruct Hin|].
    destruct Hin as [<- | []]. discriminate. }
  apply in_app_or in Hin as [Hin | Hin].
  - destruct (activities p) as [[|recent others]|] eqn:Ea; simpl in Hin;
      [destruct Hin | | destruct Hin].
    destruct Hin as [<- | []]. simpl. split; [apply slice_to_bound|].
    destruct (slice_to_prefix 100 (default "Unknown" (text recent))) as [rest Hr].
    exists recent, others, rest. split; [reflexivity|]. split; [exact Hr|].
    intros Hshort. rewrite (slice_to_short _ _ Hshort) in Hr.
    clear -Hr. revert Hr. generalize (default "Unknown" (text recent)). intros s.
    induction s as [|a s IH]; simpl; intros Hr; [symmetry; exact Hr|].
    injection Hr as Hr. auto.
  - destruct hiscores as [t|]; [|destruct Hin].
    destruct (combat_entries t); [destruct Hin|].
    destruct Hin as [<- | []]. discriminate.
Qed.

Lemma recent_activity_truncated_witness :
  let long_text :=
    "I killed 25 boss monsters called: Araxxi, Telos, Nex, Vorago, Kerapac and Zamorak, all in the lost grove." in
  let p := {| name := Some "Zezima"; totalxp := Some 5;
              totalskill := None; combatlevel := None;
              questscomplete := None; questsstarted := None;
              questsnotstarted := None;
              activities := Some [{| text := Some long_text |}];
              error := None |} in
  let f := {| f_name := "Recent Activity";
              f_value := PyStr.slice_to 100 long_text;
              f_inline := false |} in
  code_points long_text = 105%nat /\
  (code_points (f_value f) <= 100)%nat /\
  exists recent others rest,
    activities p = Some (recent :: others) /\
    default "Unknown" (text recent) = f_value f +:+ rest /\
    ((code_points (default "Unknown" (text recent)) <= 100)%nat -> rest = "").
Proof.
  intros long_text p f. split; [vm_compute; reflexivity|].
  eapply (recent_activity_truncated "zezima" p None _ f).
  - vm_compute. reflexivity.
  - lazy. reflexivity.
  - simpl. right. right. right. left. reflexivity.
  - reflexivity.
Defined.

(** X4: the report for a found profile is titled with the name of the
    profile (the requested name when the profile has none); no two of its
    fields share a name; the first three fields are "Total XP",
    "Total Level" and "Combat Level"; and the field names are, in this order
    and with some possibly missing, "Total XP", "Total Level",
    "Combat Level", "Quests", "Recent Activity", "Combat Stats". *)
Theorem stats_report_field_names (rsn : string) (p : profile)
    (hiscores : option (gmap string skill_entry)) (e : embed) :
  profile_truthy p = true ->
  stats_report rsn (Some p) hiscores = Ok (Embed e) ->
  e_title e = "📊 Stats for " +:+ default rsn (name p) /\
  NoDup (f_name <$> e_fields e) /\
  take 3 (f_name <$> e_fields e) = ["Total XP"; "Total Level"; "Combat Level"] /\
  sublist (f_name <$> e_fields e)
    ["Total XP"; "Total Level"; "Combat Level"; "Quests"; "Recent Activity"; "Combat Stats"].
Proof.
  intros Hp H.
  destruct (stats_report_layout rsn p hiscores e Hp H) as (xp_text & _ & Ht & Hf).
  split; [exact Ht|]. rewrite Hf. clear.
  destruct (default 0 (questscomplete p) =? 0);
    destruct (default [] (activities p));
    (destruct hiscores as [t|]; [destruct (combat_entries t)|]); simpl;
    (split; [apply (bool_decide_unpack _); vm_compute; reflexivity|]);
    (split; [reflexivity|]);
    repeat first [apply sublist_nil_l | apply sublist_skip | apply sublist_cons].
Qed.

Lemma stats_report_field_names_witness :
  let p := {| name := Some "Zezima"; totalxp := Some 5;
              totalskill := Some 2898; combatlevel := Some 152;
              questscomplete := Some 3; questsstarted := None;
              questsnotstarted := None;
              activities := Some [{| text := Some "Quest complete: Cook's Assistant" |}];
              error := None |} in
  exists e,
    stats_report "zezima" (Some p) None = Ok (Embed e) /\
    e_title e = "📊 Stats for Zezima" /\
    NoDup (f_name <$> e_fields e) /\
    take 3 (f_name <$> e_fields e) = ["Total XP"; "Total Level"; "Combat Level"].
Proof.
  intros p. eexists. split; [lazy; reflexivity|].
  destruct (stats_report_field_names "zezima" p None _
              ltac:(vm_compute; reflexivity) ltac:(lazy; reflexivity))
    as (H1 & H2 & H3 & _).
  split; [exact H1|]. split; [exact H2 | exact H3].
Defined.

(** X5: which name the stats command looks up.  Without a name (absent
    or empty) and without a linked account the caller is asked to provide
    one; without a name and with linked accounts the report is the one for a
    linked name of the caller, so with exactly one linked account typing
    that name or leaving it out give the same answer; and with a non-empty
    name the answer depends neither on the store nor on the caller. *)
Theorem stats_lookup_resolution (py_strip : string -> string)
    (py_int : string -> option Z) (w : web) (db : database) (u : Z) :
  (forall rsn, PyStr.truthy rsn = false -> select_rsn db u = [] ->
     stats_lookup py_strip py_int w db u rsn =
       Ok (Message "Please provide an RSN or link an account with `/link`." true)) /\
  (forall rsn, PyStr.truthy rsn = false -> select_rsn db u <> [] ->
     exists n,
       In n (select_rsn db u) /\
       stats_lookup py_strip py_int w db u rsn =
         stats_report n (fetch_runemetrics w n) (fetch_hiscores py_strip py_int w n)) /\
  (forall rsn n, PyStr.truthy rsn = false -> select_rsn db u = [n] ->
     stats_lookup py_strip py_int w db u rsn =
     stats_lookup py_strip py_int w db u (Some n)) /\
  (forall n db' u', n <> "" ->
     stats_lookup py_strip py_int w db u (Some n) =
     stats_lookup py_strip py_int w db' u' (Some n)).
Proof.
  unfold stats_lookup. repeat split.
  - intros rsn Hr Hn. rewrite Hn. destruct rsn as [[|a s]|]; try discriminate; reflexivity.
  - intros rsn Hr Hn. destruct (select_rsn db u) as [|first rest]; [contradiction|].
    exists first. split; [left; reflexivity|].
    destruct rsn as [[|a s]|]; try discriminate; reflexivity.
  - intros rsn n Hr Hn. rewrite Hn.
    destruct rsn as [[|a s]|]; try discriminate; destruct n; reflexivity.
  - intros n db' u' Hne. destruct n; [contradiction | reflexivity].
Qed.

(** ** Skill table: when it is empty *)

Section EmptyTable.

Variable py_strip : string -> string.
Variable py_int : string -> option Z.

Lemma parse_lines_all_short i lines skills :
  Forall (fun line => (length (PyStr.split_on ","%char line) < 3)%nat) lines ->
  parse_lines py_int i lines skills = Some skills.
Proof.
  intros H. revert i. induction H as [|line lines Hline _ IH]; intros i; [reflexivity|].
  simpl. pose proof (parse_line_fields py_int line) as Hf.
  destruct (PyStr.split_on ","%char line) as [|f0 [|f1 [|f2 more]]];
    try (simpl in Hline; lia); rewrite Hf; simpl; apply IH.
Qed.

(** X6: the skill table of a response body is the empty table exactly
    when each of its first 30 lines has fewer than three comma-separated
    fields; and when the profile is absent such a body makes the stats
    command answer that the player could not be found. *)
Theorem parse_hiscores_empty (body : string) :
  let lines := PyStr.split_on (ascii_of_nat 10) (py_strip body) in
  (parse_hiscores py_strip py_int body = Some ∅ <->
   Forall (fun line => (length (PyStr.split_on ","%char line) < 3)%nat) (take 30 lines)) /\
  (parse_hiscores py_strip py_int body = Some ∅ ->
   forall rsn,
     stats_report rsn None (parse_hiscores py_strip py_int body) =
       Ok (Message ("❌ Could not find player **" +:+ rsn +:+ "**.") true)).
Proof.
  intros lines. split.
  - unfold parse_hiscores. fold lines. rewrite SKILLS_length. split.
    + intros H. apply Forall_lookup. intros i line Hl.
      assert (Hlen : (0 + length (take 30 lines) <= 30)%nat) by (rewrite length_take; lia).
      pose proof (lookup_lt_Some _ _ _ Hl) as Hi. rewrite length_take in Hi.
      destruct (lookup_lt_is_Some_2 SKILLS i) as [skill Hs]; [rewrite SKILLS_length; lia|].
      pose proof (parse_lines_lookup py_int 0 _ _ _ Hlen H i skill Hs) as Hlk.
      simpl in Hlk. rewrite Nat.sub_0_r, Hl in Hlk. simpl in Hlk.
      pose proof (parse_lines_some_inv py_int _ _ _ (mk_is_Some _ _ H)) as HF.
      rewrite Forall_lookup in HF. specialize (HF i line Hl).
      pose proof (line_entry_fields py_int line HF) as Hle.
      destruct (PyStr.split_on ","%char line) as [|f0 [|f1 [|f2 more]]];
        try (simpl; lia).
      destruct Hle as (r & l & x & _ & _ & _ & Hle). rewrite Hle in Hlk.
      rewrite lookup_empty in Hlk. discriminate.
    + apply parse_lines_all_short.
  - intros H rsn. rewrite H. reflexivity.
Qed.

End EmptyTable.

(** ** Comparison: outcomes and symmetry *)

Lemma true_div_raise a b e :
  b <> 0 -> PyFloat.true_div a b = Raise e -> e = OverflowError.
Proof.
  intros Hb. unfold PyFloat.true_div.
  destruct (Z.eqb_spec b 0); [contradiction|].
  destruct (PyFloat.nearest_double _ _) as [[m ex]|]; [discriminate|].
  intros [= <-]. reflexivity.
Qed.

(** The only exception [format_number] can raise is [OverflowError]. *)
Lemma format_number_raise n e : format_number n = Raise e -> e = OverflowError.
Proof.
  unfold format_number.
  destruct (1000000000 <=? n).
  { destruct (PyFloat.true_div n 1000000000) eqn:E; simpl; [discriminate|].
    intros [= <-]. eapply true_div_raise; [|exact E]. discriminate. }
  destruct (1000000 <=? n).
  { destruct (PyFloat.true_div n 1000000) eqn:E; simpl; [discriminate|].
    intros [= <-]. eapply true_div_raise; [|exact E]. discriminate. }
  destruct (1000 <=? n); [|discriminate].
  destruct (PyFloat.true_div n 1000) eqn:E; simpl; [discriminate|].
  intros [= <-]. eapply true_div_raise; [|exact E]. discriminate.
Qed.

(** X7: one line of the comparison is symmetric: with the two players
    exchanged, the two displays and the two markers are exchanged and
    nothing else changes; the two sides never both carry the trophy; and
    the only exception is [OverflowError], raised only when formatting the
    total experience. *)
Theorem compare_one_swap (data1 data2 : profile) (label key : string) :
  compare_one data2 data1 label key =
    match compare_one data1 data2 label key with
    | Ok c => Ok (swap_sides c)
    | Raise e => Raise e
    end /\
  (forall c, compare_one data1 data2 label key = Ok c ->
     ~ (c_marker1 c = trophy /\ c_marker2 c = trophy)) /\
  (forall e, compare_one data1 data2 label key = Raise e ->
     e = OverflowError /\ key = "totalxp").
Proof.
  unfold compare_one.
  set (v1 := default 0 (get_int data1 key)). set (v2 := default 0 (get_int data2 key)).
  assert (Hm : ~ ((if v2 <? v1 then trophy else "") = trophy /\
                  (if v1 <? v2 then trophy else "") = trophy)).
  { intros [H1 H2].
    destruct (Z.ltb_spec v2 v1), (Z.ltb_spec v1 v2); try discriminate; lia. }
  destruct (String.eqb_spec key "totalxp") as [->|Hk].
  - destruct (format_number v1) as [s1|e1] eqn:E1, (format_number v2) as [s2|e2] eqn:E2;
      simpl; (split; [|split]); try discriminate; try reflexivity.
    + intros c [= <-]. exact Hm.
    + intros e [= <-]. split; [apply (format_number_raise _ _ E2)|reflexivity].
    + intros e [= <-]. split; [apply (format_number_raise _ _ E1)|reflexivity].
    + rewrite (format_number_raise _ _ E1), (format_number_raise _ _ E2). reflexivity.
    + intros e [= <-]. split; [apply (format_number_raise _ _ E1)|reflexivity].
  - simpl. split; [reflexivity|]. split; [|discriminate].
    intros c [= <-]. exact Hm.
Qed.

Lemma index_name_some data n : name data = Some n -> index_name data = Ok n.
Proof. unfold index_name. intros ->. reflexivity. Qed.

(** X8: the outcomes of the compare command.  When one or both players
    are not found, the answer is an ephemeral message that lists exactly
    the names not found, the first before the second; when both are found
    and one profile has no name, [KeyError] on "name" is raised; when both
    have a name and total experience below the overflow bound, the answer
    is an embed titled with the two names of the profiles, with the four
    fields "Total XP", "Total Level", "Combat Level" and "Quests Complete"
    in this order. *)
Theorem compare_stats_outcomes (w : web) (rsn1 rsn2 : string) :
  let data1 := fetch_runemetrics w rsn1 in
  let data2 := fetch_runemetrics w rsn2 in
  (data_truthy data1 = false -> data_truthy data2 = true ->
   compare_stats w rsn1 rsn2 =
     Ok (Message ("❌ Could not find player(s): " +:+ rsn1) true)) /\
  (data_truthy data1 = true -> data_truthy data2 = false ->
   compare_stats w rsn1 rsn2 =
     Ok (Message ("❌ Could not find player(s): " +:+ rsn2) true)) /\
  (data_truthy data1 = false -> data_truthy data2 = false ->
   compare_stats w rsn1 rsn2 =
     Ok (Message ("❌ Could not find player(s): " +:+ rsn1 +:+ ", " +:+ rsn2) true)) /\
  (forall p1 p2,
     data1 = Some p1 -> data2 = Some p2 ->
     profile_truthy p1 = true -> profile_truthy p2 = true ->
     name p1 = None \/ name p2 = None ->
     compare_stats w rsn1 rsn2 = Raise (KeyError "name")) /\
  (forall p1 p2 n1 n2,
     data1 = Some p1 -> data2 = Some p2 ->
     name p1 = Some n1 -> name p2 = Some n2 ->
     default 0 (totalxp p1) < 1000000000 * (2 ^ 1024 - 2 ^ 970) ->
     default 0 (totalxp p2) < 1000000000 * (2 ^ 1024 - 2 ^ 970) ->
     exists e,
       compare_stats w rsn1 rsn2 = Ok (Embed e) /\
       e_title e = "⚔️ " +:+ n1 +:+ " vs " +:+ n2 /\
       f_name <$> e_fields e =
         ["Total XP"; "Total Level"; "Combat Level"; "Quests Complete"]).
Proof.
  intros data1 data2. unfold compare_stats. fold data1 data2.
  split; [|split; [|split; [|split]]].
  - intros H1 H2. unfold missing_players. rewrite H1, H2.
    destruct data1 as [p1|], data2 as [p2|]; simpl in *; try discriminate;
      try rewrite H1; try rewrite H2; reflexivity.
  - intros H1 H2. unfold missing_players. rewrite H1, H2.
    destruct data1 as [p1|], data2 as [p2|]; simpl in *; try discriminate;
      try rewrite H1; try rewrite H2; simpl; reflexivity.
  - intros H1 H2. unfold missing_players. rewrite H1, H2.
    destruct data1 as [p1|], data2 as [p2|]; simpl in *;
      try rewrite H1; try rewrite H2; reflexivity.
  - intros p1 p2 -> -> H1 H2 Hn. rewrite H1, H2. simpl.
    unfold index_name. destruct Hn as [-> | ->]; [reflexivity|].
    destruct (name p1); reflexivity.
  - intros p1 p2 n1 n2 -> -> Hn1 Hn2 Hx1 Hx2.
    assert (T1 : profile_truthy p1 = true) by (unfold profile_truthy; rewrite Hn1; reflexivity).
    assert (T2 : profile_truthy p2 = true) by (unfold profile_truthy; rewrite Hn2; reflexivity).
    rewrite T1, T2.
    rewrite (index_name_some _ _ Hn1), (index_name_some _ _ Hn2).
    destruct (compare_fields_ok p1 p2 comparisons
                (new_embed ("⚔️ " +:+ n1 +:+ " vs " +:+ n2)) Hx1 Hx2) as (cs & Hcs & Hcf).
    cbn [andb mbind res_bind]. rewrite Hcf.
    cbn [mbind res_bind]. eexists. split; [reflexivity|]. split; [reflexivity|]. simpl.
    assert (Hl : forall todo cs,
               Forall2 (fun lk c => compare_one p1 p2 (fst lk) (snd lk) = Ok c) todo cs ->
               f_name <$> (comparison_field <$> cs) = fst <$> todo).
    { clear. intros todo cs H. induction H as [|[label key] c todo cs Hc _ IH]; [reflexivity|].
      simpl in *. f_equal; [|exact IH].
      unfold compare_one in Hc.
      destruct (if String.eqb key "totalxp"
                then format_number (default 0 (get_int p1 key)) else _) in Hc;
        [|discriminate Hc].
      destruct (if String.eqb key "totalxp"
                then format_number (default 0 (get_int p2 key)) else _) in Hc;
        [|discriminate Hc].
      injection Hc as <-. reflexivity. }
    rewrite (Hl _ _ Hcs). reflexivity.
Qed.

(** ** The leaderboard command *)

Lemma existsb_eqb_In (s : string) (seen : list string) :
  existsb (String.eqb s) seen = true <-> In s seen.
Proof.
  rewrite existsb_exists. split.
  - intros (x & Hx & He). apply String.eqb_eq in He. subst. exact Hx.
  - intros H. exists s. split; [exact H | apply String.eqb_refl].
Qed.

Lemma distinct_In seen l s :
  In s (distinct seen l) <-> In s l /\ ~ In s seen.
Proof.
  revert seen. induction l as [|a l IH]; intros seen; simpl.
  - tauto.
  - destruct (existsb (String.eqb a) seen) eqn:E.
    + apply existsb_eqb_In in E. rewrite IH. split.
      * intros [H1 H2]. auto.
      * intros [[<- | H1] H2]; [contradiction | auto].
    + assert (Hn : ~ In a seen).
      { intros H. apply existsb_eqb_In in H. congruence. }
      simpl. rewrite IH. simpl. split.
      * intros [<- | [H1 H2]]; [auto|]. split; [auto|]. intros H. apply H2. auto.
      * intros [[<- | H1] H2]; [auto|].
        destruct (String.eqb_spec a s) as [->|Hne]; [auto|].
        right. split; [exact H1|]. intros [H|H]; [contradiction | contradiction].
Qed.

Lemma distinct_NoDup seen l : List.NoDup (distinct seen l).
Proof.
  revert seen. induction l as [|a l IH]; intros seen; simpl.
  - constructor.
  - destruct (existsb (String.eqb a) seen); [apply IH|].
    constructor; [|apply IH].
    rewrite distinct_In. simpl. intros [_ H]. apply H. auto.
Qed.

Lemma distinct_length seen l : (length (distinct seen l) <= length l)%nat.
Proof.
  revert seen. induction l as [|a l IH]; intros seen; simpl; [lia|].
  destruct (existsb (String.eqb a) seen); simpl.
  - specialize (IH seen). lia.
  - specialize (IH (a :: seen)). lia.
Qed.

Lemma fetch_players_length w accounts :
  (length (fetch_players w accounts) <= length accounts)%nat.
Proof.
  induction accounts as [|rsn rest IH]; simpl; [lia|].
  destruct (fetch_runemetrics w rsn) as [p|]; [|lia].
  destruct (profile_truthy p); simpl; lia.
Qed.

Lemma fetch_players_none w accounts :
  Forall (fun rsn => data_truthy (fetch_runemetrics w rsn) = false) accounts ->
  fetch_players w accounts = [].
Proof.
  induction 1 as [|rsn rest H _ IH]; simpl; [reflexivity|].
  destruct (fetch_runemetrics w rsn) as [p|]; [|exact IH].
  simpl in H. rewrite H. exact IH.
Qed.

(** Every player on the list comes from one account name whose profile
    was found; the name shown is the profile's, or the account name when
    the profile has none. *)
Lemma fetch_players_In w accounts pl :
  In pl (fetch_players w accounts) ->
  exists rsn p,
    In rsn accounts /\ fetch_runemetrics w rsn = Some p /\ profile_truthy p = true /\
    pl = {| p_name := default rsn (name p);
            p_xp := default 0 (totalxp p);
            p_level := default 0 (totalskill p) |}.
Proof.
  induction accounts as [|rsn rest IH]; simpl; [tauto|].
  destruct (fetch_runemetrics w rsn) as [p|] eqn:E.
  - destruct (profile_truthy p) eqn:T.
    + intros [<- | H].
      * exists rsn, p. auto.
      * destruct (IH H) as (r & q & ? & ? & ? & ?). exists r, q. auto.
    + intros H. destruct (IH H) as (r & q & ? & ? & ? & ?). exists r, q. auto.
  - intros H. destruct (IH H) as (r & q & ? & ? & ? & ?). exists r, q. auto.
Qed.

(** The names the leaderboard fetches are the names stored in some row. *)
Lemma select_distinct_rsn_In db s :
  In s (select_distinct_rsn db) <-> exists r, In r (linked_accounts db) /\ la_rsn r = s.
Proof.
  unfold select_distinct_rsn. rewrite distinct_In.
  change (la_rsn <$> unique_index (linked_accounts db))
    with (List.map la_rsn (unique_index (linked_accounts db))).
  rewrite in_map_iff. simpl. split.
  - intros [(r & Hr & Hi) _]. apply (proj1 (unique_index_In _ _)) in Hi. exists r. auto.
  - intros (r & Hi & Hr). apply (proj2 (unique_index_In _ _)) in Hi.
    split; [exists r; auto | tauto].
Qed.

(** X9: the names the leaderboard fetches: each name of the table of
    links once, however many callers linked it, and no other name; so there
    are no more names than links, no more players on the board than names,
    and each player on the board comes from a stored link whose profile was
    found, with the experience and level of that profile. *)
Theorem select_distinct_rsn_facts (db : database) :
  List.NoDup (select_distinct_rsn db) /\
  (forall s, In s (select_distinct_rsn db) <->
             exists r, In r (linked_accounts db) /\ la_rsn r = s) /\
  (length (select_distinct_rsn db) <= length (linked_accounts db))%nat /\
  (forall w, (length (fetch_players w (select_distinct_rsn db))
              <= length (select_distinct_rsn db))%nat) /\
  (forall w pl, In pl (fetch_players w (select_distinct_rsn db)) ->
     exists r p,
       In r (linked_accounts db) /\
       fetch_runemetrics w (la_rsn r) = Some p /\ profile_truthy p = true /\
       pl = {| p_name := default (la_rsn r) (name p);
               p_xp := default 0 (totalxp p);
               p_level := default 0 (totalskill p) |}).
Proof.
  pose proof (select_distinct_rsn_In db) as Hin.
  split; [apply distinct_NoDup|]. split; [exact Hin|]. split.
  { unfold select_distinct_rsn. etransitivity; [apply distinct_length|].
    rewrite length_fmap, (Permutation_length (unique_index_perm _)). lia. }
  split; [intros w; apply fetch_players_length|].
  intros w pl H. destruct (fetch_players_In _ _ _ H) as (rsn & p & Hr & Hf & Ht & ->).
  apply Hin in Hr as (r & Hr & <-). exists r, p. auto.
Qed.

Lemma leaderboard_lines_raises players i acc x :
  leaderboard_lines i players acc = Raise x -> x = OverflowError.
Proof.
  revert i acc. induction players as [|p rest IH]; intros i acc; simpl; [discriminate|].
  unfold leaderboard_line.
  destruct (format_number (p_xp p)) as [t|e] eqn:E; simpl.
  - apply IH.
  - intros [= <-]. apply (format_number_raise _ _ E).
Qed.

Lemma string_app_nonempty_r (a b : string) : b <> "" -> a +:+ b <> "".
Proof.
  intros Hb H. destruct a; simpl in H; [contradiction | discriminate].
Qed.

Lemma leaderboard_entry_nonempty i p t : leaderboard_entry i p t <> "".
Proof.
  unfold leaderboard_entry.
  repeat (apply string_app_nonempty_r). discriminate.
Qed.

Lemma leaderboard_lines_grow players i acc t :
  leaderboard_lines i players acc = Ok t -> acc <> "" -> t <> "".
Proof.
  revert i acc. induction players as [|p rest IH]; intros i acc; simpl.
  - intros [= <-]. auto.
  - unfold leaderboard_line.
    destruct (format_number (p_xp p)) as [x|e]; simpl; [|discriminate].
    intros H Hacc. eapply IH; [exact H|].
    apply string_app_nonempty_r, leaderboard_entry_nonempty.
Qed.

(** The text of the loop is empty only when there is nobody to list. *)
Lemma leaderboard_lines_empty players t :
  leaderboard_lines 0 players "" = Ok t -> (t = "" <-> players = []).
Proof.
  destruct players as [|p rest]; simpl.
  - intros [= <-]. tauto.
  - unfold leaderboard_line.
    destruct (format_number (p_xp p)) as [x|e]; simpl; [|discriminate].
    intros H. split; [|discriminate].
    intros Ht. exfalso. eapply leaderboard_lines_grow; [exact H| |exact Ht].
    apply leaderboard_entry_nonempty.
Qed.

Lemma select_distinct_rsn_nil db :
  select_distinct_rsn db = [] <-> linked_accounts db = [].
Proof.
  split.
  - intros H. destruct (linked_accounts db) as [|r l] eqn:E; [reflexivity|].
    assert (Hr : In (la_rsn r) (select_distinct_rsn db)).
    { apply select_distinct_rsn_In. exists r. rewrite E. split; [left|]; reflexivity. }
    rewrite H in Hr. destruct Hr.
  - intros H. unfold select_distinct_rsn. rewrite H. reflexivity.
Qed.

(** With links stored and no profile found for any of them, the
    leaderboard has nothing to list. *)
Lemma leaderboard_no_data w db :
  linked_accounts db <> [] ->
  Forall (fun r => data_truthy (fetch_runemetrics w (la_rsn r)) = false)
    (linked_accounts db) ->
  leaderboard w db =
    Ok (Embed {| e_title := "🏆 Clan Leaderboard";
                 e_description := Some "No data available";
                 e_fields := []; e_footer := None |}).
Proof.
  intros Hne Hall. unfold leaderboard.
  assert (Hp : fetch_players w (select_distinct_rsn db) = []).
  { apply fetch_players_none, Forall_forall. intros s Hs.
    apply list_elem_of_In, select_distinct_rsn_In in Hs as (r & Hr & <-).
    rewrite Forall_forall in Hall. apply Hall, list_elem_of_In, Hr. }
  destruct (select_distinct_rsn db) as [|a accounts] eqn:Ha.
  { apply select_distinct_rsn_nil in Ha. contradiction. }
  rewrite Hp. reflexivity.
Qed.

(** X10: the outcomes of the leaderboard command.  It answers
    "No accounts linked yet!" exactly when the table of links is empty; when
    there are links and no profile is found for any of them, the embed says
    "No data available"; every embed it sends has the title of the
    leaderboard, no field and a description that is never empty; and the
    only exception it can raise is [OverflowError]. *)
Theorem leaderboard_outcomes (w : web) (db : database) :
  (leaderboard w db = Ok (Message "No accounts linked yet!" false) <->
   linked_accounts db = []) /\
  (linked_accounts db <> [] ->
   Forall (fun r => data_truthy (fetch_runemetrics w (la_rsn r)) = false)
     (linked_accounts db) ->
   leaderboard w db =
     Ok (Embed {| e_title := "🏆 Clan Leaderboard";
                  e_description := Some "No data available";
                  e_fields := []; e_footer := None |})) /\
  (forall e, leaderboard w db = Ok (Embed e) ->
     e_title e = "🏆 Clan Leaderboard" /\ e_fields e = [] /\ e_footer e = None /\
     exists text, e_description e = Some text /\ text <> "" /\
       (text = "No data available" \/
        fetch_players w (select_distinct_rsn db) <> [])) /\
  (forall x, leaderboard w db = Raise x -> x = OverflowError).
Proof.
  split; [|split; [exact (leaderboard_no_data w db)|]].
  { unfold leaderboard.
    destruct (select_distinct_rsn db) as [|a accounts] eqn:Ha.
    - apply select_distinct_rsn_nil in Ha. tauto.
    - assert (Hne : linked_accounts db <> []).
      { intros H. apply select_distinct_rsn_nil in H. congruence. }
      split; [|intros H; contradiction].
      unfold leaderboard_report.
      destruct (leaderboard_lines 0 _ ""); simpl; discriminate. }
  unfold leaderboard.
  destruct (select_distinct_rsn db) as [|a accounts] eqn:Ha.
  { split; intros ?; discriminate. }
  unfold leaderboard_report.
  set (players := fetch_players w (a :: accounts)).
  split.
  - intros e.
    destruct (leaderboard_lines 0 _ "") as [t|x] eqn:E; simpl; [|discriminate].
    intros [= <-]. simpl. repeat split.
    destruct t as [|c t'].
    + exists "No data available". repeat split; [discriminate | left; reflexivity].
    + exists (String c t'). repeat split; [discriminate|]. right.
      intros Hp. rewrite Hp in E. simpl in E. discriminate.
  - intros x.
    destruct (leaderboard_lines 0 _ "") as [t|y] eqn:E; simpl; [discriminate|].
    intros [= <-]. eapply leaderboard_lines_raises. exact E.
Qed.

(** X11: who is on the leaderboard.  The players shown and the players
    left out are together the players given; nobody left out has more
    experience than somebody shown; with at most ten players everybody is
    shown; a player not shown has no more experience than any player shown;
    and the text is empty only when there is no player at all. *)
Theorem leaderboard_top_ten (player_data : list player) :
  let sorted := sort_by_xp player_data in
  let shown := take 10 sorted in
  let left_out := drop 10 sorted in
  Permutation (shown ++ left_out) player_data /\
  (forall p q, In p shown -> In q left_out -> p_xp q <= p_xp p) /\
  ((length player_data <= 10)%nat -> shown = sorted /\ left_out = []) /\
  (forall p, In p player_data ->
     In p shown \/ forall q, In q shown -> p_xp p <= p_xp q) /\
  (forall t, leaderboard_lines 0 shown "" = Ok t -> (t = "" <-> player_data = [])).
Proof.
  intros sorted shown left_out.
  pose proof (sort_by_xp_perm player_data) as Hperm.
  pose proof (sort_by_xp_sorted player_data) as Hsorted.
  fold sorted in Hperm, Hsorted.
  assert (Hcut : forall p q, In p shown -> In q left_out -> p_xp q <= p_xp p).
  { rewrite <- (take_drop 10 sorted) in Hsorted.
    apply StronglySorted_app_inv in Hsorted as [_ H]. exact H. }
  split; [unfold shown, left_out; rewrite take_drop; exact Hperm|].
  split; [exact Hcut|]. split; [|split].
  - intros Hlen. apply Permutation_length in Hperm.
    unfold shown, left_out. split.
    + apply take_ge. lia.
    + apply drop_ge. lia.
  - intros p Hp.
    assert (Hs : In p (shown ++ left_out)).
    { unfold shown, left_out. rewrite take_drop.
      eapply Permutation_in; [symmetry; exact Hperm | exact Hp]. }
    apply in_app_or in Hs as [Hs|Hs]; [left; exact Hs|].
    right. intros q Hq. apply Hcut; assumption.
  - intros t Ht. rewrite (leaderboard_lines_empty _ _ Ht). unfold shown. split.
    + intros Hnil. destruct sorted as [|p l] eqn:Es; [|discriminate].
      apply Permutation_nil. exact Hperm.
    + intros ->. reflexivity.
Qed.

(** ** Linked accounts: listing, linking, unlinking *)

Lemma StronglySorted_fmap {A B : Type} (f : A -> B) (R : B -> B -> Prop) (l : list A) :
  StronglySorted (fun x y => R (f x) (f y)) l -> StronglySorted R (f <$> l).
Proof.
  induction 1 as [|x l _ IH Hx]; [constructor|].
  rewrite fmap_cons. constructor; [exact IH|].
  apply Forall_fmap. exact Hx.
Qed.

(** The names a caller is given come in ascending byte order. *)
Lemma select_rsn_sorted db u :
  StronglySorted (fun a b => String.ltb b a = false) (select_rsn db u).
Proof.
  unfold select_rsn. apply StronglySorted_fmap. apply index_scan_sorted.
Qed.

Lemma view_accounts_reply db u :
  view_accounts db u =
    match index_search db u with
    | [] => Message "You don't have any linked accounts. Use `/link <rsn>` to add one!" true
    | rows =>
        Embed {| e_title := "🔗 Your Linked Accounts"; e_description := None;
                 e_fields :=
                   (fun r => {| f_name := la_rsn r;
                                f_value := "Linked: " +:+ PyStr.slice_to 10 (la_linked_at r);
                                f_inline := true |}) <$> rows;
                 e_footer := None |}
    end.
Proof.
  unfold view_accounts.
  destruct (index_search db u) as [|r rows]; [reflexivity|].
  rewrite fold_add_field. reflexivity.
Qed.

Lemma view_accounts_embed db u e :
  view_accounts db u = Embed e ->
  index_search db u <> [] /\
  e = {| e_title := "🔗 Your Linked Accounts"; e_description := None;
         e_fields :=
           (fun r => {| f_name := la_rsn r;
                        f_value := "Linked: " +:+ PyStr.slice_to 10 (la_linked_at r);
                        f_inline := true |}) <$> index_search db u;
         e_footer := None |}.
Proof.
  rewrite view_accounts_reply.
  destruct (index_search db u) as [|r rows]; [discriminate|].
  intros [= <-]. split; [discriminate | reflexivity].
Qed.

(** X12: the accounts command answers that there are no linked accounts
    exactly when the store holds no row of the caller; otherwise the embed
    has one field per row of the caller, named by the stored names: the
    names are those of the caller's rows, each as often as it is stored,
    and they come in ascending byte order, the order of the index of
    [UNIQUE(discord_id, rsn)], whichever account was linked first; each
    field is inline, belongs to a row of the caller and shows "Linked: "
    followed by at most the first 10 characters of the time the row was
    linked. *)
Theorem view_accounts_listing (db : database) (u : Z) :
  (view_accounts db u =
     Message "You don't have any linked accounts. Use `/link <rsn>` to add one!" true
   <-> rows_of db u = []) /\
  (forall e, view_accounts db u = Embed e ->
     e_title e = "🔗 Your Linked Accounts" /\
     f_name <$> e_fields e = select_rsn db u /\
     Permutation (f_name <$> e_fields e) (la_rsn <$> rows_of db u) /\
     StronglySorted (fun a b => String.ltb b a = false) (f_name <$> e_fields e) /\
     length (e_fields e) = length (rows_of db u) /\
     Forall (fun f => f_inline f = true /\
                      exists r date,
                        In r (linked_accounts db) /\ la_discord_id r = u /\
                        f_name f = la_rsn r /\
                        f_value f = "Linked: " +:+ date /\
                        (code_points date <= 10)%nat /\
                        exists rest, la_linked_at r = date +:+ rest)
       (e_fields e)).
Proof.
  split.
  - rewrite view_accounts_reply, <- (index_scan_nil la_rsn (rows_of db u)),
      <- index_search_rows.
    destruct (index_search db u); split; intros H; try reflexivity; discriminate.
  - intros e He. apply view_accounts_embed in He as [_ ->].
    cbn [e_title e_fields].
    assert (Hsel : f_name <$> ((fun r => {| f_name := la_rsn r;
                                  f_value := "Linked: " +:+ PyStr.slice_to 10 (la_linked_at r);
                                  f_inline := true |}) <$> index_search db u)
                   = select_rsn db u).
    { rewrite <- list_fmap_compose. reflexivity. }
    split; [reflexivity|].
    split; [exact Hsel|].
    split; [rewrite Hsel; apply select_rsn_perm|].
    split; [rewrite Hsel; apply select_rsn_sorted|].
    split; [rewrite length_fmap; apply (Permutation_length (index_search_perm db u))|].
    apply Forall_fmap, Forall_forall. intros x Hx. apply list_elem_of_In in Hx.
    simpl. split; [reflexivity|].
    exists x, (PyStr.slice_to 10 (la_linked_at x)).
    apply index_search_In in Hx as [Hin Hu].
    repeat split; auto using slice_to_bound, slice_to_prefix.
Qed.

Lemma view_accounts_listing_witness :
  let db := {| linked_accounts :=
                 [{| la_discord_id := 7; la_rsn := "Zezima";
                     la_linked_at := "2024-01-01 10:00:00" |};
                  {| la_discord_id := 8; la_rsn := "Durial";
                     la_linked_at := "2024-01-01 11:00:00" |};
                  {| la_discord_id := 7; la_rsn := "Alice";
                     la_linked_at := "2024-01-02 09:00:00" |}];
               drop_log := [] |} in
  exists e,
    view_accounts db 7 = Embed e /\
    f_name <$> e_fields e = ["Alice"; "Zezima"] /\
    f_value <$> e_fields e = ["Linked: 2024-01-02"; "Linked: 2024-01-01"].
Proof.
  intros db. eexists. split; [vm_compute; reflexivity|].
  destruct (view_accounts_listing db 7) as [_ H].
  destruct (H _ ltac:(vm_compute; reflexivity)) as (_ & Hnames & _).
  split; [|vm_compute; reflexivity].
  etransitivity; [exact Hnames | vm_compute; reflexivity].
Defined.

Lemma rows_of_app db rows v :
  rows_of {| linked_accounts := linked_accounts db ++ rows; drop_log := drop_log db |} v
  = (rows_of db v ++ List.filter (fun r => la_discord_id r =? v) rows)%list.
Proof. unfold rows_of. simpl. apply List.filter_app. Qed.

Lemma database_eta db :
  {| linked_accounts := linked_accounts db; drop_log := drop_log db |} = db.
Proof. destruct db; reflexivity. Qed.

(** What a link command does to the store, in each of its outcomes. *)
Lemma link_account_cases w now db u rsn :
  (exists m, link_account w now db u rsn = (db, Message m true)) \/
  (exists p,
     fetch_runemetrics w rsn = Some p /\ profile_truthy p = true /\
     count_links db u (default rsn (name p)) = 0%nat /\
     link_account w now db u rsn =
       ({| linked_accounts :=
             linked_accounts db ++
             [{| la_discord_id := u; la_rsn := default rsn (name p);
                 la_linked_at := now |}];
           drop_log := drop_log db |},
        Message ("✅ Successfully linked **" +:+ default rsn (name p)
                 +:+ "** to your Discord account!") false)).
Proof.
  destruct (fetch_runemetrics w rsn) as [p|] eqn:E.
  - destruct (profile_truthy p) eqn:T.
    + rewrite (link_account_found _ _ _ _ _ _ E T), insert_link_result.
      destruct (Nat.eqb_spec (count_links db u (default rsn (name p))) 0).
      * right. exists p. auto.
      * left. eexists. reflexivity.
    + left. unfold link_account. rewrite E, T. eexists. reflexivity.
  - left. unfold link_account. rewrite E. eexists. reflexivity.
Qed.

Lemma count_links_select db u n :
  count_links db u n = 0%nat <-> ~ In n (select_rsn db u).
Proof.
  rewrite select_rsn_In. unfold count_links.
  induction (linked_accounts db) as [|r l IH]; simpl.
  - split; [intros _ (x & [] & _) | reflexivity].
  - destruct (Z.eqb_spec (la_discord_id r) u) as [Hu|Hu]; simpl.
    + destruct (String.eqb_spec (la_rsn r) n) as [Hn|Hn]; simpl.
      * split; [discriminate | intros H; exfalso; apply H; exists r; auto].
      * rewrite IH. split.
        -- intros H (x & [<- | Hx] & Hxu & Hxn); [contradiction|]. apply H. exists x. auto.
        -- intros H (x & Hx & Hxu & Hxn). apply H. exists x. auto.
    + rewrite IH. split.
      * intros H (x & [<- | Hx] & Hxu & Hxn); [contradiction|]. apply H. exists x. auto.
      * intros H (x & Hx & Hxu & Hxn). apply H. exists x. auto.
Qed.

Lemma view_accounts_In db u x :
  In x (rows_of db u) ->
  exists e,
    view_accounts db u = Embed e /\
    In {| f_name := la_rsn x;
          f_value := "Linked: " +:+ PyStr.slice_to 10 (la_linked_at x);
          f_inline := true |} (e_fields e).
Proof.
  intros H. rewrite view_accounts_reply.
  apply (Permutation_in _ (Permutation_sym (index_search_perm db u))) in H.
  destruct (index_search db u) as [|r0 rows] eqn:E; [destruct H|].
  rewrite <- E in H |- *. eexists. split; [reflexivity|].
  cbn [e_fields].
  apply list_elem_of_In, list_elem_of_fmap. exists x.
  split; [reflexivity | apply list_elem_of_In, H].
Qed.

Lemma link_account_rows_other w now db u rsn v :
  v <> u -> rows_of (fst (link_account w now db u rsn)) v = rows_of db v.
Proof.
  intros Hv.
  destruct (link_account_cases w now db u rsn) as [[m ->] | (p & _ & _ & _ & ->)];
    cbn [fst]; [reflexivity|].
  rewrite rows_of_app. simpl.
  destruct (Z.eqb_spec u v); [congruence|]. apply app_nil_r.
Qed.

Lemma link_account_drop_log w now db u rsn :
  drop_log (fst (link_account w now db u rsn)) = drop_log db.
Proof.
  destruct (link_account_cases w now db u rsn) as [[m ->] | (p & _ & _ & _ & ->)];
    reflexivity.
Qed.

(** X13: what a link command does to the store.  It never touches the
    drops nor the rows of another caller and always answers with a message;
    an ephemeral answer leaves the store as it was; a public answer means
    that the profile was found, that its name was not yet linked by the
    caller, and that exactly one row was added, for the caller, with the
    name of the profile: the caller then has one name more, and the
    accounts command lists it with its date. *)
Theorem link_account_effect (w : web) (now : string) (db : database) (u : Z)
    (rsn : string) :
  let db' := fst (link_account w now db u rsn) in
  let r := snd (link_account w now db u rsn) in
  drop_log db' = drop_log db /\
  (forall v, v <> u -> rows_of db' v = rows_of db v) /\
  (exists m ephemeral, r = Message m ephemeral) /\
  (forall m, r = Message m true -> db' = db) /\
  (forall m, r = Message m false ->
     exists p,
       fetch_runemetrics w rsn = Some p /\ profile_truthy p = true /\
       let actual_name := default rsn (name p) in
       let row := {| la_discord_id := u; la_rsn := actual_name; la_linked_at := now |} in
       ~ In actual_name (select_rsn db u) /\
       (forall x, In x (linked_accounts db') <-> In x (linked_accounts db) \/ x = row) /\
       (forall n, In n (select_rsn db' u) <-> In n (select_rsn db u) \/ n = actual_name) /\
       length (select_rsn db' u) = S (length (select_rsn db u)) /\
       exists e,
         view_accounts db' u = Embed e /\
         In {| f_name := actual_name;
               f_value := "Linked: " +:+ PyStr.slice_to 10 now;
               f_inline := true |} (e_fields e)).
Proof.
  intros db' r. subst db' r.
  split; [apply link_account_drop_log|].
  split; [intros v Hv; apply link_account_rows_other, Hv|].
  destruct (link_account_cases w now db u rsn) as [[m ->] | (p & Hf & Ht & Hc & ->)];
    cbn [fst snd].
  - split; [eauto|]. split; [reflexivity | discriminate].
  - split; [eauto|]. split; [discriminate|].
    intros m _. exists p. split; [exact Hf|]. split; [exact Ht|].
    cbn zeta.
    set (row := {| la_discord_id := u; la_rsn := default rsn (name p);
                   la_linked_at := now |}).
    assert (Hrows : rows_of {| linked_accounts := linked_accounts db ++ [row];
                               drop_log := drop_log db |} u =
                    (rows_of db u ++ [row])%list).
    { rewrite rows_of_app. simpl. rewrite Z.eqb_refl. reflexivity. }
    split; [apply count_links_select; exact Hc|].
    split.
    { intros x. cbn [linked_accounts]. rewrite in_app_iff. simpl. intuition. }
    split.
    { intros n. rewrite !select_rsn_In. cbn [linked_accounts]. split.
      - intros (x & Hx & Hxu & Hxn). apply in_app_or in Hx as [Hx | [<- | []]].
        + left. exists x. auto.
        + right. symmetry. exact Hxn.
      - intros [(x & Hx & Hxu & Hxn) | ->].
        + exists x. split; [apply in_or_app; left; exact Hx | auto].
        + exists row. split; [apply in_or_app; right; left; reflexivity|].
          split; reflexivity. }
    split.
    { rewrite !select_rsn_length, Hrows, length_app. simpl. lia. }
    apply (view_accounts_In _ u row). rewrite Hrows.
    apply in_or_app. right. left. reflexivity.
Qed.

Lemma unlink_matches_spec u rsn r :
  unlink_matches u rsn r = true <->
  la_discord_id r = u /\ Sqlite.lower (la_rsn r) = Sqlite.lower rsn.
Proof.
  unfold unlink_matches. rewrite andb_true_iff, Z.eqb_eq, String.eqb_eq. tauto.
Qed.

Lemma unlink_account_store db u rsn :
  fst (unlink_account db u rsn) =
    {| linked_accounts :=
         List.filter (fun r => negb (unlink_matches u rsn r)) (linked_accounts db);
       drop_log := drop_log db |}.
Proof.
  unfold unlink_account, delete_link.
  destruct (0 <? _)%nat; reflexivity.
Qed.

Lemma unlink_account_reply db u rsn :
  snd (unlink_account db u rsn) =
    if existsb (unlink_matches u rsn) (linked_accounts db)
    then Message ("✅ Unlinked **" +:+ rsn +:+ "** from your account.") false
    else Message ("❌ **" +:+ rsn +:+ "** is not linked to your account.") true.
Proof.
  unfold unlink_account, delete_link. rewrite existsb_filter.
  destruct (length (List.filter (unlink_matches u rsn) (linked_accounts db))); reflexivity.
Qed.

Lemma unlink_account_rows_other db u rsn v :
  v <> u -> rows_of (fst (unlink_account db u rsn)) v = rows_of db v.
Proof.
  intros Hv. rewrite unlink_account_store. unfold rows_of. cbn [linked_accounts].
  induction (linked_accounts db) as [|x l IH]; [reflexivity|].
  cbn [List.filter]. unfold unlink_matches at 1.
  destruct (Z.eqb_spec (la_discord_id x) u) as [Hu|Hu]; cbn [andb negb].
  - destruct (String.eqb _ _); cbn [negb List.filter].
    + destruct (Z.eqb_spec (la_discord_id x) v); [congruence | exact IH].
    + rewrite IH. reflexivity.
  - cbn [List.filter]. rewrite IH. reflexivity.
Qed.

(** X14: what an unlink command does to the store.  It never touches
    the drops nor the rows of another caller; it removes exactly the rows
    of the caller whose name equals the typed name up to ASCII case, so no
    such name is left; it reports success when the caller had such a name,
    and otherwise reports a failure and leaves the store as it was;
    unlinking the same name again fails and changes nothing; and two typed
    names that differ only in ASCII case have the same effect. *)
Theorem unlink_account_effect (db : database) (u : Z) (rsn : string) :
  let db' := fst (unlink_account db u rsn) in
  let r := snd (unlink_account db u rsn) in
  drop_log db' = drop_log db /\
  (forall x, In x (linked_accounts db') <->
             In x (linked_accounts db) /\
             ~ (la_discord_id x = u /\ Sqlite.lower (la_rsn x) = Sqlite.lower rsn)) /\
  (forall v, v <> u -> rows_of db' v = rows_of db v) /\
  (forall n, In n (select_rsn db' u) -> Sqlite.lower n <> Sqlite.lower rsn) /\
  ((exists n, In n (select_rsn db u) /\ Sqlite.lower n = Sqlite.lower rsn) ->
   r = Message ("✅ Unlinked **" +:+ rsn +:+ "** from your account.") false) /\
  ((forall n, In n (select_rsn db u) -> Sqlite.lower n <> Sqlite.lower rsn) ->
   r = Message ("❌ **" +:+ rsn +:+ "** is not linked to your account.") true /\
   db' = db) /\
  unlink_account db' u rsn =
    (db', Message ("❌ **" +:+ rsn +:+ "** is not linked to your account.") true) /\
  (forall typed, Sqlite.lower typed = Sqlite.lower rsn ->
     fst (unlink_account db u typed) = db').
Proof.
  intros db' r. subst db' r.
  rewrite unlink_account_store, unlink_account_reply. cbn [drop_log linked_accounts].
  assert (Hsel : forall d n, In n (select_rsn d u) <->
                   exists x, In x (linked_accounts d) /\ la_discord_id x = u /\ la_rsn x = n).
  { intros d n. apply select_rsn_In. }
  split; [reflexivity|]. split; [|split; [|split; [|split; [|split; [|split]]]]].
  - intros x. rewrite filter_In, negb_true_iff, <- not_true_iff_false, unlink_matches_spec.
    tauto.
  - intros v Hv. rewrite <- (unlink_account_store db u rsn).
    apply unlink_account_rows_other, Hv.
  - intros n Hn. apply Hsel in Hn as (x & Hx & Hu & <-). cbn [linked_accounts] in Hx.
    apply filter_In in Hx as [_ Hx]. apply negb_true_iff in Hx.
    intros Hl. apply not_true_iff_false in Hx. apply Hx, unlink_matches_spec. auto.
  - intros (n & Hn & Hl). apply Hsel in Hn as (x & Hx & Hu & <-).
    assert (He : existsb (unlink_matches u rsn) (linked_accounts db) = true).
    { apply existsb_exists. exists x. split; [exact Hx|]. apply unlink_matches_spec. auto. }
    rewrite He. reflexivity.
  - intros Hnone.
    assert (Hf : forall x, In x (linked_accounts db) -> unlink_matches u rsn x = false).
    { intros x Hx. apply not_true_iff_false. rewrite unlink_matches_spec. intros [Hu Hl].
      apply (Hnone (la_rsn x)); [|exact Hl]. apply Hsel. exists x. auto. }
    assert (He : existsb (unlink_matches u rsn) (linked_accounts db) = false).
    { apply not_true_iff_false. rewrite existsb_exists. intros (x & Hx & Hm).
      rewrite (Hf x Hx) in Hm. discriminate. }
    rewrite He. split; [reflexivity|].
    rewrite filter_all; [apply database_eta|].
    intros x Hx. rewrite (Hf x Hx). reflexivity.
  - apply unlink_account_none. cbn [linked_accounts]. intros x Hx.
    apply filter_In in Hx as [_ Hx]. apply negb_true_iff in Hx. exact Hx.
  - intros typed Hl. rewrite unlink_account_store. f_equal.
    apply List.filter_ext. intros x. unfold unlink_matches. rewrite Hl. reflexivity.
Qed.

(** An unlink command that reports a failure has removed nothing. *)
Lemma unlink_account_failed db u rsn m :
  snd (unlink_account db u rsn) = Message m true -> fst (unlink_account db u rsn) = db.
Proof.
  rewrite unlink_account_reply, unlink_account_store.
  destruct (existsb (unlink_matches u rsn) (linked_accounts db)) eqn:E; [discriminate|].
  intros _. rewrite filter_all; [apply database_eta|].
  intros x Hx. destruct (unlink_matches u rsn x) eqn:Ex; [|reflexivity].
  assert (H : existsb (unlink_matches u rsn) (linked_accounts db) = true).
  { apply existsb_exists. exists x. auto. }
  congruence.
Qed.

Lemma filter_sublist {A : Type} (f : A -> bool) (l : list A) :
  sublist (List.filter f l) l.
Proof.
  induction l as [|y l IH]; [constructor|].
  cbn [List.filter]. destruct (f y); [apply sublist_skip | apply sublist_cons]; exact IH.
Qed.

Lemma filter_negb_shorter {A : Type} (f : A -> bool) (l : list A) :
  existsb f l = true ->
  (length (List.filter (fun x => negb (f x)) l) < length l)%nat.
Proof.
  induction l as [|y l IH]; [discriminate|].
  cbn [existsb List.filter length].
  pose proof (List.filter_length_le (fun x => negb (f x)) l) as Hle.
  destruct (f y); cbn [orb negb length]; [lia|].
  intros H. specialize (IH H). lia.
Qed.

(** ** Commands against the store: isolation and failure *)

Section Isolation.

Variable py_strip : string -> string.
Variable py_int : string -> option Z.
Variable py_lower : string -> string.

(** X15: a command run by one caller never changes what another caller
    has: the rows, the list of linked names, the answer of the accounts
    command and the recorded drops of every other caller are the same
    before and after. *)
Theorem run_isolation (i : interaction) (c : command) (db : database) (v : Z) :
  v <> user_id i ->
  let db' := fst (run py_strip py_int py_lower i c db) in
  rows_of db' v = rows_of db v /\
  select_rsn db' v = select_rsn db v /\
  view_accounts db' v = view_accounts db v /\
  List.filter (fun d => dl_discord_id d =? v) (drop_log db') =
    List.filter (fun d => dl_discord_id d =? v) (drop_log db).
Proof.
  intros Hv db'.
  assert (Hrows : rows_of db' v = rows_of db v).
  { subst db'. destruct c as [rsn|rsn| |rsn|rsn1 rsn2|item rsn|rsn|]; cbn [run];
      try reflexivity.
    - destruct (link_account _ _ _ _ _) as [d r] eqn:E. cbn [fst].
      change d with (fst (d, r)). rewrite <- E. apply link_account_rows_other, Hv.
    - destruct (unlink_account _ _ _) as [d r] eqn:E. cbn [fst].
      change d with (fst (d, r)). rewrite <- E. apply unlink_account_rows_other, Hv.
    - destruct (log_drop _ _ _ _ _ _ _) as [d r] eqn:E. cbn [fst].
      unfold rows_of. change d with (fst (d, r)). rewrite <- E, log_drop_links.
      reflexivity. }
  split; [exact Hrows|].
  split; [unfold select_rsn; rewrite !index_search_rows, Hrows; reflexivity|].
  split; [rewrite !view_accounts_reply, !index_search_rows, Hrows; reflexivity|].
  subst db'.
  destruct (run_drop_log py_strip py_int py_lower i c db)
    as [-> | (item & rsn & selected & _ & ->)]; [reflexivity|].
  rewrite List.filter_app. simpl.
  destruct (Z.eqb_spec (user_id i) v); [congruence|]. apply app_nil_r.
Qed.

(** X16: the reply of a command tells the truth about the store.  An
    ephemeral message means that nothing was written: the store is what it
    was.  A public message of link means that exactly one row was added to
    the links and the drops were left alone; a public message of unlink
    means that at least one row was removed from the links; and the
    announcement of a drop means that exactly one row was added to the drop
    log and the links were left alone. *)
Theorem run_reply_truthful (i : interaction) (c : command) (db : database) :
  let db' := fst (run py_strip py_int py_lower i c db) in
  let r := snd (run py_strip py_int py_lower i c db) in
  (forall m, r = Ok (Message m true) -> db' = db) /\
  (forall rsn m, c = Link rsn -> r = Ok (Message m false) ->
     length (linked_accounts db') = S (length (linked_accounts db)) /\
     (exists row, linked_accounts db' = (linked_accounts db ++ [row])%list /\
                  la_discord_id row = user_id i /\ la_linked_at row = now i) /\
     drop_log db' = drop_log db) /\
  (forall rsn m, c = Unlink rsn -> r = Ok (Message m false) ->
     (length (linked_accounts db') < length (linked_accounts db))%nat /\
     sublist (linked_accounts db') (linked_accounts db) /\
     drop_log db' = drop_log db) /\
  (forall item rsn e, c = Drop item rsn -> r = Ok (Embed e) ->
     length (drop_log db') = S (length (drop_log db)) /\
     linked_accounts db' = linked_accounts db).
Proof.
  intros db' r. subst db' r.
  destruct c as [rsn|rsn| |rsn|rsn1 rsn2|item rsn|rsn|]; cbn [run].
  - destruct (link_account_cases (net i) (now i) db (user_id i) rsn)
      as [[m ->] | (p & _ & _ & _ & ->)]; cbn [fst snd].
    + split; [reflexivity|]. repeat split; try discriminate; intros; discriminate.
    + split; [discriminate|]. split; [|repeat split; intros; discriminate].
      intros rsn0 m _ _. cbn [linked_accounts drop_log].
      split; [rewrite length_app; simpl; lia|].
      split; [|reflexivity]. eexists. split; [reflexivity|]. split; reflexivity.
  - destruct (unlink_account db (user_id i) rsn) as [d rep] eqn:E. cbn [fst snd].
    assert (Hd : d = fst (unlink_account db (user_id i) rsn)) by (rewrite E; reflexivity).
    assert (Hrep : rep = snd (unlink_account db (user_id i) rsn)) by (rewrite E; reflexivity).
    split; [|split; [intros; discriminate|split; [|intros; discriminate]]].
    + intros m [= Hm]. rewrite Hd. apply (unlink_account_failed _ _ _ m).
      rewrite <- Hrep. exact Hm.
    + intros rsn0 m _ [= Hm].
      rewrite Hrep, unlink_account_reply in Hm.
      destruct (existsb (unlink_matches (user_id i) rsn) (linked_accounts db)) eqn:Ex;
        [|discriminate].
      rewrite Hd, unlink_account_store. cbn [linked_accounts drop_log].
      split; [|split; [|reflexivity]].
      * apply filter_negb_shorter, Ex.
      * apply filter_sublist.
  - cbn [fst snd]. split; [reflexivity|]. repeat split; intros; discriminate.
  - cbn [fst snd]. split; [reflexivity|]. repeat split; intros; discriminate.
  - cbn [fst snd]. split; [reflexivity|]. repeat split; intros; discriminate.
  - destruct (log_drop_appends py_lower (now i) db (user_id i) (display_name i) item rsn)
      as [[m ->] | (selected & e & ->)]; cbn [fst snd].
    + split; [reflexivity|]. repeat split; intros; discriminate.
    + split; [discriminate|]. split; [intros; discriminate|]. split; [intros; discriminate|].
      intros item0 rsn0 e0 _ _. cbn [linked_accounts drop_log].
      split; [rewrite length_app; simpl; lia | reflexivity].
  - cbn [fst snd]. split; [reflexivity|]. repeat split; intros; discriminate.
  - cbn [fst snd]. split; [reflexivity|]. repeat split; intros; discriminate.
Qed.

End Isolation.

Lemma run_isolation_witness :
  let i := {| user_id := 7; display_name := "Zed";
              net := {| get_json := fun _ => Failed; get_text := fun _ => Failed |};
              now := "2024-01-02 09:00:00" |} in
  let db := {| linked_accounts :=
                 [{| la_discord_id := 7; la_rsn := "Zezima";
                     la_linked_at := "2024-01-01 10:00:00" |};
                  {| la_discord_id := 8; la_rsn := "Zezima";
                     la_linked_at := "2024-01-01 11:00:00" |}];
               drop_log := [] |} in
  let db' := fst (run AsciiText.strip AsciiText.int Sqlite.lower i (Unlink "ZEZIMA") db) in
  select_rsn db' 7 = [] /\
  select_rsn db' 8 = select_rsn db 8 /\
  view_accounts db' 8 = view_accounts db 8.
Proof.
  intros i db db'. split; [vm_compute; reflexivity|].
  destruct (run_isolation AsciiText.strip AsciiText.int Sqlite.lower i (Unlink "ZEZIMA")
              db 8 ltac:(simpl; lia))
    as (_ & H2 & H3 & _).
  split; [exact H2 | exact H3].
Defined.

(** ** From a recorded drop to the listing *)

(** An element whose key is strictly above every other key sorts first,
    wherever it stood. *)
Lemma sort_desc_snoc {A K : Type} (ltb : K -> K -> bool) (key : A -> K)
    (l : list A) (x : A) :
  (forall y, In y l -> ltb (key y) (key x) = true) ->
  StableSort.sort_desc ltb key (l ++ [x]) = x :: StableSort.sort_desc ltb key l.
Proof.
  unfold StableSort.sort_desc. rewrite fold_right_app. simpl.
  induction l as [|y l IH]; intros H; simpl; [reflexivity|].
  rewrite IH by (intros z Hz; apply H; right; exact Hz).
  simpl. rewrite (H y) by (left; reflexivity). reflexivity.
Qed.

Lemma select_drops_newest db u selected item now filter :
  (forall r, In r (drop_log db) -> String.ltb (dl_timestamp r) now = true) ->
  let row := {| dl_discord_id := u; dl_rsn := selected; dl_item_name := item;
                dl_timestamp := now |} in
  drops_matching (insert_drop db u selected item now) filter =
    (drops_matching db filter ++ [row])%list ->
  select_drops (insert_drop db u selected item now) filter =
    row :: take 9 (select_drops db filter).
Proof.
  intros Hnew row Hm. unfold select_drops. rewrite Hm.
  unfold Sqlite.order_by_desc. rewrite sort_desc_snoc.
  - rewrite take_take. reflexivity.
  - intros y Hy. apply Hnew.
    destruct filter as [n|]; simpl in Hy; [|exact Hy].
    apply filter_In in Hy as [Hy _]. exact Hy.
Qed.

(** X17: a drop that has just been recorded is the first one listed.
    When the time of the drop is later than the time of every recorded
    drop and the drop command answers with the announcement, the
    announcement names the account and the item, the drops command lists
    that drop first and only earlier recorded drops after it, also when the
    listing is filtered by a name equal to the account up to ASCII case, and
    a listing filtered by another name is what it was before. *)
Theorem drop_then_listed (py_lower : string -> string) (now : string)
    (db db' : database) (u : Z) (display item : string) (rsn : option string)
    (e : embed) :
  (forall r, In r (drop_log db) -> String.ltb (dl_timestamp r) now = true) ->
  log_drop py_lower now db u display item rsn = (db', Embed e) ->
  exists selected,
    let row := {| dl_discord_id := u; dl_rsn := selected; dl_item_name := item;
                  dl_timestamp := now |} in
    e_description e = Some ("**" +:+ selected +:+ "** received **" +:+ item +:+ "**!") /\
    (exists older, select_drops db' None = row :: older /\
                   forall r, In r older -> In r (drop_log db)) /\
    (forall n, Sqlite.lower n = Sqlite.lower selected ->
       exists older, select_drops db' (Some n) = row :: older /\
                     forall r, In r older -> In r (drops_matching db (Some n))) /\
    (forall n, Sqlite.lower n <> Sqlite.lower selected ->
       select_drops db' (Some n) = select_drops db (Some n)) /\
    exists rest,
      view_drops db' None =
        Embed {| e_title := "📜 Recent Drops"; e_description := None;
                 e_fields :=
                   {| f_name := item;
                      f_value := "**" +:+ selected +:+ "** - " +:+ PyStr.slice_to 10 now;
                      f_inline := true |} :: rest;
                 e_footer := None |}.
Proof.
  intros Hnew Hlog.
  destruct (log_drop_appends py_lower now db u display item rsn)
    as [[m Hm] | (selected & e0 & He)]; [rewrite Hm in Hlog; discriminate|].
  assert (Hdesc : e_description e =
                  Some ("**" +:+ selected +:+ "** received **" +:+ item +:+ "**!")).
  { clear Hnew. unfold log_drop in He, Hlog.
    destruct (select_rsn db u) as [|first rest]; [discriminate|].
    destruct rsn as [[|c s]|].
    - injection He as Hs _. injection Hlog as _ <-.
      apply app_inv_head in Hs. injection Hs as <-. reflexivity.
    - destruct (negb _); [discriminate|].
      injection He as Hs _. injection Hlog as _ <-.
      apply app_inv_head in Hs. injection Hs as <-. reflexivity.
    - injection He as Hs _. injection Hlog as _ <-.
      apply app_inv_head in Hs. injection Hs as <-. reflexivity. }
  rewrite He in Hlog. injection Hlog as <- <-.
  change {| linked_accounts := linked_accounts db;
            drop_log := drop_log db ++
                        [{| dl_discord_id := u; dl_rsn := selected; dl_item_name := item;
                            dl_timestamp := now |}] |}
    with (insert_drop db u selected item now).
  exists selected. cbn zeta.
  assert (Hold : forall filter r,
            In r (take 9 (select_drops db filter)) -> In r (drops_matching db filter)).
  { intros filter r Hr. apply list_elem_of_In in Hr. apply list_elem_of_In.
    unfold select_drops in Hr.
    assert (Hs : r ∈ Sqlite.order_by_desc dl_timestamp (drops_matching db filter)).
    { eapply elem_of_sublist; [exact Hr|].
      etransitivity; apply sublist_take. }
    rewrite (order_by_desc_perm dl_timestamp (drops_matching db filter)) in Hs.
    exact Hs. }
  assert (Hall : select_drops (insert_drop db u selected item now) None =
                 {| dl_discord_id := u; dl_rsn := selected; dl_item_name := item;
                    dl_timestamp := now |} :: take 9 (select_drops db None)).
  { apply select_drops_newest; [exact Hnew | reflexivity]. }
  split; [exact Hdesc|]. split; [|split; [|split]].
  - eexists. split; [exact Hall|]. intros r Hr. exact (Hold None r Hr).
  - intros n Hn. eexists. split; [|intros r Hr; exact (Hold (Some n) r Hr)].
    apply select_drops_newest; [exact Hnew|].
    simpl. rewrite List.filter_app. simpl. rewrite Hn, String.eqb_refl. reflexivity.
  - intros n Hn. unfold select_drops. f_equal. f_equal.
    simpl. rewrite List.filter_app. simpl.
    destruct (String.eqb_spec (Sqlite.lower selected) (Sqlite.lower n)) as [Heq|_];
      [congruence|]. apply app_nil_r.
  - rewrite view_drops_reply. cbn [PyStr.truthy]. rewrite Hall.
    eexists. reflexivity.
Qed.

Lemma drop_then_listed_witness :
  let db := {| linked_accounts :=
                 [{| la_discord_id := 7; la_rsn := "Zezima";
                     la_linked_at := "2024-01-01 10:00:00" |}];
               drop_log :=
                 [{| dl_discord_id := 8; dl_rsn := "Durial";
                     dl_item_name := "Abyssal whip";
                     dl_timestamp := "2024-01-01 12:00:00" |}] |} in
  let now := "2024-01-02 09:00:00" in
  let db' := fst (log_drop Sqlite.lower now db 7 "Zed" "Dragon pickaxe" None) in
  exists selected older,
    select_drops db' None =
      {| dl_discord_id := 7; dl_rsn := selected; dl_item_name := "Dragon pickaxe";
         dl_timestamp := now |} :: older.
Proof.
  intros db now db'.
  destruct (drop_then_listed Sqlite.lower now db db' 7 "Zed" "Dragon pickaxe" None
              {| e_title := "🎉 Rare Drop!";
                 e_description := Some "**Zezima** received **Dragon pickaxe**!";
                 e_fields := [];
                 e_footer := Some "Logged by Zed" |})
    as (selected & _ & (older & H & _) & _).
  - intros r [<- | []]. vm_compute. reflexivity.
  - vm_compute. reflexivity.
  - exists selected, older. exact H.
Defined.

(** ** No name twice in a caller's listing *)

Lemma unique_links_rows db u : unique_links db -> List.NoDup (la_rsn <$> rows_of db u).
Proof.
  unfold unique_links, rows_of.
  induction (linked_accounts db) as [|r l IH]; [constructor|].
  rewrite fmap_cons, NoDup_cons. intros [Hr Hl]. cbn [List.filter].
  destruct (Z.eqb_spec (la_discord_id r) u) as [Hu|Hu]; [|apply IH, Hl].
  rewrite fmap_cons. constructor; [|apply IH, Hl].
  intros Hin. apply Hr. apply list_elem_of_In, list_elem_of_fmap in Hin as (x & Hx & Hin).
  apply list_elem_of_In, filter_In in Hin as [Hin Hxu]. apply Z.eqb_eq in Hxu.
  apply list_elem_of_fmap. exists x. split; [|apply list_elem_of_In, Hin].
  unfold link_key. congruence.
Qed.

Lemma unique_links_select db u : unique_links db -> List.NoDup (select_rsn db u).
Proof.
  intros H. apply (Permutation_NoDup (Permutation_sym (select_rsn_perm db u))).
  apply unique_links_rows, H.
Qed.

(** X18: in every store the bot can reach, the linked names of a caller
    hold no name twice, so the accounts command never shows two fields with
    the same name; and after a successful link each name the caller already
    had is still stored exactly once. *)
Theorem accounts_never_repeat (py_strip : string -> string)
    (py_int : string -> option Z) (py_lower : string -> string)
    (db : database) (u : Z) :
  reachable py_strip py_int py_lower db ->
  List.NoDup (select_rsn db u) /\
  (forall e, view_accounts db u = Embed e -> List.NoDup (f_name <$> e_fields e)) /\
  (forall w now rsn m,
     snd (link_account w now db u rsn) = Message m false ->
     forall n, In n (select_rsn db u) ->
       count_links (fst (link_account w now db u rsn)) u n = 1%nat).
Proof.
  intros Hreach.
  pose proof (reachable_unique_links py_strip py_int py_lower db Hreach) as Hu.
  pose proof (unique_links_select db u Hu) as Hnd.
  split; [exact Hnd|]. split.
  - intros e He. apply view_accounts_embed in He as [_ ->]. cbn [e_fields].
    rewrite <- list_fmap_compose. exact Hnd.
  - intros w now rsn m Hm n Hn.
    pose proof (unique_links_link w now db u rsn Hu) as Hu'.
    pose proof (count_links_unique _ u n Hu') as Hle.
    assert (Hpos : count_links (fst (link_account w now db u rsn)) u n <> 0%nat).
    { rewrite count_links_select.
      destruct (link_account_cases w now db u rsn) as [[m' Hl] | (p & _ & _ & _ & Hl)];
        rewrite Hl in *; cbn [fst snd] in *; [discriminate|].
      intros H. apply H. apply select_rsn_In. cbn [linked_accounts].
      apply select_rsn_In in Hn as (x & Hx & Hxu & Hxn).
      exists x. split; [apply in_or_app; left; exact Hx | auto]. }
    lia.
Qed.

Lemma accounts_never_repeat_witness :
  let zezima := {| name := Some "Zezima"; totalxp := Some 5;
                   totalskill := None; combatlevel := None;
                   questscomplete := None; questsstarted := None;
                   questsnotstarted := None; activities := None;
                   error := None |} in
  let i := {| user_id := 7; display_name := "Zed";
              net := {| get_json := fun _ => Reply 200 (Some zezima);
                        get_text := fun _ => Failed |};
              now := "2024-01-01 10:00:00" |} in
  let db := run_all AsciiText.strip AsciiText.int Sqlite.lower
              [(i, Link "zezima"); (i, Link "ZEZIMA")] empty_db in
  select_rsn db 7 = ["Zezima"] /\ List.NoDup (select_rsn db 7).
Proof.
  intros zezima i db. split; [vm_compute; reflexivity|].
  destruct (accounts_never_repeat AsciiText.strip AsciiText.int Sqlite.lower db 7) as [H _].
  - apply (reachable_run _ _ _ i (Link "ZEZIMA")).
    apply (reachable_run _ _ _ i (Link "zezima")).
    apply reachable_init.
  - exact H.
Defined.

(** ** When the two services cannot be reached *)

Lemma fetch_runemetrics_unavailable w rsn :
  unavailable (get_json w (RUNEMETRICS_URL (PyStr.escape_spaces rsn))) ->
  fetch_runemetrics w rsn = None.
Proof.
  unfold fetch_runemetrics, unavailable.
  destruct (get_json w _) as [status [data|]|]; try reflexivity.
  intros H. destruct (Z.eqb_spec status 200); [contradiction | reflexivity].
Qed.

Lemma fetch_hiscores_unavailable py_strip py_int w rsn :
  unavailable (get_text w (HISCORES_URL (PyStr.escape_spaces rsn))) ->
  fetch_hiscores py_strip py_int w rsn = None.
Proof.
  unfold fetch_hiscores, unavailable.
  destruct (get_text w _) as [status body|]; [|reflexivity].
  intros H. destruct (Z.eqb_spec status 200); [contradiction | reflexivity].
Qed.

(** X19: when no request gives a reply with status 200 (each one fails
    or has another status), the link command answers that the player could
    not be found and stores nothing; the stats command answers that the
    player could not be found, for a typed name and for a linked name; the
    compare command lists both names as not found; and with links stored
    the leaderboard says "No data available". *)
Theorem offline_behaviour (py_strip : string -> string) (py_int : string -> option Z)
    (w : web) :
  (forall url, unavailable (get_json w url)) ->
  (forall url, unavailable (get_text w url)) ->
  (forall now db u rsn,
     link_account w now db u rsn =
       (db, Message ("❌ Could not find player **" +:+ rsn
                     +:+ "**. Make sure the name is correct and the profile is public.")
              true)) /\
  (forall db u rsn, rsn <> "" ->
     stats_lookup py_strip py_int w db u (Some rsn) =
       Ok (Message ("❌ Could not find player **" +:+ rsn +:+ "**.") true)) /\
  (forall db u, select_rsn db u <> [] ->
     exists n,
       In n (select_rsn db u) /\
       stats_lookup py_strip py_int w db u None =
         Ok (Message ("❌ Could not find player **" +:+ n +:+ "**.") true)) /\
  (forall rsn1 rsn2,
     compare_stats w rsn1 rsn2 =
       Ok (Message ("❌ Could not find player(s): " +:+ rsn1 +:+ ", " +:+ rsn2) true)) /\
  (forall db, linked_accounts db <> [] ->
     leaderboard w db =
       Ok (Embed {| e_title := "🏆 Clan Leaderboard";
                    e_description := Some "No data available";
                    e_fields := []; e_footer := None |})).
Proof.
  intros Hjson Htext.
  assert (Hr : forall rsn, fetch_runemetrics w rsn = None).
  { intros rsn. apply fetch_runemetrics_unavailable, Hjson. }
  assert (Hh : forall rsn, fetch_hiscores py_strip py_int w rsn = None).
  { intros rsn. apply fetch_hiscores_unavailable, Htext. }
  split; [|split; [|split; [|split]]].
  - intros now db u rsn. unfold link_account. rewrite Hr. reflexivity.
  - intros db u rsn Hne. unfold stats_lookup.
    destruct rsn as [|a s]; [contradiction|]. rewrite Hr, Hh. reflexivity.
  - intros db u Hsel. unfold stats_lookup.
    destruct (select_rsn db u) as [|first rest]; [contradiction|].
    exists first. split; [left; reflexivity|]. cbn [head].
    rewrite Hr, Hh. reflexivity.
  - intros rsn1 rsn2. unfold compare_stats. rewrite !Hr. reflexivity.
  - intros db Hne. apply leaderboard_no_data; [exact Hne|].
    apply Forall_forall. intros r _. rewrite Hr. reflexivity.
Qed.

Lemma offline_behaviour_witness :
  let w := {| get_json := fun _ => Failed;
              get_text := fun _ => Reply 503 "Service Unavailable" |} in
  let db := {| linked_accounts :=
                 [{| la_discord_id := 7; la_rsn := "Zezima";
                     la_linked_at := "2024-01-01 10:00:00" |}];
               drop_log := [] |} in
  compare_stats w "Zezima" "Durial" =
    Ok (Message "❌ Could not find player(s): Zezima, Durial" true) /\
  leaderboard w db =
    Ok (Embed {| e_title := "🏆 Clan Leaderboard";
                 e_description := Some "No data available";
                 e_fields := []; e_footer := None |}).
Proof.
  intros w db.
  destruct (offline_behaviour AsciiText.strip AsciiText.int w
              ltac:(intros url; exact I) ltac:(intros url; simpl; lia))
    as (_ & _ & _ & H4 & H5).
  split; [exact (H4 "Zezima" "Durial")|].
  apply H5. discriminate.
Defined.
